(** * Revenue battle: webhook ledger, refund proration and totals endpoint

    A shallow embedding of the webhook handler (classification cache,
    contribution computation, paid / cancelled / refund handlers, event
    routing) and of the read-only totals endpoint, followed by the
    properties established about them.

    Modelling conventions.
    - A JavaScript number is [num]: an exact rational or [NaN].  Rounding
      and the infinities of IEEE doubles are outside the model.
    - Shopify identifiers (order, product and line item ids) are JSON
      integers; the property key or store key built from an integer is its
      decimal string, which is injective, so maps are keyed by [Z].
    - The key-value store is an explicit value [KV] threaded through every
      handler; a handler that may throw returns [Throw] together with the
      store as it stood when the exception was raised.
    - The store holds JavaScript values as they were written; its float
      increment is exact addition, and it refuses an increment that is not
      a number: the pipeline of [updateTotals] is then rejected and the
      handler throws.
    - A string is the sequence of bytes of its UTF-8 encoding.
    - A payload is typed; what the handlers do on a list field that cannot
      be run through is kept in two flags of [Payload].
    - The clock is one integer (seconds) per request.
    - String-to-number coercion ([Number], [parseMoney]) has already been
      applied to the numeric fields of a payload. *)

From Stdlib Require Import ZArith QArith Qminmax Lqa Ascii String.
From stdpp Require Import base gmap strings list sorting.

Local Open Scope Z_scope.
Local Open Scope string_scope.

(** ** JavaScript numbers *)

Inductive num : Type :=
  | Num (q : Q)
  | NaN.

Definition nlift2 (f : Q -> Q -> Q) (a b : num) : num :=
  match a, b with
  | Num x, Num y => Num (f x y)
  | _, _ => NaN
  end.

Definition nadd : num -> num -> num := nlift2 Qplus.
Definition nsub : num -> num -> num := nlift2 Qminus.
Definition nmul : num -> num -> num := nlift2 Qmult.

(** [Math.min] and [Math.max] on two arguments: [NaN] if either is. *)
Definition nmin : num -> num -> num := nlift2 Qmin.
Definition nmax : num -> num -> num := nlift2 Qmax.

(** [a / b].  A zero divisor would give an infinity or [NaN] in
    JavaScript; the only division of the program is guarded against it
    (the divisor is truthy), and the model answers [NaN] there. *)
Definition ndiv (a b : num) : num :=
  match a, b with
  | Num x, Num y => if Qeq_bool y 0 then NaN else Num (x / y)
  | _, _ => NaN
  end.

Definition nneg (a : num) : num :=
  match a with
  | Num x => Num (- x)
  | NaN => NaN
  end.

(** Truthiness of a number: neither zero nor [NaN]. *)
Definition truthy (a : num) : bool :=
  match a with
  | Num x => negb (Qeq_bool x 0)
  | NaN => false
  end.

(** [a || b] on numbers. *)
Definition jsor (a b : num) : num := if truthy a then a else b.

(** [a <= b]: false as soon as one side is [NaN]. *)
Definition nle (a b : num) : bool :=
  match a, b with
  | Num x, Num y => Qle_bool x y
  | _, _ => false
  end.

(** [a < b]. *)
Definition nlt (a b : num) : bool :=
  match a, b with
  | Num x, Num y => negb (Qle_bool y x)
  | _, _ => false
  end.

(** [a === 0]. *)
Definition is_zero (a : num) : bool :=
  match a with
  | Num x => Qeq_bool x 0
  | NaN => false
  end.

Definition zero : num := Num 0.
Definition one : num := Num 1.

(** Equality of numbers up to the representation of the fraction. *)
Definition num_eq (a b : num) : Prop :=
  match a, b with
  | Num x, Num y => (x == y)%Q
  | NaN, NaN => True
  | _, _ => False
  end.

(** ** Strings: [trim] and [toLowerCase] *)

(** A string is held as the bytes of its UTF-8 encoding.  The program
    compares lowered strings with the ASCII words [sweet] and [savoury]
    only; no character outside ASCII is lowered to a letter of these
    words, so that lowering the ASCII capitals decides the same
    comparisons as [toLowerCase]. *)
Definition lower_ascii (c : ascii) : ascii :=
  let n := nat_of_ascii c in
  if ((65 <=? n)%nat && (n <=? 90)%nat)%bool then ascii_of_nat (n + 32) else c.

Fixpoint toLowerCase (s : string) : string :=
  match s with
  | EmptyString => EmptyString
  | String c r => String (lower_ascii c) (toLowerCase r)
  end.

(** The white space and line terminators that [trim] strips, by the
    length of their encoding: U+0009 to U+000D and U+0020 in one byte,
    U+00A0 in two ([C2 A0]), and in three U+1680 ([E1 9A 80]), U+2000 to
    U+200A ([E2 80 80] to [E2 80 8A]), U+2028, U+2029 and U+202F
    ([E2 80 A8], [E2 80 A9], [E2 80 AF]), U+205F ([E2 81 9F]), U+3000
    ([E3 80 80]) and U+FEFF ([EF BB BF]). *)
Definition is_space (c : ascii) : bool :=
  let n := nat_of_ascii c in
  (((9 <=? n)%nat && (n <=? 13)%nat) || (n =? 32)%nat)%bool.

Definition is_space2 (a b : ascii) : bool :=
  ((nat_of_ascii a =? 194)%nat && (nat_of_ascii b =? 160)%nat)%bool.

Definition is_space3 (a b c : ascii) : bool :=
  let x := nat_of_ascii a in
  let y := nat_of_ascii b in
  let z := nat_of_ascii c in
  (((x =? 225)%nat && (y =? 154)%nat && (z =? 128)%nat)
   || ((x =? 226)%nat && (y =? 128)%nat &&
       (((128 <=? z)%nat && (z <=? 138)%nat) || (z =? 168)%nat || (z =? 169)%nat
        || (z =? 175)%nat))
   || ((x =? 226)%nat && (y =? 129)%nat && (z =? 159)%nat)
   || ((x =? 227)%nat && (y =? 128)%nat && (z =? 128)%nat)
   || ((x =? 239)%nat && (y =? 187)%nat && (z =? 191)%nat))%bool.

(** Stripping white space from the front of a string.  With [fwd] false
    the string is read from its end (it has been reversed), and the bytes
    of an encoding are met last byte first. *)
Fixpoint strip (fwd : bool) (s : string) : string :=
  match s with
  | EmptyString => EmptyString
  | String a r =>
      if is_space a then strip fwd r
      else
        match r with
        | EmptyString => s
        | String b r2 =>
            if (if fwd then is_space2 a b else is_space2 b a) then strip fwd r2
            else
              match r2 with
              | EmptyString => s
              | String c r3 =>
                  if (if fwd then is_space3 a b c else is_space3 c b a)
                  then strip fwd r3
                  else s
              end
        end
  end.

Definition trimStart (s : string) : string := strip true s.

Definition trimEnd (s : string) : string := String.rev (strip false (String.rev s)).

Definition trim (s : string) : string := trimEnd (trimStart s).

(** The string with the given bytes. *)
Definition bytes (l : list nat) : string :=
  fold_right (fun n r => String (ascii_of_nat n) r) EmptyString l.

(** The encodings of the white space and line terminators of JavaScript. *)
Definition white_space : list string :=
  map bytes
    ([[9]; [10]; [11]; [12]; [13]; [32]; [194; 160]; [225; 154; 128];
      [226; 128; 128]; [226; 128; 129]; [226; 128; 130]; [226; 128; 131];
      [226; 128; 132]; [226; 128; 133]; [226; 128; 134]; [226; 128; 135];
      [226; 128; 136]; [226; 128; 137]; [226; 128; 138]; [226; 128; 168];
      [226; 128; 169]; [226; 128; 175]; [226; 129; 159]; [227; 128; 128];
      [239; 187; 191]])%nat.

(** A byte that does not continue the encoding of a character. *)
Definition not_continuation (c : ascii) : Prop :=
  (nat_of_ascii c < 128 \/ 192 <= nat_of_ascii c)%nat.

(** Case analysis on a member of [white_space]. *)
Tactic Notation "each_white_space" hyp(H) tactic3(tac) :=
  unfold white_space in H; simpl in H;
  repeat (apply elem_of_cons in H as [->|H]; [tac|]);
  now apply not_elem_of_nil in H.

(** ** Data model *)

Inductive Side : Type := Sweet | Savoury.

#[global] Instance Side_eq_dec : EqDecision Side.
Proof. solve_decision. Defined.

(** One entry of [record.lineItems]. *)
Record LineItemRecord : Type := mkLine {
  side : Side;
  quantity : num;
  revenue : num;
  remaining : num;
}.

(** The value stored under [battle:order:<orderId>]. *)
Record OrderRecord : Type := mkOrder {
  r_orderId : Z;
  r_sweet : num;
  r_savoury : num;
  r_lineItems : gmap Z LineItemRecord;
}.

(** A classification cache entry: the side and the instant at which the
    store drops it ([ex] seconds after it was written). *)
Record CacheEntry : Type := mkEntry {
  ce_side : Side;
  ce_expires : Z;
}.

(** The hash [battle:totals]; a field that was never written is [None],
    and the hash does not exist when all three are. *)
Record Totals : Type := mkTotals {
  t_sweet : option num;
  t_savoury : option num;
  t_lastUpdated : option Z;
}.

Record KV : Type := mkKV {
  orders : gmap Z OrderRecord;
  products : gmap (string * Z) CacheEntry;
  totals : Totals;
}.

Definition empty_totals : Totals := mkTotals None None None.
Definition empty_kv : KV := mkKV ∅ ∅ empty_totals.

Definition set_orders (f : gmap Z OrderRecord -> gmap Z OrderRecord) (st : KV) : KV :=
  mkKV (f (orders st)) (products st) (totals st).
Definition set_products (f : gmap (string * Z) CacheEntry -> gmap (string * Z) CacheEntry)
    (st : KV) : KV :=
  mkKV (orders st) (f (products st)) (totals st).
Definition set_totals (f : Totals -> Totals) (st : KV) : KV :=
  mkKV (orders st) (products st) (f (totals st)).

(** ** Payloads and the remote product lookup *)

(** What the GraphQL query returns about a product: the value of the
    metafield [battle.side], if any, and the tags. *)
Record Product : Type := mkProduct {
  metafield : option string;
  tags : list string;
}.

(** [shopifyGraphQL] either throws or returns [data.product], which is
    [null] for an unknown product. *)
Inductive Remote : Type :=
  | RemoteError
  | RemoteData (p : option Product).

(** The environment of one request: the clock and the answer of the
    commerce API for a shop domain and a product id (credential lookup and
    transport included). *)
Record Env : Type := mkEnv {
  now : Z;
  remote : option string -> Z -> Remote;
}.

(** One element of [line_items].  [li_quantity] is
    [Number(item.quantity || 0)], which is [NaN] for a quantity that is
    not numeric; the four amounts are the results of [parseMoney] on the
    respective fields, which is never [NaN] and is zero for an absent or
    unreadable field.  An element that is [null] or not an object has no
    [product_id] and is skipped like an item without one. *)
Record LineItem : Type := mkItem {
  li_id : Z;
  product_id : option Z;
  li_quantity : num;
  price_set_amount : Q;
  price : Q;
  total_discount_set_amount : Q;
  total_discount : Q;
}.

(** One element of [refund_line_items] that is not [null]; [rf_quantity]
    is [Number(refundItem.quantity || 0)]. *)
Record RefundItem : Type := mkRefundItem {
  line_item_id : Z;
  rf_quantity : num;
}.

(** A parsed body that is not [null], as the handlers read it.
    [line_items] and [refund_line_items] hold the elements the two loops
    visit; a field that is absent or falsy has none.
    [line_items_iterable] is false when [payload.line_items] is a truthy
    value that cannot be iterated (a number, [true], an object): the
    [for...of] of line 155 then throws before its first element.
    [refund_loop_completes] is false when the loop of line 233 throws:
    [payload.refund_line_items] is truthy and cannot be iterated, or the
    element after the listed ones is [null] or [undefined], whose
    [line_item_id] cannot be read (line 234). *)
Record Payload : Type := mkPayloadOf {
  p_id : option Z;
  p_order_id : option Z;
  line_items : list LineItem;
  refund_line_items : list RefundItem;
  line_items_iterable : bool;
  refund_loop_completes : bool;
}.

(** A payload whose two lists are arrays of objects. *)
Definition mkPayload (id order_id : option Z) (items : list LineItem)
    (refunds : list RefundItem) : Payload :=
  mkPayloadOf id order_id items refunds true true.

(** ** A state and exception monad over the store *)

Inductive Res (A : Type) : Type :=
  | Ok (a : A)
  | Throw.
Arguments Ok {A} a.
Arguments Throw {A}.

Definition M (A : Type) : Type := KV -> KV * Res A.

Definition ret {A} (a : A) : M A := fun st => (st, Ok a).
Definition throw {A} : M A := fun st => (st, Throw).
Definition bind {A B} (m : M A) (k : A -> M B) : M B :=
  fun st =>
    match m st with
    | (st', Ok a) => k a st'
    | (st', Throw) => (st', Throw)
    end.
Definition modify (f : KV -> KV) : M unit := fun st => (f st, Ok tt).
Definition gets {A} (f : KV -> A) : M A := fun st => (st, Ok (f st)).

Notation "'let*' x ':=' m 'in' k" := (bind m (fun x => k))
  (at level 10, x name, m at level 100, k at level 200).

(** [for (const x of xs) { acc = step(acc, x) }] with an effectful body. *)
Fixpoint foldM {A B} (step : A -> B -> M A) (xs : list B) (acc : A) : M A :=
  match xs with
  | [] => ret acc
  | x :: rest => let* acc' := step acc x in foldM step rest acc'
  end.

(** ** ProductClassifier *)

(** [normalizeSide]. *)
Definition normalizeSide (value : option string) : option Side :=
  match value with
  | None => None
  | Some v =>
      if String.eqb v "" then None
      else
        let s := toLowerCase (trim v) in
        if String.eqb s "sweet" then Some Sweet
        else if String.eqb s "savoury" then Some Savoury
        else None
  end.

(** [tags.includes(x)]. *)
Definition includes (x : string) (l : list string) : bool :=
  existsb (String.eqb x) l.

(** The part of the cache key that comes from the shop:
    [shopDomain || 'default']. *)
Definition shop_key (shopDomain : option string) : string :=
  match shopDomain with
  | None => "default"
  | Some s => if String.eqb s "" then "default" else s
  end.

Definition cacheKey (shopDomain : option string) (productId : Z) : string * Z :=
  (shop_key shopDomain, productId).

(** [kv.get] on a key written with an expiry. *)
Definition cache_get (t : Z) (c : gmap (string * Z) CacheEntry) (k : string * Z)
    : option Side :=
  match c !! k with
  | Some e => if (t <? ce_expires e)%Z then Some (ce_side e) else None
  | None => None
  end.

(** [kv.set(cacheKey, side, { ex: 86400 })]. *)
Definition cache_set (t : Z) (k : string * Z) (s : Side) : M unit :=
  modify (set_products (insert k (mkEntry s (t + 86400)))).

(** [getProductSide]: the cached side on a hit; on a miss the API is asked,
    which may throw, and a side found in the metafield or in the tags is
    cached for 86400 seconds. *)
Definition getProductSide (env : Env) (productId : Z) (shopDomain : option string)
    : M (option Side) :=
  let key := cacheKey shopDomain productId in
  let* cached := gets (fun st => cache_get (now env) (products st) key) in
  match cached with
  | Some s => ret (Some s)
  | None =>
      match remote env shopDomain productId with
      | RemoteError => throw
      | RemoteData None => ret None
      | RemoteData (Some product) =>
          match normalizeSide (metafield product) with
          | Some metaSide => let* _ := cache_set (now env) key metaSide in ret (Some metaSide)
          | None =>
              let tags := map toLowerCase (tags product) in
              if includes "sweet" tags then
                let* _ := cache_set (now env) key Sweet in ret (Some Sweet)
              else if includes "savoury" tags then
                let* _ := cache_set (now env) key Savoury in ret (Some Savoury)
              else ret None
          end
      end
  end.

(** ** ContributionCalculator *)

Record Contribution : Type := mkContribution {
  c_sweet : num;
  c_savoury : num;
  c_lineItems : gmap Z LineItemRecord;
}.

Definition empty_contribution : Contribution := mkContribution zero zero ∅.

(** [a || b] on the results of [parseMoney]. *)
Definition qor (a b : Q) : Q := if Qeq_bool a 0 then b else a.

Definition item_price (item : LineItem) : Q :=
  qor (price_set_amount item) (price item).

Definition item_discount (item : LineItem) : Q :=
  qor (total_discount_set_amount item) (total_discount item).

(** [Math.max(price * quantity - totalDiscount, 0)]. *)
Definition lineTotal (item : LineItem) : num :=
  nmax (nsub (nmul (Num (item_price item)) (li_quantity item))
             (Num (item_discount item)))
       zero.

(** [contribution[side] += lineTotal; contribution.lineItems[item.id] = ...]. *)
Definition record_line (s : Side) (item : LineItem) (c : Contribution) : Contribution :=
  let total := lineTotal item in
  let entry := mkLine s (li_quantity item) total total in
  match s with
  | Sweet =>
      mkContribution (nadd (c_sweet c) total) (c_savoury c)
        (<[li_id item := entry]> (c_lineItems c))
  | Savoury =>
      mkContribution (c_sweet c) (nadd (c_savoury c) total)
        (<[li_id item := entry]> (c_lineItems c))
  end.

(** [!item.product_id]: the id is absent or zero. *)
Definition truthy_id (i : option Z) : option Z :=
  match i with
  | Some z => if (z =? 0)%Z then None else Some z
  | None => None
  end.

(** The body of the loop of [buildOrderContribution]. *)
Definition contributionStep (env : Env) (shopDomain : option string)
    (c : Contribution) (item : LineItem) : M Contribution :=
  match truthy_id (product_id item) with
  | None => ret c
  | Some pid =>
      let* s := getProductSide env pid shopDomain in
      match s with
      | None => ret c
      | Some s =>
          if nle (li_quantity item) zero then ret c
          else ret (record_line s item c)
      end
  end.

(** [buildOrderContribution]: the loop over [lineItems || []]. *)
Definition buildOrderContribution (env : Env) (lineItems : list LineItem)
    (shopDomain : option string) : M Contribution :=
  foldM (contributionStep env shopDomain) lineItems empty_contribution.

(** ** TotalsAggregator and LedgerStore *)

(** [hincrbyfloat] on one field of the hash: an absent field counts as 0. *)
Definition hincrbyfloat (field : option num) (delta : num) : option num :=
  Some (nadd (default zero field) delta).

(** The three pipelined operations of [updateTotals].  An increment that
    is not a number is sent as [null]; the store refuses it, [exec]
    rejects and the handler throws.  The store is not part of the
    program: a refused pipeline is taken to leave the hash as it was. *)
Definition updateTotals (t : Z) (deltaSweet deltaSavoury : num) : M unit :=
  match deltaSweet, deltaSavoury with
  | Num _, Num _ =>
      modify (set_totals (fun tot =>
        mkTotals (hincrbyfloat (t_sweet tot) deltaSweet)
                 (hincrbyfloat (t_savoury tot) deltaSavoury)
                 (Some t)))
  | _, _ => throw
  end.

Definition get_order (orderId : Z) : M (option OrderRecord) :=
  gets (fun st => orders st !! orderId).

Definition set_order (orderId : Z) (r : OrderRecord) : M unit :=
  modify (set_orders (insert orderId r)).

Definition del_order (orderId : Z) : M unit :=
  modify (set_orders (delete orderId)).

(** [handleOrderPaid]: a missing id or an existing record ends the handler;
    a contribution that is zero on both sides writes nothing; otherwise the
    totals are updated and then the record is stored. *)
Definition handleOrderPaid (env : Env) (payload : Payload)
    (shopDomain : option string) : M unit :=
  match truthy_id (p_id payload) with
  | None => ret tt
  | Some orderId =>
      let* existing := get_order orderId in
      match existing with
      | Some _ => ret tt
      | None =>
          let* contribution :=
            buildOrderContribution env (line_items payload) shopDomain in
          if (is_zero (c_sweet contribution) && is_zero (c_savoury contribution))%bool
          then ret tt
          else
            let* _ := updateTotals (now env) (c_sweet contribution)
                        (c_savoury contribution) in
            set_order orderId
              (mkOrder orderId (c_sweet contribution) (c_savoury contribution)
                 (c_lineItems contribution))
      end
  end.

(** [handleOrderCancelled]: the totals go down by
    [Number(record.sweet || 0)] and [Number(record.savoury || 0)], then the
    record is deleted. *)
Definition handleOrderCancelled (env : Env) (payload : Payload) : M unit :=
  match truthy_id (p_id payload) with
  | None => ret tt
  | Some orderId =>
      let* record := get_order orderId in
      match record with
      | None => ret tt
      | Some record =>
          let* _ := updateTotals (now env)
                      (nneg (jsor (r_sweet record) zero))
                      (nneg (jsor (r_savoury record) zero)) in
          del_order orderId
      end
  end.

(** ** RefundProrationEngine *)

(** [Math.min(quantity / line.quantity, 1)]. *)
Definition fraction (line : LineItemRecord) (qty : num) : num :=
  nmin (ndiv qty (quantity line)) one.

(** [Math.min(line.remaining || line.revenue, line.revenue * fraction)]. *)
Definition refundAmount (line : LineItemRecord) (qty : num) : num :=
  nmin (jsor (remaining line) (revenue line))
       (nmul (revenue line) (fraction line qty)).

(** The line after
    [line.remaining = Math.max((line.remaining || line.revenue) - refundAmount, 0)].
    The amounts are exact: where the doubles of the program round, a
    remaining amount that is zero here can be a small non-zero double,
    which [line.remaining || line.revenue] then reads as it stands. *)
Definition refundLine (line : LineItemRecord) (qty : num) : LineItemRecord :=
  mkLine (side line) (quantity line) (revenue line)
    (nmax (nsub (jsor (remaining line) (revenue line)) (refundAmount line qty)) zero).

(** The state of the refund loop: the line items of the record read from
    the store, mutated in place, and the two running deltas. *)
Record RefundAcc : Type := mkAcc {
  a_lines : gmap Z LineItemRecord;
  deltaSweet : num;
  deltaSavoury : num;
}.

(** The body of the refund loop: a line item id without an entry and a
    quantity or line quantity that is falsy are skipped. *)
Definition refundStep (acc : RefundAcc) (refundItem : RefundItem) : RefundAcc :=
  match a_lines acc !! line_item_id refundItem with
  | None => acc
  | Some line =>
      let qty := rf_quantity refundItem in
      if (negb (truthy qty) || negb (truthy (quantity line)))%bool then acc
      else
        let amount := refundAmount line qty in
        mkAcc (<[line_item_id refundItem := refundLine line qty]> (a_lines acc))
          (match side line with
           | Sweet => nsub (deltaSweet acc) amount
           | Savoury => deltaSweet acc
           end)
          (match side line with
           | Sweet => deltaSavoury acc
           | Savoury => nsub (deltaSavoury acc) amount
           end)
  end.

(** The loop over [payload.refund_line_items || []]. *)
Definition refundLoop (record : OrderRecord) (items : list RefundItem) : RefundAcc :=
  fold_left refundStep items (mkAcc (r_lineItems record) zero zero).

(** [handleRefundCreate].  A stored record always has its [lineItems], so
    the test [!record.lineItems] never fires on a record the program wrote.
    When both deltas are zero the handler returns and the lines mutated by
    the loop are dropped with the local copy of the record. *)
Definition handleRefundCreate (env : Env) (payload : Payload) : M unit :=
  match truthy_id (p_order_id payload) with
  | None => ret tt
  | Some orderId =>
      let* record := get_order orderId in
      match record with
      | None => ret tt
      | Some record =>
          let acc := refundLoop record (refund_line_items payload) in
          if (is_zero (deltaSweet acc) && is_zero (deltaSavoury acc))%bool
          then ret tt
          else
            let record' :=
              mkOrder (r_orderId record)
                (nmax (nadd (jsor (r_sweet record) zero) (deltaSweet acc)) zero)
                (nmax (nadd (jsor (r_savoury record) zero) (deltaSavoury acc)) zero)
                (a_lines acc) in
            let* _ := updateTotals (now env) (deltaSweet acc) (deltaSavoury acc) in
            set_order orderId record'
      end
  end.

(** ** Payloads whose lists cannot be run through *)

(** [handleOrderPaid] on any parsed object.  [handleOrderPaid] above is
    the handler on a payload whose [line_items] can be iterated.  On the
    others the loop of [buildOrderContribution] throws as soon as the
    handler gets there: after the two early returns and before any line
    item is classified, so that nothing has been written. *)
Definition handleOrderPaid_any (env : Env) (payload : Payload)
    (shopDomain : option string) : M unit :=
  if line_items_iterable payload then handleOrderPaid env payload shopDomain
  else
    match truthy_id (p_id payload) with
    | None => ret tt
    | Some orderId =>
        let* existing := get_order orderId in
        match existing with
        | Some _ => ret tt
        | None => throw
        end
    end.

(** [handleRefundCreate] on any parsed object.  [handleRefundCreate] above
    is the handler on a payload whose refund loop runs to its end.  On the
    others the loop throws once the handler gets there, after the two
    early returns; the lines it has mutated by then belong to the local
    copy of the record and nothing has been written. *)
Definition handleRefundCreate_any (env : Env) (payload : Payload) : M unit :=
  if refund_loop_completes payload then handleRefundCreate env payload
  else
    match truthy_id (p_order_id payload) with
    | None => ret tt
    | Some orderId =>
        let* record := get_order orderId in
        match record with
        | None => ret tt
        | Some _ => throw
        end
    end.

(** ** EventRouter: the webhook endpoint *)

(** The result of [JSON.parse] on the request body.  A JSON value that is
    neither an object nor [null] (a number, a string, an array) has none of
    the fields the handlers read, and behaves as an object without them. *)
Inductive Body : Type :=
  | BodyMalformed
  | BodyNull
  | BodyObject (p : Payload).

(** An inbound request.  [hmac_valid] is the result of [verifyWebhook] on
    the raw body and the signature header. *)
Record Request : Type := mkRequest {
  method : string;
  hmac_valid : bool;
  topic : option string;
  shop_domain : option string;
  body : Body;
}.

(** The dispatch inside the [try] block.  Reading a property of [null]
    throws, which the three handlers do on their first line. *)
Definition route (env : Env) (req : Request) : M unit :=
  let handle (h : Payload -> M unit) : M unit :=
    match body req with
    | BodyObject p => h p
    | _ => throw
    end in
  match topic req with
  | Some t =>
      if String.eqb t "orders/paid" then
        handle (fun p => handleOrderPaid_any env p (shop_domain req))
      else if String.eqb t "orders/cancelled" then
        handle (handleOrderCancelled env)
      else if String.eqb t "refunds/create" then
        handle (handleRefundCreate_any env)
      else ret tt
  | None => ret tt
  end.

(** The exported handler: the status code sent and the store afterwards. *)
Definition webhook (env : Env) (req : Request) (st : KV) : Z * KV :=
  if negb (String.eqb (method req) "POST") then (405, st)
  else if negb (hmac_valid req) then (401, st)
  else
    match body req with
    | BodyMalformed => (400, st)
    | _ =>
        match route env req st with
        | (st', Throw) => (500, st')
        | (st', Ok _) => (200, st')
        end
    end.

(** ** The totals read endpoint *)

Record TotalsJson : Type := mkTotalsJson {
  sweetRevenue : num;
  savouryRevenue : num;
  lastUpdated : Z;
}.

(** [Number(totals.x || 0)] for a field of the hash. *)
Definition field_or_zero (f : option num) : num :=
  match f with
  | Some x => jsor x zero
  | None => zero
  end.

(** The exported handler of the read endpoint: the status code and the JSON
    body, if one is sent.  [hgetall] answers [null] for a hash without
    fields, which [|| {}] turns into an object without fields. *)
Definition battleState (t : Z) (meth : string) (st : KV) : Z * option TotalsJson :=
  if String.eqb meth "OPTIONS" then (204, None)
  else if negb (String.eqb meth "GET") then (405, None)
  else
    let tot := totals st in
    (200, Some (mkTotalsJson (field_or_zero (t_sweet tot))
                             (field_or_zero (t_savoury tot))
                             (default t (t_lastUpdated tot)))).

(** ** Running a sequence of events *)

(** The store after the webhook endpoint handled the requests in order. *)
Fixpoint deliver (env : Env) (reqs : list Request) (st : KV) : KV :=
  match reqs with
  | [] => st
  | r :: rest => deliver env rest (snd (webhook env r st))
  end.

(** The sum of a side's stored total over all order records. *)
Definition record_total (s : Side) (r : OrderRecord) : num :=
  match s with
  | Sweet => r_sweet r
  | Savoury => r_savoury r
  end.

Definition ledger_sum (s : Side) (st : KV) : num :=
  map_fold (fun _ r acc => nadd (record_total s r) acc) zero (orders st).

(** A side's running total as the read endpoint reports it. *)
Definition aggregate (s : Side) (st : KV) : num :=
  match s with
  | Sweet => field_or_zero (t_sweet (totals st))
  | Savoury => field_or_zero (t_savoury (totals st))
  end.

(** ** Notions used in the statements *)

(** What a cache miss resolves to for a product the API knows:
    the metafield first, then the tag [sweet], then the tag [savoury]. *)
Definition resolveSide (product : Product) : option Side :=
  match normalizeSide (metafield product) with
  | Some s => Some s
  | None =>
      if includes "sweet" (map toLowerCase (tags product)) then Some Sweet
      else if includes "savoury" (map toLowerCase (tags product)) then Some Savoury
      else None
  end.

(** The answer of [getProductSide], without the store it leaves behind. *)
Definition sideOf (env : Env) (shopDomain : option string) (st : KV) (productId : Z)
    : Res (option Side) :=
  snd (getProductSide env productId shopDomain st).

(** The verdict of the loop body on one item, read off the store the loop
    starts from: [Ok None] for a skipped item, [Ok (Some s)] for an item
    counted on side [s], [Throw] when its classification throws. *)
Definition kept (env : Env) (shopDomain : option string) (st : KV) (item : LineItem)
    : Res (option Side) :=
  match truthy_id (product_id item) with
  | None => Ok None
  | Some pid =>
      match sideOf env shopDomain st pid with
      | Throw => Throw
      | Ok None => Ok None
      | Ok (Some s) => if nle (li_quantity item) zero then Ok None else Ok (Some s)
      end
  end.

(** The loop with the verdicts given. *)
Fixpoint collect (verdict : LineItem -> Res (option Side)) (items : list LineItem)
    (c : Contribution) : Res Contribution :=
  match items with
  | [] => Ok c
  | item :: rest =>
      match verdict item with
      | Throw => Throw
      | Ok None => collect verdict rest c
      | Ok (Some s) => collect verdict rest (record_line s item c)
      end
  end.

(** The amount a list of items adds to a side, given the verdicts. *)
Fixpoint side_sum (verdict : LineItem -> Res (option Side)) (s : Side)
    (items : list LineItem) (acc : num) : num :=
  match items with
  | [] => acc
  | item :: rest =>
      side_sum verdict s rest
        (match verdict item with
         | Ok (Some s') => if decide (s' = s) then nadd acc (lineTotal item) else acc
         | _ => acc
         end)
  end.

(** The classification of an item as the loop obtains it: an item without
    a product id is never classified. *)
Definition classification (env : Env) (shopDomain : option string) (st : KV)
    (item : LineItem) : Res (option Side) :=
  match truthy_id (product_id item) with
  | None => Ok None
  | Some pid => sideOf env shopDomain st pid
  end.

(** The ledger entry recorded for a counted item. *)
Definition entry_for (s : Side) (item : LineItem) : LineItemRecord :=
  mkLine s (li_quantity item) (lineTotal item) (lineTotal item).

(** No classification of the list throws, so that the loop runs to its end. *)
Definition classifiable (env : Env) (shopDomain : option string) (st : KV)
    (items : list LineItem) : bool :=
  forallb (fun item =>
             match classification env shopDomain st item with
             | Throw => false
             | Ok _ => true
             end) items.

(** One field of the totals hash, by side, and the number an increment of
    that field starts from. *)
Definition totals_field (s : Side) (tot : Totals) : option num :=
  match s with
  | Sweet => t_sweet tot
  | Savoury => t_savoury tot
  end.

Definition stored_total (s : Side) (st : KV) : num :=
  default zero (totals_field s (totals st)).

(** A status code in the 4xx range. *)
Definition client_error (status : Z) : Prop := (400 <= status < 500)%Z.

(** The parsed body lacks the id that the handler of the request's topic
    reads first: [id] for paid and cancelled events, [order_id] for refund
    events. *)
Definition missing_required_id (req : Request) : bool :=
  match topic req, body req with
  | Some t, BodyObject p =>
      if (String.eqb t "orders/paid" || String.eqb t "orders/cancelled")%bool then
        match truthy_id (p_id p) with None => true | Some _ => false end
      else if String.eqb t "refunds/create" then
        match truthy_id (p_order_id p) with None => true | Some _ => false end
      else false
  | _, _ => false
  end.

(** The amount refunded on a side between two stores: by how much the
    stored total went down. *)
Definition refunded_between (s : Side) (before after : KV) : num :=
  nsub (stored_total s before) (stored_total s after).

(** The line item [k] of order [oid] in a store. *)
Definition stored_line (oid k : Z) (st : KV) : option LineItemRecord :=
  match orders st !! oid with
  | Some r => r_lineItems r !! k
  | None => None
  end.


(** ** The ledger invariant *)

(** The stored total of each side equals the sum of that side's totals over
    the order records. *)
Definition conserved (st : KV) : Prop :=
  forall s, num_eq (stored_total s st) (ledger_sum s st).

(** A number that is not [NaN]. *)
Definition finite (a : num) : Prop := exists x, a = Num x.

(** The remaining amount of a line as a rational, and what a line adds to
    the remaining amount of a side. *)
Definition rem_q (l : LineItemRecord) : Q :=
  match remaining l with
  | Num q => q
  | NaN => 0
  end.

Definition side_rem (s : Side) (l : LineItemRecord) : Q :=
  if decide (side l = s) then rem_q l else 0.

(** The sum of the remaining amounts of a side over the lines of a record. *)
Definition rem_sum (s : Side) (lines : gmap Z LineItemRecord) : Q :=
  map_fold (fun _ l acc => (side_rem s l + acc)%Q) 0%Q lines.

(** A line with a positive quantity and [0 <= remaining <= revenue]. *)
Definition line_ok (l : LineItemRecord) : Prop :=
  exists lq rev rem,
    quantity l = Num lq /\ revenue l = Num rev /\ remaining l = Num rem /\
    (0 < lq)%Q /\ (0 <= rem <= rev)%Q.

Definition lines_ok (lines : gmap Z LineItemRecord) : Prop :=
  forall k l, lines !! k = Some l -> line_ok l.

(** A record whose lines are in order and whose side totals are numbers
    that cover what remains on the lines of the side. *)
Definition record_ok (r : OrderRecord) : Prop :=
  exists x y,
    r_sweet r = Num x /\ r_savoury r = Num y /\
    lines_ok (r_lineItems r) /\
    (rem_sum Sweet (r_lineItems r) <= x)%Q /\
    (rem_sum Savoury (r_lineItems r) <= y)%Q.

Definition ledger_ok (st : KV) : Prop :=
  conserved st /\ forall oid r, orders st !! oid = Some r -> record_ok r.

(** A contribution whose ledger fragment is in order and covered by its
    side totals. *)
Definition contribution_ok (c : Contribution) : Prop :=
  exists x y,
    c_sweet c = Num x /\ c_savoury c = Num y /\
    lines_ok (c_lineItems c) /\
    (rem_sum Sweet (c_lineItems c) <= x)%Q /\
    (rem_sum Savoury (c_lineItems c) <= y)%Q.

(** The refund line either misses, is skipped by the quantity guard, or
    carries a positive quantity for a line whose remaining amount is not
    zero. *)
Definition clean_item (lines : gmap Z LineItemRecord) (ri : RefundItem) : bool :=
  match lines !! line_item_id ri with
  | None => true
  | Some l =>
      match rf_quantity ri with
      | NaN => true
      | Num q => (Qeq_bool q 0 || (negb (Qle_bool q 0) && truthy (remaining l)))%bool
      end
  end.

(** Every refund line of the list is clean at the moment the loop reaches
    it. *)
Fixpoint clean_refund (acc : RefundAcc) (items : list RefundItem) : bool :=
  match items with
  | [] => true
  | ri :: rest => (clean_item (a_lines acc) ri && clean_refund (refundStep acc ri) rest)%bool
  end.

(** The state of the refund loop against stored totals [x] and [y]: the
    deltas are numbers, the lines are in order, and what remains on the
    lines of a side is covered by the stored total plus the delta. *)
Definition acc_ok (x y : Q) (acc : RefundAcc) : Prop :=
  exists ds dv,
    deltaSweet acc = Num ds /\ deltaSavoury acc = Num dv /\
    lines_ok (a_lines acc) /\
    (rem_sum Sweet (a_lines acc) <= x + ds)%Q /\
    (rem_sum Savoury (a_lines acc) <= y + dv)%Q.

(** An event whose line item quantities are numbers and whose refund lines
    are clean for the record of the order it names. *)
Definition well_behaved (req : Request) (st : KV) : Prop :=
  match body req with
  | BodyObject p =>
      (forall item, item ∈ line_items p -> finite (li_quantity item)) /\
      (forall oid r, truthy_id (p_order_id p) = Some oid -> orders st !! oid = Some r ->
         clean_refund (mkAcc (r_lineItems r) zero zero) (refund_line_items p) = true)
  | _ => True
  end.

(** Every event of the list is well behaved for the store it meets. *)
Fixpoint well_behaved_run (env : Env) (reqs : list Request) (st : KV) : Prop :=
  match reqs with
  | [] => True
  | r :: rest => well_behaved r st /\ well_behaved_run env rest (snd (webhook env r st))
  end.

(** ** A sample shop and sample events *)

(** A shop whose product 55 carries the metafield value " Sweet " and whose
    product 77 carries the tag "Savoury"; nothing else is known. *)
Definition sample_env : Env :=
  mkEnv 1000 (fun _ pid =>
    if (pid =? 55)%Z then RemoteData (Some (mkProduct (Some " Sweet ") []))
    else if (pid =? 77)%Z then RemoteData (Some (mkProduct None ["Savoury"]))
    else RemoteData None).

Definition sample_shop : option string := Some "shop.myshopify.com".

(** Line item 1: two units of product 55 at 10.00, no discount. *)
Definition sample_item : LineItem := mkItem 1 (Some 55) (Num 2) 10 0 0 0.

Definition post (t : string) (p : Payload) : Request :=
  mkRequest "POST" true (Some t) sample_shop (BodyObject p).

(** Order 1001 with the sample line item is paid. *)
Definition sample_paid : Request :=
  post "orders/paid" (mkPayload (Some 1001) None [sample_item] []).

(** [q] units of line item 1 of order 1001 are refunded. *)
Definition sample_refund (q : Q) : Request :=
  post "refunds/create" (mkPayload None (Some 1001) [] [mkRefundItem 1 (Num q)]).

Definition sample_cancel : Request :=
  post "orders/cancelled" (mkPayload (Some 1001) None [] []).

(** A paid event whose body has line items but no [id]. *)
Definition paid_without_id : Request :=
  post "orders/paid" (mkPayload None None [sample_item] []).

(** A refund event whose body has refund lines but no [order_id]. *)
Definition refund_without_order_id : Request :=
  post "refunds/create" (mkPayload None None [] [mkRefundItem 1 (Num 1)]).

(** A signed POST whose body is not JSON. *)
Definition malformed_request : Request :=
  mkRequest "POST" true (Some "orders/paid") sample_shop BodyMalformed.

(** A signed paid event whose body is the JSON value [null]. *)
Definition null_request : Request :=
  mkRequest "POST" true (Some "orders/paid") sample_shop BodyNull.

(** The store after order 1001 was paid. *)
Definition paid_store : KV := deliver sample_env [sample_paid] empty_kv.

(** Line item 2: one unit of product 77 at 5.00, no discount. *)
Definition sample_item2 : LineItem := mkItem 2 (Some 77) (Num 1) 5 0 0 0.

(** Order 1002 with both sample line items is paid. *)
Definition sample_paid2 : Request :=
  post "orders/paid" (mkPayload (Some 1002) None [sample_item; sample_item2] []).

Definition two_line_store : KV := deliver sample_env [sample_paid2] empty_kv.

(** The record of order 1001 in [paid_store]. *)
Definition sample_record : OrderRecord :=
  mkOrder 1001 (Num 20) (Num 0) {[ 1 := mkLine Sweet (Num 2) (Num 20) (Num 20) ]}.

(** The record of order 1002 in [two_line_store]. *)
Definition sample_record2 : OrderRecord :=
  mkOrder 1002 (Num 20) (Num 5)
    (<[ 2 := mkLine Savoury (Num 1) (Num 5) (Num 5) ]>
       {[ 1 := mkLine Sweet (Num 2) (Num 20) (Num 20) ]}).

(** The cancellation of order 1001, and the store after it was processed
    against [paid_store]. *)
Definition cancel_payload : Payload := mkPayload (Some 1001) None [] [].

Definition cancelled_store : KV :=
  fst (handleOrderCancelled sample_env cancel_payload paid_store).

(** One unit of line item 1 of order 1002 is refunded. *)
Definition refund_payload2 : Payload :=
  mkPayload None (Some 1002) [] [mkRefundItem 1 (Num 1)].


(** ** Further notions, endpoints and the OAuth flow *)


(** The topic is one of the three the router dispatches on. *)
Definition known_topic (req : Request) : bool :=
  match topic req with
  | Some t =>
      (String.eqb t "orders/paid" || String.eqb t "orders/cancelled"
       || String.eqb t "refunds/create")%bool
  | None => false
  end.

(** The total of a side in a contribution. *)
Definition contribution_total (s : Side) (c : Contribution) : num :=
  match s with
  | Sweet => c_sweet c
  | Savoury => c_savoury c
  end.

(** The second copy of the read endpoint (the file without a name): the
    same handler without the cross-origin headers and without the answer
    to OPTIONS. *)
Definition totalsEndpoint (t : Z) (meth : string) (st : KV) : Z * option TotalsJson :=
  if negb (String.eqb meth "GET") then (405, None)
  else
    let tot := totals st in
    (200, Some (mkTotalsJson (field_or_zero (t_sweet tot))
                             (field_or_zero (t_savoury tot))
                             (default t (t_lastUpdated tot)))).

(** The environment variables the three endpoints read; [None] is an unset
    variable. *)
Record Config : Type := mkConfig {
  SHOPIFY_API_KEY : option string;
  SHOPIFY_API_SECRET : option string;
  SHOPIFY_APP_URL : option string;
  SHOPIFY_SCOPES_VAR : option string;
  SHOPIFY_STORE_DOMAIN : option string;
  SHOPIFY_ADMIN_TOKEN : option string;
  SHOPIFY_WEBHOOK_SECRET : option string;
}.

(** Truthiness of a value that is a string or absent: the string unless it
    is absent or empty. *)
Definition truthy_string (v : option string) : option string :=
  match v with
  | Some s => if String.eqb s "" then None else Some s
  | None => None
  end.

(** [process.env.SHOPIFY_SCOPES || 'read_orders,read_products']. *)
Definition SHOPIFY_SCOPES (cfg : Config) : string :=
  default "read_orders,read_products" (truthy_string (SHOPIFY_SCOPES_VAR cfg)).

(** The character classes [[a-zA-Z0-9]] and [[a-zA-Z0-9-]]. *)
Definition is_alnum (c : ascii) : bool :=
  let n := nat_of_ascii c in
  (((48 <=? n)%nat && (n <=? 57)%nat) || ((65 <=? n)%nat && (n <=? 90)%nat)
   || ((97 <=? n)%nat && (n <=? 122)%nat))%bool.

Definition is_label_char (c : ascii) : bool :=
  (is_alnum c || (nat_of_ascii c =? 45)%nat)%bool.

(** The rest of the pattern after its first character:
    [[a-zA-Z0-9-]*\.myshopify\.com$].  A character of the class can only be
    matched by the starred class, since the literal starts with a dot. *)
Fixpoint shop_tail (s : string) : bool :=
  match s with
  | EmptyString => false
  | String c r => if is_label_char c then shop_tail r else String.eqb s ".myshopify.com"
  end.

(** [isValidShop]: the test of [/^[a-zA-Z0-9][a-zA-Z0-9-]*\.myshopify\.com$/]
    on a shop that is present and not empty. *)
Definition isValidShop (shop : option string) : bool :=
  match shop with
  | Some (String c r) => (is_alnum c && shop_tail r)%bool
  | _ => false
  end.

(** The query parameters of a request: the entries of [req.query] in the
    order of [Object.keys]. *)
Definition Params : Type := list (string * string).

(** [params[key]]. *)
Fixpoint param (key : string) (params : Params) : option string :=
  match params with
  | [] => None
  | (k, v) :: rest => if String.eqb k key then Some v else param key rest
  end.

(** The order of [Array.prototype.sort] on keys (code units, here bytes). *)
Definition key_le (a b : string) : Prop := String.leb a b = true.

Definition key_le_dec (a b : string) : Decision (key_le a b) :=
  bool_eq_dec (String.leb a b) true.

(** [buildQueryString]: the keys sorted, each rendered as [key=value],
    joined by [&]. *)
Definition buildQueryString (params : Params) : string :=
  String.concat "&"
    (map (fun key => key +:+ "=" +:+ default "undefined" (param key params))
         (@merge_sort string key_le key_le_dec (map fst params))).

(** The object [rest] of [const { hmac, signature, ...rest } = params]. *)
Definition rest_params (params : Params) : Params :=
  filter (fun kv => fst kv <> "hmac" /\ fst kv <> "signature") params.

(** [verifyHmac], for a keyed hash [hmac_hex] that gives the hexadecimal
    SHA-256 HMAC of a message under a secret. *)
Definition verifyHmac (hmac_hex : string -> string -> string) (params : Params)
    (secret : option string) : bool :=
  match truthy_string secret, truthy_string (param "hmac" params) with
  | Some sec, Some hmac =>
      let message := buildQueryString (rest_params params) in
      let digest := hmac_hex sec message in
      if negb (String.length digest =? String.length hmac)%nat then false
      else String.eqb digest hmac
  | _, _ => false
  end.

(** The part of the store the OAuth flow writes: the pending states, each
    with the shop it was issued for and the instant it expires, and the
    access token and scopes of each installed shop. *)
Record AuthKV : Type := mkAuthKV {
  oauth_states : gmap string (string * Z);
  shop_tokens : gmap string string;
  shop_scopes : gmap string string;
}.

Definition empty_auth : AuthKV := mkAuthKV ∅ ∅ ∅.

(** [kv.get] on [battle:oauth:state:<state>]. *)
Definition saved_shop (t : Z) (st : AuthKV) (state : string) : option string :=
  match oauth_states st !! state with
  | Some (shop, expires) => if (t <? expires)%Z then Some shop else None
  | None => None
  end.

(** What a handler sends: a status with a text, or a redirect (302) to a
    location; [Unhandled] is an exception that leaves the handler. *)
Inductive Reply : Type :=
  | Send (status : Z) (text : string)
  | Redirect (location : string)
  | Unhandled.

(** [encodeURIComponent] on a string of bytes: the unreserved characters
    are kept and every other byte is written as [%XX]. *)
Definition is_unreserved (c : ascii) : bool :=
  (is_alnum c ||
   existsb (Nat.eqb (nat_of_ascii c)) [45; 95; 46; 33; 126; 42; 39; 40; 41]%nat)%bool.

Definition hex_digit (n : nat) : ascii :=
  if (n <? 10)%nat then ascii_of_nat (48 + n) else ascii_of_nat (55 + n).

Fixpoint encodeURIComponent (s : string) : string :=
  match s with
  | EmptyString => EmptyString
  | String c r =>
      if is_unreserved c then String c (encodeURIComponent r)
      else
        let n := nat_of_ascii c in
        String "%" (String (hex_digit (n / 16)) (String (hex_digit (n mod 16))
          (encodeURIComponent r)))
  end.

(** The location the install endpoint redirects to. *)
Definition installUrl (cfg : Config) (key url shop state : string) : string :=
  "https://" +:+ shop +:+ "/admin/oauth/authorize?client_id=" +:+ key
  +:+ "&scope=" +:+ encodeURIComponent (SHOPIFY_SCOPES cfg)
  +:+ "&redirect_uri=" +:+ encodeURIComponent (url +:+ "/api/auth/callback")
  +:+ "&state=" +:+ state.

(** The install endpoint.  [state] is the value of
    [crypto.randomBytes(16).toString('hex')] for this request. *)
Definition install (cfg : Config) (shop : option string) (state : string) (t : Z)
    (st : AuthKV) : Reply * AuthKV :=
  match truthy_string (SHOPIFY_API_KEY cfg), truthy_string (SHOPIFY_APP_URL cfg) with
  | Some key, Some url =>
      if negb (isValidShop shop) then (Send 400 "Invalid shop parameter", st)
      else
        let shop := default "" shop in
        (Redirect (installUrl cfg key url shop state),
         mkAuthKV (<[state := (shop, t + 600)]> (oauth_states st))
                  (shop_tokens st) (shop_scopes st))
  | _, _ => (Send 500 "Missing SHOPIFY_API_KEY or SHOPIFY_APP_URL", st)
  end.

(** The answer of the token endpoint of the shop: the request throws, the
    response is not ok (with its text), or it is JSON with or without an
    [access_token]. *)
Inductive TokenExchange : Type :=
  | ExchangeThrows
  | ExchangeNotOk (text : string)
  | ExchangeJson (access_token : option string).

(** The outside world of the callback endpoint: the clock, the keyed hash,
    the token endpoint (by shop and code) and whether the creation of a
    webhook succeeds (by shop, token, topic and address). *)
Record AuthEnv : Type := mkAuthEnv {
  a_now : Z;
  hmac_hex : string -> string -> string;
  exchange : string -> string -> TokenExchange;
  register_ok : string -> string -> string -> string -> bool;
}.

(** The three [registerWebhook] calls inside the [try]: the topics for
    which a creation request was made, and whether all succeeded.  The
    first failure throws and ends the sequence. *)
Fixpoint registerAll (reg : string -> bool) (topics : list string) : list string * bool :=
  match topics with
  | [] => ([], true)
  | topic :: rest =>
      if reg topic then
        let '(made, ok) := registerAll reg rest in (topic :: made, ok)
      else ([topic], false)
  end.

Definition webhook_topics : list string :=
  ["orders/paid"; "orders/cancelled"; "refunds/create"].

(** The callback endpoint: the reply, the store afterwards and the topics
    for which the creation of a webhook was requested. *)
Definition callback (cfg : Config) (env : AuthEnv) (params : Params) (st : AuthKV)
    : Reply * AuthKV * list string :=
  match truthy_string (SHOPIFY_API_KEY cfg), truthy_string (SHOPIFY_API_SECRET cfg),
        truthy_string (SHOPIFY_APP_URL cfg) with
  | Some key, Some secret, Some url =>
      let shop := param "shop" params in
      match isValidShop shop, truthy_string shop, truthy_string (param "code" params),
            truthy_string (param "state" params) with
      | true, Some shop, Some code, Some state =>
          match saved_shop (a_now env) st state with
          | None => (Send 400 "Invalid OAuth state", st, [])
          | Some savedShop =>
              if negb (String.eqb savedShop shop)
              then (Send 400 "Invalid OAuth state", st, [])
              else if negb (verifyHmac (hmac_hex env) params (Some secret))
              then (Send 401 "Invalid OAuth HMAC", st, [])
              else
                match exchange env shop code with
                | ExchangeThrows => (Unhandled, st, [])
                | ExchangeNotOk text => (Send 500 ("OAuth token error: " +:+ text), st, [])
                | ExchangeJson access_token =>
                    match truthy_string access_token with
                    | None => (Send 500 "Missing access token", st, [])
                    | Some token =>
                        let st' :=
                          mkAuthKV (oauth_states st)
                                   (<[shop := token]> (shop_tokens st))
                                   (<[shop := SHOPIFY_SCOPES cfg]> (shop_scopes st)) in
                        let address := url +:+ "/api/battle-webhook" in
                        let '(made, ok) :=
                          registerAll (fun topic => register_ok env shop token topic address)
                                      webhook_topics in
                        if ok
                        then (Send 200 "App installed. You can close this window.", st', made)
                        else (Send 500 "Webhook registration failed", st', made)
                    end
                end
          end
      | _, _, _, _ => (Send 400 "Invalid OAuth callback", st, [])
      end
  | _, _, _ => (Send 500 "Missing Shopify OAuth environment variables", st, [])
  end.

(** [getShopToken]: the token stored for the shop, else the configured
    admin token, else nothing. *)
Definition getShopToken (cfg : Config) (st : AuthKV) (shopDomain : option string)
    : option string :=
  match truthy_string shopDomain with
  | Some shop =>
      match truthy_string (shop_tokens st !! shop) with
      | Some token => Some token
      | None => truthy_string (SHOPIFY_ADMIN_TOKEN cfg)
      end
  | None => truthy_string (SHOPIFY_ADMIN_TOKEN cfg)
  end.

(** What [shopifyGraphQL] makes of the Admin API for the product query:
    [api shop token productId] is [None] when the request fails, the
    response is not ok or carries [errors] (all of which throw), and
    otherwise [data.product]. *)
Definition shopifyGraphQL (cfg : Config) (api : string -> string -> Z -> option (option Product))
    (shopDomain : option string) (token : option string) (productId : Z) : Remote :=
  let shop :=
    match truthy_string shopDomain with
    | Some s => Some s
    | None => truthy_string (SHOPIFY_STORE_DOMAIN cfg)
    end in
  match shop, truthy_string token with
  | Some shop, Some token =>
      match api shop token productId with
      | Some product => RemoteData product
      | None => RemoteError
      end
  | _, _ => RemoteError
  end.

(** The remote lookup of [getProductSide]: [getShopToken], then
    [shopifyGraphQL]. *)
Definition remote_lookup (cfg : Config) (auth : AuthKV)
    (api : string -> string -> Z -> option (option Product))
    (shopDomain : option string) (productId : Z) : Remote :=
  shopifyGraphQL cfg api shopDomain (getShopToken cfg auth shopDomain) productId.

(** The environment of a webhook request against a configuration, the
    tokens in the store and the Admin API. *)
Definition webhook_env (cfg : Config) (auth : AuthKV)
    (api : string -> string -> Z -> option (option Product)) (t : Z) : Env :=
  mkEnv t (remote_lookup cfg auth api).

(** [verifyWebhook], for a keyed hash [hmac_base64] that gives the base64
    SHA-256 HMAC of the raw body under a secret. *)
Definition verifyWebhook (cfg : Config) (hmac_base64 : string -> string -> string)
    (rawBody : string) (hmacHeader : option string) : bool :=
  match truthy_string (SHOPIFY_WEBHOOK_SECRET cfg), truthy_string hmacHeader with
  | Some secret, Some header =>
      let digest := hmac_base64 secret rawBody in
      if negb (String.length digest =? String.length header)%nat then false
      else String.eqb digest header
  | _, _ => false
  end.

(** An inbound webhook request as it arrives: the raw body and the headers
    the handler reads. *)
Record RawRequest : Type := mkRawRequest {
  raw_method : string;
  raw_hmac : option string;
  raw_topic : option string;
  raw_shop : option string;
  raw_body : string;
}.

(** The webhook endpoint on a raw request, for a keyed hash and for
    [JSON.parse] as a function from the raw body to a [Body]. *)
Definition webhook_raw (cfg : Config) (hmac_base64 : string -> string -> string)
    (parse : string -> Body) (env : Env) (raw : RawRequest) (st : KV) : Z * KV :=
  webhook env
    (mkRequest (raw_method raw)
               (verifyWebhook cfg hmac_base64 (raw_body raw) (raw_hmac raw))
               (raw_topic raw) (raw_shop raw) (parse (raw_body raw)))
    st.

(** [value.replace(/,/g, '')]. *)
Fixpoint remove_commas (s : string) : string :=
  match s with
  | EmptyString => EmptyString
  | String c r => if (nat_of_ascii c =? 44)%nat then remove_commas r
                  else String c (remove_commas r)
  end.

(** [parseMoney], for [parseFloat] as a function from strings to numbers. *)
Definition parseMoney (parseFloat : string -> num) (value : option string) : num :=
  let number := parseFloat (remove_commas (default "0" (truthy_string value))) in
  match number with
  | NaN => zero
  | Num _ => number
  end.

(** Every character of the string satisfies the test. *)
Fixpoint string_forall (P : ascii -> bool) (s : string) : bool :=
  match s with
  | EmptyString => true
  | String c r => (P c && string_forall P r)%bool
  end.

(** A character that may occur in a host name: letter, digit, hyphen or
    dot. *)
Definition is_host_char (c : ascii) : bool :=
  (is_label_char c || (nat_of_ascii c =? 46)%nat)%bool.

(** A character that [encodeURIComponent] can produce: an unreserved
    character or the percent sign. *)
Definition is_url_safe (c : ascii) : bool :=
  (is_unreserved c || (nat_of_ascii c =? 37)%nat)%bool.

(** A character other than the delimiters [&], [=], [#], [/] and [?]. *)
Definition no_delimiter (c : ascii) : bool :=
  negb (existsb (Ascii.eqb c) ["&"; "="; "#"; "/"; "?"]%char).

(** A signed event of a topic the router does not dispatch on. *)
Definition unknown_topic_request : Request :=
  post "orders/updated" (mkPayload (Some 1001) None [sample_item] []).








(** Line items priced through the plain fields, discounted beyond their
    price, with quantity zero and of a product the shop does not know. *)
Definition priced_item : LineItem := mkItem 3 (Some 55) (Num 3) 0 4 0 2.

Definition discounted_item : LineItem := mkItem 4 (Some 77) (Num 1) 5 0 9 0.

Definition unsold_item : LineItem := mkItem 5 (Some 55) (Num 0) 10 0 0 0.

Definition unclassified_item : LineItem := mkItem 6 (Some 99) (Num 1) 10 0 0 0.

Definition contribution_items : list LineItem :=
  [sample_item; sample_item2; priced_item; discounted_item; unsold_item;
   unclassified_item].

(** A shop whose product 88 has the metafield [sweet] after a no-break
    space and the tag [savoury], whose product 89 has a metafield that
    names no side and the tag [SWEET], and whose product 90 has neither. *)
Definition nbsp_sweet : string := bytes [194; 160]%nat ++ "sweet".

Definition spaced_env : Env :=
  mkEnv 1000 (fun _ pid =>
    if (pid =? 88)%Z then RemoteData (Some (mkProduct (Some nbsp_sweet) ["savoury"]))
    else if (pid =? 89)%Z
         then RemoteData (Some (mkProduct (Some "chocolate") ["Other"; "SWEET"]))
    else if (pid =? 90)%Z then RemoteData (Some (mkProduct None ["other"]))
    else RemoteData None).





(** A shop whose API cannot be reached. *)
Definition failing_env : Env := mkEnv 1000 (fun _ _ => RemoteError).

(** The body of [sample_paid] and the contribution computed from it. *)
Definition paid_payload : Payload := mkPayload (Some 1001) None [sample_item] [].

Definition sample_contribution : Contribution :=
  mkContribution (Num 20) zero {[ 1 := mkLine Sweet (Num 2) (Num 20) (Num 20) ]}.

(** A refund of a line item that order 1001 does not have. *)
Definition refund_unknown_line : Payload :=
  mkPayload None (Some 1001) [] [mkRefundItem 9 (Num 1)].

(** The sweet line of order 1001 before any refund. *)
Definition sample_line : LineItemRecord := mkLine Sweet (Num 2) (Num 20) (Num 20).

(** A line item that reuses the id of [sample_item] for product 77. *)
Definition sample_item_same_id : LineItem := mkItem 1 (Some 77) (Num 2) 5 0 0 0.

Definition same_id_contribution : Contribution :=
  mkContribution (Num 20) (Num 15)
    (<[ 2 := mkLine Savoury (Num 1) (Num 5) (Num 5) ]>
       {[ 1 := mkLine Sweet (Num 2) (Num 20) (Num 20) ]}).

(** A configuration for the OAuth flow, without admin token and store
    domain; an outside world in which every signature is [d1g3st], the
    token endpoint answers with [token-1] and every webhook can be
    created; and the parameters of a callback for the sample shop. *)
Definition sample_config : Config :=
  mkConfig (Some "key") (Some "secret") (Some "https://app.example") None None None
           (Some "whsec").

Definition sample_auth_env : AuthEnv :=
  mkAuthEnv 1100 (fun _ _ => "d1g3st") (fun _ _ => ExchangeJson (Some "token-1"))
            (fun _ _ _ _ => true).

Definition sample_params : Params :=
  [("code", "abc"); ("hmac", "d1g3st"); ("shop", "shop.myshopify.com"); ("state", "5f3c")].

Definition installing_store : AuthKV :=
  snd (install sample_config sample_shop "5f3c" 1000 empty_auth).

Definition installed_store : AuthKV :=
  snd (fst (callback sample_config sample_auth_env sample_params installing_store)).

(** The paid event of the sample shop with a signature that does not
    verify. *)
Definition unsigned_paid : Request :=
  mkRequest "POST" false (Some "orders/paid") sample_shop (BodyObject paid_payload).

(** A shop that refuses the webhook for [orders/cancelled]. *)
Definition refusing_auth_env : AuthEnv :=
  mkAuthEnv 1100 (fun _ _ => "d1g3st") (fun _ _ => ExchangeJson (Some "token-1"))
            (fun _ _ topic _ => negb (String.eqb topic "orders/cancelled")).

(** A query signed by a keyed hash that gives back its message. *)
Definition signed_params : Params :=
  [("hmac", "code=abc&shop=shop.myshopify.com"); ("signature", "zzz");
   ("shop", "shop.myshopify.com"); ("code", "abc")].

Definition sample_api : string -> string -> Z -> option (option Product) :=
  fun _ _ pid =>
    if (pid =? 55)%Z then Some (Some (mkProduct (Some "sweet") [])) else Some None.

(** * Properties *)

(** ** Numbers *)

Lemma truthy_Num (x : Q) : truthy (Num x) = true <-> ~ (x == 0)%Q.
Proof.
  simpl. rewrite negb_true_iff. split.
  - intros H. now apply Qeq_bool_neq.
  - intros H. destruct (Qeq_bool x 0) eqn:E; [|reflexivity].
    apply Qeq_bool_eq in E. contradiction.
Qed.

Lemma nle_Num (x y : Q) : nle (Num x) (Num y) = true <-> (x <= y)%Q.
Proof. apply Qle_bool_iff. Qed.

Lemma nlt_Num (x y : Q) : nlt (Num x) (Num y) = true <-> (x < y)%Q.
Proof.
  simpl. rewrite negb_true_iff. split.
  - intros H. apply Qnot_le_lt. intros L. apply Qle_bool_iff in L. congruence.
  - intros H. destruct (Qle_bool y x) eqn:E; [|reflexivity].
    apply Qle_bool_iff in E. lra.
Qed.


Lemma num_eq_refl (a : num) : num_eq a a.
Proof. destruct a; simpl; [reflexivity | exact I]. Qed.

(** [Math.max(x, 0)] is never below zero, whatever [x] is. *)
Lemma nmax_zero_not_negative (a : num) : nlt (nmax a zero) zero = false.
Proof.
  destruct a as [x|]; [|reflexivity].
  simpl. apply negb_false_iff, Qle_bool_iff.
  apply Q.le_max_r.
Qed.

(** ** The classifier *)

Lemma getProductSide_hit env pid shop st s :
  cache_get (now env) (products st) (cacheKey shop pid) = Some s ->
  getProductSide env pid shop st = (st, Ok (Some s)).
Proof.
  intros H. unfold getProductSide, bind, gets. now rewrite H.
Qed.

Lemma getProductSide_miss_eq env pid shop st :
  cache_get (now env) (products st) (cacheKey shop pid) = None ->
  getProductSide env pid shop st =
    match remote env shop pid with
    | RemoteError => (st, Throw)
    | RemoteData None => (st, Ok None)
    | RemoteData (Some product) =>
        match resolveSide product with
        | Some s =>
            (set_products
               (insert (cacheKey shop pid) (mkEntry s (now env + 86400))) st,
             Ok (Some s))
        | None => (st, Ok None)
        end
    end.
Proof.
  intros H. unfold getProductSide, bind, gets. rewrite H.
  destruct (remote env shop pid) as [|[product|]]; try reflexivity.
  unfold resolveSide.
  destruct (normalizeSide (metafield product)); [reflexivity|].
  destruct (includes "sweet" _); [reflexivity|].
  destruct (includes "savoury" _); reflexivity.
Qed.

Lemma sideOf_eq env shop st pid :
  sideOf env shop st pid =
    match cache_get (now env) (products st) (cacheKey shop pid) with
    | Some s => Ok (Some s)
    | None =>
        match remote env shop pid with
        | RemoteError => Throw
        | RemoteData None => Ok None
        | RemoteData (Some product) => Ok (resolveSide product)
        end
    end.
Proof.
  unfold sideOf.
  destruct (cache_get _ _ _) as [s|] eqn:E.
  - now rewrite (getProductSide_hit _ _ _ _ _ E).
  - rewrite (getProductSide_miss_eq _ _ _ _ E).
    destruct (remote env shop pid) as [|[product|]]; try reflexivity.
    destruct (resolveSide product); reflexivity.
Qed.

Lemma cache_get_insert_eq t c k s :
  cache_get t (<[k := mkEntry s (t + 86400)]> c) k = Some s.
Proof.
  unfold cache_get. rewrite lookup_insert_eq. simpl.
  destruct (Z.ltb_spec t (t + 86400)); [reflexivity | lia].
Qed.

Lemma cache_get_insert_ne t c k k' e :
  k <> k' -> cache_get t (<[k := e]> c) k' = cache_get t c k'.
Proof. intros H. unfold cache_get. now rewrite lookup_insert_ne. Qed.

(** A lookup only touches the classification cache. *)
Lemma getProductSide_frame env pid shop st :
  orders (fst (getProductSide env pid shop st)) = orders st /\
  totals (fst (getProductSide env pid shop st)) = totals st.
Proof.
  destruct (cache_get (now env) (products st) (cacheKey shop pid)) as [s|] eqn:E.
  - now rewrite (getProductSide_hit _ _ _ _ _ E).
  - rewrite (getProductSide_miss_eq _ _ _ _ E).
    destruct (remote env shop pid) as [|[product|]]; try now split.
    destruct (resolveSide product); now split.
Qed.

(** Within one request, a lookup does not change the answer of any later
    lookup: what it writes to the cache is what a miss resolves to. *)
Lemma getProductSide_stable env shop st pid pid' :
  sideOf env shop (fst (getProductSide env pid shop st)) pid' = sideOf env shop st pid'.
Proof.
  destruct (cache_get (now env) (products st) (cacheKey shop pid)) as [s|] eqn:E.
  - now rewrite (getProductSide_hit _ _ _ _ _ E).
  - rewrite (getProductSide_miss_eq _ _ _ _ E).
    destruct (remote env shop pid) as [|[product|]] eqn:R; try reflexivity.
    destruct (resolveSide product) as [s|] eqn:S; [|reflexivity].
    simpl. rewrite !sideOf_eq. simpl.
    destruct (decide (pid = pid')) as [->|Hne].
    + rewrite cache_get_insert_eq, E, R, S. reflexivity.
    + rewrite cache_get_insert_ne; [reflexivity|].
      unfold cacheKey. congruence.
Qed.

(** ** The contribution computation *)

Lemma contributionStep_eq env shop c item st :
  snd (contributionStep env shop c item st) =
    match kept env shop st item with
    | Throw => Throw
    | Ok None => Ok c
    | Ok (Some s) => Ok (record_line s item c)
    end.
Proof.
  unfold contributionStep, kept, sideOf.
  destruct (truthy_id (product_id item)) as [pid|]; [|reflexivity].
  unfold bind.
  destruct (getProductSide env pid shop st) as [st' [[s|]|]]; simpl; try reflexivity.
  destruct (nle (li_quantity item) zero); reflexivity.
Qed.

Lemma contributionStep_store env shop c item st :
  let st' := fst (contributionStep env shop c item st) in
  orders st' = orders st /\ totals st' = totals st /\
  forall pid, sideOf env shop st' pid = sideOf env shop st pid.
Proof.
  unfold contributionStep.
  destruct (truthy_id (product_id item)) as [pid|]; [|now repeat split].
  pose proof (getProductSide_frame env pid shop st) as [Ho Ht].
  pose proof (getProductSide_stable env shop st pid) as Hs.
  unfold bind.
  destruct (getProductSide env pid shop st) as [st1 [[s|]|]]; simpl in *;
    try (now repeat split).
  destruct (nle (li_quantity item) zero); now repeat split.
Qed.

Lemma kept_ext env shop st st' item :
  (forall pid, sideOf env shop st' pid = sideOf env shop st pid) ->
  kept env shop st' item = kept env shop st item.
Proof.
  intros H. unfold kept.
  destruct (truthy_id (product_id item)) as [pid|]; [|reflexivity].
  now rewrite H.
Qed.

Lemma collect_ext v v' items c :
  (forall item, v item = v' item) -> collect v items c = collect v' items c.
Proof.
  intros H. revert c. induction items as [|item rest IH]; intros c; simpl.
  - reflexivity.
  - rewrite H. destruct (v' item) as [[s|]|]; auto.
Qed.

(** The loop computes [collect] on the verdicts of the initial store and
    leaves the ledger and the totals alone. *)
Lemma foldM_contribution env shop items : forall c st,
  let out := foldM (contributionStep env shop) items c st in
  snd out = collect (kept env shop st) items c /\
  orders (fst out) = orders st /\ totals (fst out) = totals st /\
  forall pid, sideOf env shop (fst out) pid = sideOf env shop st pid.
Proof.
  induction items as [|item rest IH]; intros c st; simpl.
  - now repeat split.
  - pose proof (contributionStep_eq env shop c item st) as Hres.
    pose proof (contributionStep_store env shop c item st) as (Ho & Ht & Hs).
    unfold bind.
    destruct (contributionStep env shop c item st) as [st1 [c1|]]; simpl in *.
    + destruct (IH c1 st1) as (Hr & Ho' & Ht' & Hs').
      split; [|split; [congruence|split; [congruence|]]].
      * rewrite Hr.
        rewrite (collect_ext _ (kept env shop st)) by (intros; now apply kept_ext).
        destruct (kept env shop st item) as [[s|]|]; congruence.
      * intros pid. now rewrite Hs'.
    + split; [|now repeat split].
      destruct (kept env shop st item) as [[s|]|]; congruence.
Qed.

Lemma buildOrderContribution_eq env shop items st :
  snd (buildOrderContribution env items shop st) =
    collect (kept env shop st) items empty_contribution.
Proof. apply (foldM_contribution env shop items empty_contribution st). Qed.

Lemma buildOrderContribution_store env shop items st :
  let st' := fst (buildOrderContribution env items shop st) in
  orders st' = orders st /\ totals st' = totals st /\
  forall pid, sideOf env shop st' pid = sideOf env shop st pid.
Proof. apply (foldM_contribution env shop items empty_contribution st). Qed.

Lemma kept_classification env shop st item :
  kept env shop st item =
    match classification env shop st item with
    | Throw => Throw
    | Ok None => Ok None
    | Ok (Some s) => if nle (li_quantity item) zero then Ok None else Ok (Some s)
    end.
Proof.
  unfold kept, classification.
  destruct (truthy_id (product_id item)); reflexivity.
Qed.

Lemma lineTotal_not_negative item : nlt (lineTotal item) zero = false.
Proof. apply nmax_zero_not_negative. Qed.

Lemma record_line_lines s item c :
  c_lineItems (record_line s item c) = <[li_id item := entry_for s item]> (c_lineItems c).
Proof. destruct s; reflexivity. Qed.

Lemma record_line_sweet s item c :
  c_sweet (record_line s item c) =
    if decide (s = Sweet) then nadd (c_sweet c) (lineTotal item) else c_sweet c.
Proof. destruct s; reflexivity. Qed.

Lemma record_line_savoury s item c :
  c_savoury (record_line s item c) =
    if decide (s = Savoury) then nadd (c_savoury c) (lineTotal item) else c_savoury c.
Proof. destruct s; reflexivity. Qed.

Lemma collect_returns v items : forall c0,
  (forall item, item ∈ items -> v item <> Throw) ->
  exists c, collect v items c0 = Ok c.
Proof.
  induction items as [|item rest IH]; intros c0 H; simpl.
  - now exists c0.
  - assert (Hrest : forall i, i ∈ rest -> v i <> Throw)
      by (intros i Hi; apply H; now apply list_elem_of_further).
    pose proof (H item (list_elem_of_here _ _)) as Hitem.
    destruct (v item) as [[s|]|]; [now apply IH | now apply IH | congruence].
Qed.

Lemma collect_totals v items : forall c0 c,
  collect v items c0 = Ok c ->
  c_sweet c = side_sum v Sweet items (c_sweet c0) /\
  c_savoury c = side_sum v Savoury items (c_savoury c0).
Proof.
  induction items as [|item rest IH]; intros c0 c H; simpl in *.
  - now inversion H.
  - destruct (v item) as [[s|]|]; [| now apply IH | discriminate].
    destruct (IH _ _ H) as [Hs Hv].
    rewrite record_line_sweet in Hs. rewrite record_line_savoury in Hv.
    now split.
Qed.

(** Every entry of the fragment was recorded for a counted item. *)
Lemma collect_lines_sound v items : forall c0 c,
  collect v items c0 = Ok c ->
  forall k e, c_lineItems c !! k = Some e ->
    c_lineItems c0 !! k = Some e \/
    exists item s, item ∈ items /\ li_id item = k /\ v item = Ok (Some s) /\
                   e = entry_for s item.
Proof.
  induction items as [|item rest IH]; intros c0 c H k e He; simpl in *.
  - inversion H; subst. now left.
  - destruct (v item) as [[s|]|] eqn:V; [| |discriminate].
    + destruct (IH _ _ H k e He) as [Hin|(i & s' & Hi & Hk & Hv & Hee)].
      * rewrite record_line_lines in Hin.
        destruct (decide (li_id item = k)) as [Heq|Hne].
        -- subst k. rewrite lookup_insert_eq in Hin. inversion Hin; subst.
           right. exists item, s. repeat split; [apply list_elem_of_here | exact V].
        -- rewrite lookup_insert_ne in Hin by exact Hne. now left.
      * right. exists i, s'. repeat split; try assumption.
        now apply list_elem_of_further.
    + destruct (IH _ _ H k e He) as [Hin|(i & s' & Hi & Hk & Hv & Hee)].
      * now left.
      * right. exists i, s'. repeat split; try assumption.
        now apply list_elem_of_further.
Qed.

(** An id that no item of the list carries keeps its entry. *)
Lemma collect_lines_other v items : forall c0 c k,
  collect v items c0 = Ok c ->
  k ∉ map li_id items ->
  c_lineItems c !! k = c_lineItems c0 !! k.
Proof.
  induction items as [|item rest IH]; intros c0 c k H Hk; simpl in *.
  - now inversion H.
  - apply not_elem_of_cons in Hk as [Hne Hk].
    destruct (v item) as [[s|]|]; [| now apply IH | discriminate].
    rewrite (IH _ _ _ H Hk), record_line_lines.
    now rewrite lookup_insert_ne by congruence.
Qed.

(** With distinct line item ids, a counted item finds its own entry. *)
Lemma collect_lines_complete v items : forall c0 c item s,
  collect v items c0 = Ok c ->
  NoDup (map li_id items) ->
  item ∈ items -> v item = Ok (Some s) ->
  c_lineItems c !! li_id item = Some (entry_for s item).
Proof.
  induction items as [|i rest IH]; intros c0 c item s H Hnd Hin Hv; simpl in *.
  - now apply elem_of_nil in Hin.
  - apply NoDup_cons in Hnd as [Hfresh Hnd].
    apply elem_of_cons in Hin as [->|Hin].
    + rewrite Hv in H.
      rewrite (collect_lines_other _ _ _ _ _ H Hfresh), record_line_lines.
      apply lookup_insert_eq.
    + destruct (v i) as [[s'|]|]; [| |discriminate]; now apply (IH _ _ _ _ H).
Qed.

Lemma classifiable_kept env shop st items :
  classifiable env shop st items = true ->
  forall item, item ∈ items -> kept env shop st item <> Throw.
Proof.
  unfold classifiable. rewrite forallb_forall.
  intros H item Hin. apply list_elem_of_In in Hin. specialize (H item Hin).
  rewrite kept_classification.
  destruct (classification env shop st item) as [[s|]|]; try discriminate.
  destruct (nle (li_quantity item) zero); discriminate.
Qed.

Lemma kept_counted env shop st item s :
  kept env shop st item = Ok (Some s) <->
  classification env shop st item = Ok (Some s) /\ nle (li_quantity item) zero = false.
Proof.
  rewrite kept_classification.
  destruct (classification env shop st item) as [[s'|]|];
    [|split; [discriminate | intros [? _]; discriminate] ..].
  destruct (nle (li_quantity item) zero); split.
  - discriminate.
  - intros [_ ?]; discriminate.
  - intros H; now inversion H.
  - intros [H _]; now inversion H.
Qed.

Lemma kept_skipped env shop st item :
  kept env shop st item = Ok None <->
  classification env shop st item = Ok None \/
  (exists s, classification env shop st item = Ok (Some s)) /\
  nle (li_quantity item) zero = true.
Proof.
  rewrite kept_classification.
  destruct (classification env shop st item) as [[s'|]|].
  - destruct (nle (li_quantity item) zero); split.
    + intros _. right. split; [now exists s' | reflexivity].
    + reflexivity.
    + discriminate.
    + intros [H|[_ H]]; discriminate.
  - split; [now left | reflexivity].
  - split; [discriminate | intros [H|[[s H] _]]; discriminate].
Qed.

Lemma lineTotal_number item (q : Q) :
  li_quantity item = Num q ->
  let unitPrice := if Qeq_bool (price_set_amount item) 0 then price item
                   else price_set_amount item in
  let lineDiscount := if Qeq_bool (total_discount_set_amount item) 0
                      then total_discount item
                      else total_discount_set_amount item in
  lineTotal item = Num (Qmax (unitPrice * q - lineDiscount) 0)%Q /\
  ((unitPrice * q - lineDiscount <= 0)%Q -> num_eq (lineTotal item) (Num 0)) /\
  ((0 <= unitPrice * q - lineDiscount)%Q ->
     num_eq (lineTotal item) (Num (unitPrice * q - lineDiscount)%Q)).
Proof.
  intros Hq unitPrice lineDiscount.
  assert (E : lineTotal item = Num (Qmax (unitPrice * q - lineDiscount) 0)%Q).
  { unfold lineTotal, item_price, item_discount, qor. rewrite Hq. reflexivity. }
  split; [exact E|]. rewrite E. simpl.
  split; intros H.
  - destruct (Q.max_spec (unitPrice * q - lineDiscount)%Q 0%Q) as [[Hlt ->]|[Hle ->]];
      [reflexivity | lra].
  - destruct (Q.max_spec (unitPrice * q - lineDiscount)%Q 0%Q) as [[Hlt ->]|[Hle ->]];
      [lra | reflexivity].
Qed.

(** C6. For every list of line items whose classifications do not throw,
    [buildOrderContribution] returns a contribution such that: an item is
    skipped exactly when its classification is none or its quantity is
    <= 0, and the loop body leaves the contribution as it is for such an
    item; for every other item the loop body adds [lineTotal] to the total
    of the item's side and records at the item's id an entry with
    [remaining = revenue = lineTotal]; for a numeric quantity [q],
    [lineTotal] is [max(unitPrice * q - lineDiscount, 0)], where
    [unitPrice] is the price-set amount, or the plain price when that
    amount is zero, and [lineDiscount] likewise: it is [0] when the
    discount reaches the price and the difference otherwise; it is never
    negative; each side's total is the sum of the line totals of the
    counted items of that side; every entry of the ledger fragment was
    recorded for a counted item; and with distinct line item ids every
    counted item has its own entry. *)
Theorem buildOrderContribution_correct env shop items st :
  classifiable env shop st items = true ->
  let verdict := kept env shop st in
  exists c,
    snd (buildOrderContribution env items shop st) = Ok c /\
    (forall item, verdict item = Ok None <->
       classification env shop st item = Ok None \/
       (exists s, classification env shop st item = Ok (Some s)) /\
       nle (li_quantity item) zero = true) /\
    (forall item s, verdict item = Ok (Some s) <->
       classification env shop st item = Ok (Some s) /\
       nle (li_quantity item) zero = false) /\
    (forall c0 item, verdict item = Ok None ->
       snd (contributionStep env shop c0 item st) = Ok c0) /\
    (forall c0 item s, verdict item = Ok (Some s) ->
       let c1 := record_line s item c0 in
       snd (contributionStep env shop c0 item st) = Ok c1 /\
       c_lineItems c1 !! li_id item =
         Some (mkLine s (li_quantity item) (lineTotal item) (lineTotal item)) /\
       c_sweet c1 = (if decide (s = Sweet) then nadd (c_sweet c0) (lineTotal item)
                     else c_sweet c0) /\
       c_savoury c1 = (if decide (s = Savoury) then nadd (c_savoury c0) (lineTotal item)
                       else c_savoury c0)) /\
    (forall item q, li_quantity item = Num q ->
       let unitPrice := if Qeq_bool (price_set_amount item) 0 then price item
                        else price_set_amount item in
       let lineDiscount := if Qeq_bool (total_discount_set_amount item) 0
                           then total_discount item
                           else total_discount_set_amount item in
       lineTotal item = Num (Qmax (unitPrice * q - lineDiscount) 0)%Q /\
       ((unitPrice * q - lineDiscount <= 0)%Q -> num_eq (lineTotal item) (Num 0)) /\
       ((0 <= unitPrice * q - lineDiscount)%Q ->
          num_eq (lineTotal item) (Num (unitPrice * q - lineDiscount)%Q))) /\
    (forall item, li_quantity item = NaN -> lineTotal item = NaN) /\
    (forall item, nlt (lineTotal item) zero = false) /\
    c_sweet c = side_sum verdict Sweet items zero /\
    c_savoury c = side_sum verdict Savoury items zero /\
    (forall k e, c_lineItems c !! k = Some e ->
       exists item s, item ∈ items /\ li_id item = k /\ verdict item = Ok (Some s) /\
         e = mkLine s (li_quantity item) (lineTotal item) (lineTotal item)) /\
    (NoDup (map li_id items) ->
     forall item s, item ∈ items -> verdict item = Ok (Some s) ->
       c_lineItems c !! li_id item =
         Some (mkLine s (li_quantity item) (lineTotal item) (lineTotal item))).
Proof.
  intros Hcl verdict.
  destruct (collect_returns verdict items empty_contribution
              (classifiable_kept _ _ _ _ Hcl)) as [c Hc].
  exists c.
  split; [now rewrite buildOrderContribution_eq|].
  split; [intros item; apply kept_skipped|].
  split; [intros item s; apply kept_counted|].
  split.
  { intros c0 item Hv. rewrite contributionStep_eq. fold verdict. now rewrite Hv. }
  split.
  { intros c0 item s Hv c1. repeat split.
    - rewrite contributionStep_eq. fold verdict. now rewrite Hv.
    - unfold c1. rewrite record_line_lines. apply lookup_insert_eq.
    - apply record_line_sweet.
    - apply record_line_savoury. }
  split; [intros item q Hq; now apply lineTotal_number|].
  split; [intros item Hq; unfold lineTotal; now rewrite Hq|].
  split; [intros item; apply lineTotal_not_negative|].
  destruct (collect_totals _ _ _ _ Hc) as [Hs Hv].
  split; [exact Hs|]. split; [exact Hv|].
  split.
  { intros k e He.
    destruct (collect_lines_sound _ _ _ _ Hc k e He) as [H0|H]; [|exact H].
    simpl in H0. now rewrite lookup_empty in H0. }
  intros Hnd item s Hin Hv'.
  now apply (collect_lines_complete _ _ _ _ _ _ Hc Hnd Hin).
Qed.

(** ** Classification on a cache miss *)

Lemma cache_get_written t0 t c k s :
  cache_get t (<[k := mkEntry s (t0 + 86400)]> c) k =
    if (t <? t0 + 86400)%Z then Some s else None.
Proof. unfold cache_get. now rewrite lookup_insert_eq. Qed.

(** *** White space around a side *)

Lemma rev_app_append v : forall w acc,
  String.rev_app (v ++ w) acc = String.rev_app w (String.rev_app v acc).
Proof.
  induction v as [|a v IH]; intros w acc; [reflexivity|].
  change (String a v ++ w) with (String a (v ++ w)). simpl. apply IH.
Qed.

Lemma trimStart_white_space w v :
  w ∈ white_space -> trimStart (w ++ v) = trimStart v.
Proof. intros Hw. each_white_space Hw reflexivity. Qed.

Lemma trimEnd_white_space w v :
  w ∈ white_space -> trimEnd (v ++ w) = trimEnd v.
Proof.
  intros Hw. unfold trimEnd, String.rev. rewrite rev_app_append.
  each_white_space Hw reflexivity.
Qed.

Lemma white_space_stripped w : w ∈ white_space -> strip true w = "".
Proof. intros Hw. each_white_space Hw reflexivity. Qed.

Lemma white_space_starts w :
  w ∈ white_space -> exists b r, w = String b r /\ not_continuation b.
Proof.
  intros Hw.
  each_white_space Hw
    (eexists _, _; split;
     [reflexivity | unfold not_continuation; rewrite nat_ascii_embedding; lia]).
Qed.

Lemma is_space2_start a b : not_continuation b -> is_space2 a b = false.
Proof.
  intros Hb. apply not_true_iff_false. unfold is_space2, not_continuation in *.
  rewrite andb_true_iff, !Nat.eqb_eq. lia.
Qed.

Lemma is_space3_start a b c : not_continuation b -> is_space3 a b c = false.
Proof.
  intros Hb. apply not_true_iff_false. unfold is_space3, not_continuation in *.
  cbv zeta.
  rewrite !orb_true_iff, !andb_true_iff, !orb_true_iff, !andb_true_iff,
    !Nat.eqb_eq, !Nat.leb_le.
  lia.
Qed.

Lemma is_space3_end a b c : not_continuation c -> is_space3 a b c = false.
Proof.
  intros Hb. apply not_true_iff_false. unfold is_space3, not_continuation in *.
  cbv zeta.
  rewrite !orb_true_iff, !andb_true_iff, !orb_true_iff, !andb_true_iff,
    !Nat.eqb_eq, !Nat.leb_le.
  lia.
Qed.

(** Stripping the front of a string that is followed by the start of a
    character: the bytes that follow are reached only when the string is
    white space throughout. *)
Lemma strip_append b0 w : not_continuation b0 -> forall n v,
  (String.length v <= n)%nat ->
  strip true (v ++ String b0 w) =
    match strip true v with
    | EmptyString => strip true (String b0 w)
    | String x u => String x u ++ String b0 w
    end.
Proof.
  intros Hb. induction n as [|n IH]; intros v Hlen.
  - destruct v; [reflexivity | simpl in Hlen; lia].
  - destruct v as [|a r]; [reflexivity|]. simpl in Hlen.
    change (String a r ++ String b0 w) with (String a (r ++ String b0 w)).
    cbn [strip]. destruct (is_space a) eqn:Ea; [apply IH; lia|].
    destruct r as [|b r2].
    + change ("" ++ String b0 w) with (String b0 w). cbv beta iota.
      rewrite (is_space2_start a b0 Hb).
      destruct w as [|c w']; [reflexivity|].
      now rewrite (is_space3_start a b0 c Hb).
    + change (String b r2 ++ String b0 w) with (String b (r2 ++ String b0 w)).
      cbv beta iota.
      simpl in Hlen.
      destruct (is_space2 a b) eqn:E2; [apply IH; lia|].
      destruct r2 as [|c r3].
      * change ("" ++ String b0 w) with (String b0 w). cbv beta iota.
        now rewrite (is_space3_end a b b0 Hb).
      * change (String c r3 ++ String b0 w) with (String c (r3 ++ String b0 w)).
        cbv beta iota.
        simpl in Hlen.
        destruct (is_space3 a b c) eqn:E3; [apply IH; lia | reflexivity].
Qed.

Lemma trim_white_space w v :
  w ∈ white_space -> trim (w ++ v) = trim v /\ trim (v ++ w) = trim v.
Proof.
  intros Hw. unfold trim. split.
  - now rewrite trimStart_white_space.
  - destruct (white_space_starts w Hw) as (b & r & Ew & Hb).
    unfold trimStart. rewrite Ew.
    rewrite (strip_append b r Hb (String.length v) v (le_n _)).
    rewrite <- Ew. destruct (strip true v) as [|x u] eqn:Ev.
    + now rewrite white_space_stripped.
    + now apply trimEnd_white_space.
Qed.

Lemma append_empty_r (s : string) : s ++ "" = s.
Proof.
  induction s as [|a s IH]; [reflexivity|].
  change (String a s ++ "") with (String a (s ++ "")). now rewrite IH.
Qed.

Lemma normalizeSide_white_space w v :
  w ∈ white_space ->
  normalizeSide (Some (w ++ v)) = normalizeSide (Some v) /\
  normalizeSide (Some (v ++ w)) = normalizeSide (Some v).
Proof.
  intros Hw. destruct (trim_white_space w v Hw) as [Hl Hr].
  destruct (white_space_starts w Hw) as (b & r & Ew & _).
  assert (Hempty : trim w = "").
  { unfold trim, trimStart. now rewrite white_space_stripped. }
  destruct v as [|a v'].
  - rewrite append_empty_r.
    change ("" ++ w) with w.
    unfold normalizeSide. rewrite Hempty, Ew. now split.
  - unfold normalizeSide. rewrite Hl, Hr, Ew. now split.
Qed.

Lemma normalizeSide_spec v :
  (normalizeSide (Some v) = Some Sweet <-> toLowerCase (trim v) = "sweet") /\
  (normalizeSide (Some v) = Some Savoury <-> toLowerCase (trim v) = "savoury") /\
  (normalizeSide (Some v) = None <->
     toLowerCase (trim v) <> "sweet" /\ toLowerCase (trim v) <> "savoury").
Proof.
  unfold normalizeSide.
  destruct (String.eqb v "") eqn:Ev.
  - apply String.eqb_eq in Ev. subst v.
    repeat split; try discriminate; intros [H1 H2]; reflexivity.
  - destruct (String.eqb_spec (toLowerCase (trim v)) "sweet") as [E|E].
    + rewrite E. repeat split; try discriminate; try reflexivity.
      intros [H _]. now elim H.
    + destruct (String.eqb_spec (toLowerCase (trim v)) "savoury") as [E'|E'].
      * rewrite E'. repeat split; try discriminate; try reflexivity.
        intros [_ H]. now elim H.
      * repeat split; try discriminate; try assumption; intros H; congruence.
Qed.

Lemma includes_tagged word (l : list string) :
  includes word (map toLowerCase l) = true <->
  exists tag, tag ∈ l /\ toLowerCase tag = word.
Proof.
  unfold includes. rewrite existsb_exists. split.
  - intros (x & Hin & Hx). apply in_map_iff in Hin as (tag & Htag & Hin).
    exists tag. split; [now apply list_elem_of_In|].
    apply String.eqb_eq in Hx. congruence.
  - intros (tag & Hin & Htag). exists word. split.
    + apply in_map_iff. exists tag. split; [exact Htag | now apply list_elem_of_In].
    + apply String.eqb_refl.
Qed.

(** C7. On a cache miss: for a product the API returns, a valid metafield
    [battle.side] decides the side whatever the tags are; otherwise a tag
    that reads [sweet] in lower case decides for sweet, and otherwise a
    tag that reads [savoury] for savoury; a resolved side is written to
    the cache under the key of the shop (or [default]) and the product with
    an expiry of 86400 seconds (the entry is read back before that instant
    and not from it on, and no other key is touched); and when neither the
    metafield nor the tags give a side, or the API knows no such product,
    the result is none and the store is left as it was; when the API fails
    the call throws and the store is left as it was.  A metafield is valid
    when, trimmed and in lower case, it reads [sweet] or [savoury]; white
    space of any kind before or after it makes no difference. *)
Theorem getProductSide_cache_miss env pid shop st :
  cache_get (now env) (products st) (cacheKey shop pid) = None ->
  let key := cacheKey shop pid in
  let cached s := set_products (insert key (mkEntry s (now env + 86400))) st in
  let tagged word product := exists tag, tag ∈ tags product /\ toLowerCase tag = word in
  (forall product, remote env shop pid = RemoteData (Some product) ->
     (forall s, normalizeSide (metafield product) = Some s ->
        getProductSide env pid shop st = (cached s, Ok (Some s))) /\
     (normalizeSide (metafield product) = None ->
      tagged "sweet" product ->
        getProductSide env pid shop st = (cached Sweet, Ok (Some Sweet))) /\
     (normalizeSide (metafield product) = None ->
      ~ tagged "sweet" product -> tagged "savoury" product ->
        getProductSide env pid shop st = (cached Savoury, Ok (Some Savoury))) /\
     (normalizeSide (metafield product) = None ->
      ~ tagged "sweet" product -> ~ tagged "savoury" product ->
        getProductSide env pid shop st = (st, Ok None))) /\
  (remote env shop pid = RemoteData None ->
     getProductSide env pid shop st = (st, Ok None)) /\
  (remote env shop pid = RemoteError ->
     getProductSide env pid shop st = (st, Throw)) /\
  normalizeSide None = None /\
  (forall v,
     (normalizeSide (Some v) = Some Sweet <-> toLowerCase (trim v) = "sweet") /\
     (normalizeSide (Some v) = Some Savoury <-> toLowerCase (trim v) = "savoury") /\
     (normalizeSide (Some v) = None <->
        toLowerCase (trim v) <> "sweet" /\ toLowerCase (trim v) <> "savoury")) /\
  (forall w v, w ∈ white_space ->
     normalizeSide (Some (w ++ v)) = normalizeSide (Some v) /\
     normalizeSide (Some (v ++ w)) = normalizeSide (Some v)) /\
  key = (match shop with
         | Some domain => if String.eqb domain "" then "default" else domain
         | None => "default"
         end, pid) /\
  (forall s t,
     cache_get t (products (cached s)) key =
       if (t <? now env + 86400)%Z then Some s else None) /\
  (forall s k, k <> key -> products (cached s) !! k = products st !! k) /\
  (forall s, orders (cached s) = orders st /\ totals (cached s) = totals st).
Proof.
  intros Hmiss key cached tagged.
  pose proof (getProductSide_miss_eq env pid shop st Hmiss) as E.
  split.
  { intros product Hremote.
    rewrite Hremote in E. unfold resolveSide in E.
    assert (Hno : forall word, ~ tagged word product ->
                    includes word (map toLowerCase (tags product)) = false).
    { intros word Hn. apply not_true_iff_false. intros Hi. apply Hn.
      now apply includes_tagged. }
    repeat split.
    - intros s Hs. now rewrite Hs in E.
    - intros Hm Hsw. apply includes_tagged in Hsw. now rewrite Hm, Hsw in E.
    - intros Hm Hsw Hsa. apply Hno in Hsw. apply includes_tagged in Hsa.
      now rewrite Hm, Hsw, Hsa in E.
    - intros Hm Hsw Hsa. apply Hno in Hsw. apply Hno in Hsa.
      now rewrite Hm, Hsw, Hsa in E. }
  split; [intros Hremote; now rewrite Hremote in E|].
  split; [intros Hremote; now rewrite Hremote in E|].
  split; [reflexivity|].
  split; [apply normalizeSide_spec|].
  split; [intros w v Hw; now apply normalizeSide_white_space|].
  split; [reflexivity|].
  split; [intros s t; apply cache_get_written|].
  split; [intros s k Hk; simpl; now rewrite lookup_insert_ne|].
  intros s. now split.
Qed.

(** ** The read endpoint *)

(** C8. Every GET request to the totals endpoint is answered with status
    200 and a JSON body, whatever the store holds; a side whose total is
    absent from the store reads as zero, an absent timestamp reads as the
    current time, and with no aggregate state at all the body is zero for
    both sides with the current time as [lastUpdated]. *)
Theorem battleState_get_succeeds t st :
  exists js,
    battleState t "GET" st = (200, Some js) /\
    (t_sweet (totals st) = None -> sweetRevenue js = zero) /\
    (t_savoury (totals st) = None -> savouryRevenue js = zero) /\
    (t_lastUpdated (totals st) = None -> lastUpdated js = t) /\
    (totals st = empty_totals -> js = mkTotalsJson zero zero t).
Proof.
  eexists. split; [reflexivity|]. simpl.
  repeat split.
  - intros H. now rewrite H.
  - intros H. now rewrite H.
  - intros H. now rewrite H.
  - intros H. now rewrite H.
Qed.

(** ** Cancellation *)

(** [-Number(x || 0)] is a number whatever [x] is. *)
Lemma negated_number (a : num) : exists x, nneg (jsor a zero) = Num x.
Proof.
  destruct a as [q|]; unfold jsor; simpl; [|now eexists].
  destruct (negb (Qeq_bool q 0)); simpl; now eexists.
Qed.

Lemma updateTotals_numbers t x y st :
  updateTotals t (Num x) (Num y) st =
    (set_totals (fun tot =>
       mkTotals (hincrbyfloat (t_sweet tot) (Num x))
                (hincrbyfloat (t_savoury tot) (Num y))
                (Some t)) st, Ok tt).
Proof. reflexivity. Qed.

Lemma updateTotals_refused t a b st :
  a = NaN \/ b = NaN -> updateTotals t a b st = (st, Throw).
Proof. intros [->| ->]; [reflexivity | destruct a; reflexivity]. Qed.

Lemma handleOrderCancelled_absent env payload st :
  (forall oid, truthy_id (p_id payload) = Some oid -> orders st !! oid = None) ->
  handleOrderCancelled env payload st = (st, Ok tt).
Proof.
  intros H. unfold handleOrderCancelled.
  destruct (truthy_id (p_id payload)) as [oid|]; [|reflexivity].
  unfold bind, get_order, gets. now rewrite (H oid eq_refl).
Qed.

Lemma handleRefundCreate_absent env payload st :
  (forall oid, truthy_id (p_order_id payload) = Some oid -> orders st !! oid = None) ->
  handleRefundCreate env payload st = (st, Ok tt).
Proof.
  intros H. unfold handleRefundCreate.
  destruct (truthy_id (p_order_id payload)) as [oid|]; [|reflexivity].
  unfold bind, get_order, gets. now rewrite (H oid eq_refl).
Qed.

Lemma handleOrderCancelled_present env payload st oid r :
  truthy_id (p_id payload) = Some oid ->
  orders st !! oid = Some r ->
  handleOrderCancelled env payload st =
    (mkKV (delete oid (orders st)) (products st)
       (mkTotals (hincrbyfloat (t_sweet (totals st)) (nneg (jsor (r_sweet r) zero)))
                 (hincrbyfloat (t_savoury (totals st)) (nneg (jsor (r_savoury r) zero)))
                 (Some (now env))),
     Ok tt).
Proof.
  intros Hid Hr. unfold handleOrderCancelled. rewrite Hid.
  unfold bind, get_order, gets. rewrite Hr.
  destruct (negated_number (r_sweet r)) as [x Hx].
  destruct (negated_number (r_savoury r)) as [y Hy].
  rewrite Hx, Hy. reflexivity.
Qed.

Lemma negated_finite (x : Q) : num_eq (nneg (jsor (Num x) zero)) (Num (- x)).
Proof.
  unfold jsor. destruct (truthy (Num x)) eqn:E; simpl.
  - reflexivity.
  - apply negb_false_iff, Qeq_bool_eq in E. rewrite E. reflexivity.
Qed.

Lemma cancelled_total (t : option num) (rt : num) (a x : Q) :
  default zero t = Num a -> rt = Num x ->
  num_eq (default zero (hincrbyfloat t (nneg (jsor rt zero)))) (Num (a - x)).
Proof.
  intros Ha Hx. subst rt. unfold hincrbyfloat. simpl. rewrite Ha.
  unfold jsor. destruct (truthy (Num x)) eqn:E; simpl.
  - unfold Qminus. reflexivity.
  - simpl in E. apply negb_false_iff, Qeq_bool_eq in E. rewrite E. lra.
Qed.

Lemma cancelled_total_nan (t : option num) (a : Q) :
  default zero t = Num a ->
  num_eq (default zero (hincrbyfloat t (nneg (jsor NaN zero)))) (Num a).
Proof. intros Ha. unfold hincrbyfloat. simpl. rewrite Ha. simpl. lra. Qed.

(** C5. For a cancellation event naming order [oid]: when the store has no
    record for [oid] the store is left as it was; when it has record [r],
    the handler returns, each stored running total [a] becomes [a - x]
    where [x] is the total of that side stored on [r] (and stays [a] when
    the record holds no number there), [lastUpdated] becomes the time of the
    event, the record is deleted and nothing else changes, after which a
    second cancellation of [oid] and any refund event for [oid] leave the
    store as it is. *)
Theorem cancellation_terminal env payload oid st :
  truthy_id (p_id payload) = Some oid ->
  (orders st !! oid = None -> handleOrderCancelled env payload st = (st, Ok tt)) /\
  (forall r, orders st !! oid = Some r ->
     let st' := fst (handleOrderCancelled env payload st) in
     snd (handleOrderCancelled env payload st) = Ok tt /\
     (forall s a x, stored_total s st = Num a -> record_total s r = Num x ->
        num_eq (stored_total s st') (Num (a - x))) /\
     (forall s a, stored_total s st = Num a -> record_total s r = NaN ->
        num_eq (stored_total s st') (Num a)) /\
     t_lastUpdated (totals st') = Some (now env) /\
     orders st' = delete oid (orders st) /\
     orders st' !! oid = None /\
     (forall o, o <> oid -> orders st' !! o = orders st !! o) /\
     products st' = products st /\
     (forall env2, handleOrderCancelled env2 payload st' = (st', Ok tt)) /\
     (forall env2 refund, truthy_id (p_order_id refund) = Some oid ->
        handleRefundCreate env2 refund st' = (st', Ok tt))).
Proof.
  intros Hid. split.
  - intros Habs. apply handleOrderCancelled_absent.
    intros o Ho. congruence.
  - intros r Hr st'. unfold st'.
    rewrite (handleOrderCancelled_present env payload st oid r Hid Hr). simpl.
    split; [reflexivity|].
    split.
    { intros s a x Ha Hx. destruct s; unfold stored_total in *; simpl in *;
        now apply cancelled_total. }
    split.
    { intros s a Ha Hx. destruct s; unfold stored_total in *; simpl in *;
        rewrite Hx; now apply cancelled_total_nan. }
    split; [reflexivity|]. split; [reflexivity|].
    split; [apply lookup_delete_eq|].
    split; [intros o Ho; now apply lookup_delete_ne|].
    split; [reflexivity|].
    split.
    + intros env2. apply handleOrderCancelled_absent.
      intros o Ho. rewrite Hid in Ho. inversion Ho; subst. simpl.
      apply lookup_delete_eq.
    + intros env2 refund Hrf. apply handleRefundCreate_absent.
      intros o Ho. rewrite Hrf in Ho. inversion Ho; subst. simpl.
      apply lookup_delete_eq.
Qed.

(** ** Paid events *)

Lemma handleOrderPaid_no_id env payload shop st :
  truthy_id (p_id payload) = None ->
  handleOrderPaid env payload shop st = (st, Ok tt).
Proof. intros H. unfold handleOrderPaid. now rewrite H. Qed.

Lemma handleOrderPaid_gate env payload shop st oid r :
  truthy_id (p_id payload) = Some oid ->
  orders st !! oid = Some r ->
  handleOrderPaid env payload shop st = (st, Ok tt).
Proof.
  intros Hid Hr. unfold handleOrderPaid. rewrite Hid.
  unfold bind, get_order, gets. now rewrite Hr.
Qed.

Lemma handleOrderPaid_fresh env payload shop st oid :
  truthy_id (p_id payload) = Some oid ->
  orders st !! oid = None ->
  handleOrderPaid env payload shop st =
    match buildOrderContribution env (line_items payload) shop st with
    | (stb, Throw) => (stb, Throw)
    | (stb, Ok c) =>
        if (is_zero (c_sweet c) && is_zero (c_savoury c))%bool then (stb, Ok tt)
        else
          match c_sweet c, c_savoury c with
          | Num _, Num _ =>
              (mkKV (<[oid := mkOrder oid (c_sweet c) (c_savoury c) (c_lineItems c)]>
                       (orders stb))
                    (products stb)
                    (mkTotals (hincrbyfloat (t_sweet (totals stb)) (c_sweet c))
                              (hincrbyfloat (t_savoury (totals stb)) (c_savoury c))
                              (Some (now env))),
               Ok tt)
          | _, _ => (stb, Throw)
          end
    end.
Proof.
  intros Hid Hr. unfold handleOrderPaid. rewrite Hid.
  unfold bind at 1. unfold get_order, gets. rewrite Hr.
  unfold bind at 1.
  destruct (buildOrderContribution env (line_items payload) shop st) as [stb [c|]];
    [|reflexivity].
  destruct (is_zero (c_sweet c) && is_zero (c_savoury c))%bool; [reflexivity|].
  destruct (c_sweet c), (c_savoury c); reflexivity.
Qed.

(** The contribution of an event does not depend on what an earlier run of
    the same event, against the same API answers and clock, left in the
    classification cache. *)
Lemma buildOrderContribution_replay env shop items st :
  let st1 := fst (buildOrderContribution env items shop st) in
  snd (buildOrderContribution env items shop st1) =
  snd (buildOrderContribution env items shop st).
Proof.
  intros st1. rewrite !buildOrderContribution_eq.
  apply collect_ext. intros item. apply kept_ext.
  apply (buildOrderContribution_store env shop items st).
Qed.

(** ** Replaying a paid event later *)









Lemma collect_throws v items : forall c,
  collect v items c = Throw <-> exists item, item ∈ items /\ v item = Throw.
Proof.
  induction items as [|item rest IH]; intros c; simpl.
  - split; [discriminate | intros (i & Hi & _); now apply elem_of_nil in Hi].
  - destruct (v item) as [[s|]|] eqn:V.
    + rewrite IH. split; intros (i & Hi & Hv).
      * exists i. split; [now apply list_elem_of_further | exact Hv].
      * apply elem_of_cons in Hi as [->|Hi]; [congruence | eauto].
    + rewrite IH. split; intros (i & Hi & Hv).
      * exists i. split; [now apply list_elem_of_further | exact Hv].
      * apply elem_of_cons in Hi as [->|Hi]; [congruence | eauto].
    + split; [|reflexivity]. intros _. exists item.
      split; [apply list_elem_of_here | exact V].
Qed.

Lemma lineTotal_cases item :
  lineTotal item = NaN \/ exists t, lineTotal item = Num t /\ (0 <= t)%Q.
Proof.
  unfold lineTotal.
  destruct (nsub _ _) as [x|]; simpl; [right | now left].
  eexists. split; [reflexivity | apply Q.le_max_r].
Qed.






(** After a paid event was processed, processing the identical event again
    at the same or a later clock, against the same API answers, leaves the
    ledger and the totals as they are. *)
Lemma side_sum_number v s items :
  (forall item, item ∈ items -> finite (li_quantity item)) ->
  forall a, exists z, side_sum v s items (Num a) = Num z.
Proof.
  induction items as [|item rest IH]; intros Hfin a; simpl; [now exists a|].
  assert (Hrest : forall i, i ∈ rest -> finite (li_quantity i))
    by (intros i Hi; apply Hfin; now apply list_elem_of_further).
  destruct (v item) as [[s'|]|]; try now apply IH.
  destruct (decide (s' = s)); [|now apply IH].
  destruct (Hfin item (list_elem_of_here _ _)) as [q Hq].
  destruct (lineTotal_cases item) as [En|(t & Et & _)];
    [unfold lineTotal in En; rewrite Hq in En; discriminate|].
  rewrite Et. simpl. now apply IH.
Qed.

(** Line items whose quantities are numbers give a contribution that is a
    number on both sides. *)
Lemma collect_number v items c :
  (forall item, item ∈ items -> finite (li_quantity item)) ->
  collect v items empty_contribution = Ok c ->
  finite (c_sweet c) /\ finite (c_savoury c).
Proof.
  intros Hfin Hc.
  destruct (collect_totals _ _ _ _ Hc) as [Hs Hv]. simpl in Hs, Hv.
  destruct (side_sum_number v Sweet items Hfin 0) as [x Hx].
  destruct (side_sum_number v Savoury items Hfin 0) as [y Hy].
  unfold zero in Hs, Hv. rewrite Hx in Hs. rewrite Hy in Hv.
  split; eexists; eassumption.
Qed.



(** ** Refund events *)

Lemma handleRefundCreate_present env payload st oid r :
  truthy_id (p_order_id payload) = Some oid ->
  orders st !! oid = Some r ->
  handleRefundCreate env payload st =
    let acc := refundLoop r (refund_line_items payload) in
    if (is_zero (deltaSweet acc) && is_zero (deltaSavoury acc))%bool then (st, Ok tt)
    else
      match deltaSweet acc, deltaSavoury acc with
      | Num _, Num _ =>
          (mkKV (<[oid := mkOrder (r_orderId r)
                            (nmax (nadd (jsor (r_sweet r) zero) (deltaSweet acc)) zero)
                            (nmax (nadd (jsor (r_savoury r) zero) (deltaSavoury acc)) zero)
                            (a_lines acc)]> (orders st))
                (products st)
                (mkTotals (hincrbyfloat (t_sweet (totals st)) (deltaSweet acc))
                          (hincrbyfloat (t_savoury (totals st)) (deltaSavoury acc))
                          (Some (now env))),
           Ok tt)
      | _, _ => (st, Throw)
      end.
Proof.
  intros Hid Hr. unfold handleRefundCreate. rewrite Hid.
  unfold bind at 1. unfold get_order, gets. rewrite Hr. cbv zeta.
  destruct (is_zero _ && is_zero _)%bool; [reflexivity|].
  destruct (deltaSweet _), (deltaSavoury _); reflexivity.
Qed.

Lemma refundStep_other acc ri k :
  line_item_id ri <> k -> a_lines (refundStep acc ri) !! k = a_lines acc !! k.
Proof.
  intros Hne. unfold refundStep.
  destruct (a_lines acc !! line_item_id ri) as [line|]; [|reflexivity].
  destruct (negb (truthy (rf_quantity ri)) || negb (truthy (quantity line)))%bool;
    [reflexivity|].
  simpl. now rewrite lookup_insert_ne.
Qed.

Lemma refund_fold_other items : forall acc k,
  k ∉ map line_item_id items ->
  a_lines (fold_left refundStep items acc) !! k = a_lines acc !! k.
Proof.
  induction items as [|ri rest IH]; intros acc k Hk; simpl in *.
  - reflexivity.
  - apply not_elem_of_cons in Hk as [Hne Hk].
    rewrite (IH _ _ Hk). apply refundStep_other. congruence.
Qed.

(** C9. For a refund event applied to an existing order record, the record
    persisted under the order's id afterwards has the same [orderId], and
    every line item whose id is not among the event's [refund_line_items]
    has the same entry (side, quantity, revenue and remaining) as before;
    the records of other orders and the classification cache are untouched. *)
Theorem refund_frame env payload oid r st k :
  truthy_id (p_order_id payload) = Some oid ->
  orders st !! oid = Some r ->
  k ∉ map line_item_id (refund_line_items payload) ->
  let st' := fst (handleRefundCreate env payload st) in
  (exists r', orders st' !! oid = Some r' /\
              r_orderId r' = r_orderId r /\
              r_lineItems r' !! k = r_lineItems r !! k) /\
  (forall oid', oid' <> oid -> orders st' !! oid' = orders st !! oid') /\
  products st' = products st.
Proof.
  intros Hid Hr Hk st'. unfold st'.
  rewrite (handleRefundCreate_present env payload st oid r Hid Hr). cbv zeta.
  assert (Hsame : (exists r', orders st !! oid = Some r' /\
                              r_orderId r' = r_orderId r /\
                              r_lineItems r' !! k = r_lineItems r !! k) /\
                  (forall oid', oid' <> oid -> orders st !! oid' = orders st !! oid') /\
                  products st = products st).
  { split; [|now split]. exists r. now repeat split. }
  destruct (is_zero _ && is_zero _)%bool; [exact Hsame|].
  destruct (deltaSweet _) eqn:Es; [|exact Hsame].
  destruct (deltaSavoury _) eqn:Ev; [|exact Hsame].
  cbn [fst orders products]. split; [|split; [|reflexivity]].
  - eexists. split; [apply lookup_insert_eq|]. simpl. split; [reflexivity|].
    unfold refundLoop. now rewrite refund_fold_other.
  - intros oid' Hne. now rewrite lookup_insert_ne.
Qed.

Lemma Qeq_bool_false (x y : Q) : ~ (x == y)%Q -> Qeq_bool x y = false.
Proof.
  intros H. destruct (Qeq_bool x y) eqn:E; [|reflexivity].
  apply Qeq_bool_eq in E. contradiction.
Qed.

Lemma jsor_nonzero (x : Q) (b : num) : ~ (x == 0)%Q -> jsor (Num x) b = Num x.
Proof. intros H. unfold jsor. simpl. now rewrite Qeq_bool_false. Qed.

Lemma jsor_zero (x : Q) (b : num) : (x == 0)%Q -> jsor (Num x) b = b.
Proof. intros H. unfold jsor. simpl. now rewrite (Qeq_eq_bool _ _ H). Qed.

(** The refund amount on a line with a remaining amount that is not zero. *)
Lemma refundAmount_finite line q lq rev rem :
  quantity line = Num lq -> revenue line = Num rev -> remaining line = Num rem ->
  ~ (lq == 0)%Q -> ~ (rem == 0)%Q ->
  refundAmount line (Num q) = Num (Qmin rem (rev * Qmin (q / lq) 1)).
Proof.
  intros Hq Hrev Hrem Hlq Hr. unfold refundAmount, fraction.
  rewrite Hq, Hrev, Hrem, jsor_nonzero by exact Hr.
  simpl. now rewrite Qeq_bool_false.
Qed.

Lemma refundLine_finite line q lq rev rem :
  quantity line = Num lq -> revenue line = Num rev -> remaining line = Num rem ->
  ~ (lq == 0)%Q -> ~ (rem == 0)%Q ->
  remaining (refundLine line (Num q)) =
    Num (Qmax (rem - Qmin rem (rev * Qmin (q / lq) 1)) 0).
Proof.
  intros Hq Hrev Hrem Hlq Hr. unfold refundLine. simpl.
  rewrite (refundAmount_finite line q lq rev rem Hq Hrev Hrem Hlq Hr).
  rewrite Hrem, Hrev, jsor_nonzero by exact Hr. reflexivity.
Qed.








(** ** Requests without the id their handler needs *)

Lemma webhook_malformed env req st :
  method req = "POST" -> hmac_valid req = true -> body req = BodyMalformed ->
  webhook env req st = (400, st).
Proof. intros Hm Hs Hb. unfold webhook. now rewrite Hm, Hs, Hb. Qed.

Lemma handleOrderPaid_any_iterable env payload shop st :
  line_items_iterable payload = true ->
  handleOrderPaid_any env payload shop st = handleOrderPaid env payload shop st.
Proof. intros H. unfold handleOrderPaid_any. now rewrite H. Qed.

Lemma handleOrderPaid_any_broken env payload shop st :
  line_items_iterable payload = false ->
  handleOrderPaid_any env payload shop st =
    (st, match truthy_id (p_id payload) with
         | None => Ok tt
         | Some oid => match orders st !! oid with Some _ => Ok tt | None => Throw end
         end).
Proof.
  intros H. unfold handleOrderPaid_any. rewrite H.
  destruct (truthy_id (p_id payload)) as [oid|]; [|reflexivity].
  unfold bind, get_order, gets. now destruct (orders st !! oid).
Qed.

Lemma handleRefundCreate_any_complete env payload st :
  refund_loop_completes payload = true ->
  handleRefundCreate_any env payload st = handleRefundCreate env payload st.
Proof. intros H. unfold handleRefundCreate_any. now rewrite H. Qed.

Lemma handleRefundCreate_any_broken env payload st :
  refund_loop_completes payload = false ->
  handleRefundCreate_any env payload st =
    (st, match truthy_id (p_order_id payload) with
         | None => Ok tt
         | Some oid => match orders st !! oid with Some _ => Throw | None => Ok tt end
         end).
Proof.
  intros H. unfold handleRefundCreate_any. rewrite H.
  destruct (truthy_id (p_order_id payload)) as [oid|]; [|reflexivity].
  unfold bind, get_order, gets. now destruct (orders st !! oid).
Qed.

Lemma handleOrderPaid_any_store env payload shop st :
  handleOrderPaid_any env payload shop st = handleOrderPaid env payload shop st \/
  fst (handleOrderPaid_any env payload shop st) = st.
Proof.
  destruct (line_items_iterable payload) eqn:E.
  - left. now apply handleOrderPaid_any_iterable.
  - right. now rewrite handleOrderPaid_any_broken.
Qed.

Lemma handleRefundCreate_any_store env payload st :
  handleRefundCreate_any env payload st = handleRefundCreate env payload st \/
  fst (handleRefundCreate_any env payload st) = st.
Proof.
  destruct (refund_loop_completes payload) eqn:E.
  - left. now apply handleRefundCreate_any_complete.
  - right. now rewrite handleRefundCreate_any_broken.
Qed.

Lemma handleOrderPaid_any_no_id env payload shop st :
  truthy_id (p_id payload) = None ->
  handleOrderPaid_any env payload shop st = (st, Ok tt).
Proof.
  intros H. destruct (line_items_iterable payload) eqn:E.
  - rewrite handleOrderPaid_any_iterable by exact E. now apply handleOrderPaid_no_id.
  - rewrite handleOrderPaid_any_broken by exact E. now rewrite H.
Qed.

Lemma handleRefundCreate_any_no_id env payload st :
  truthy_id (p_order_id payload) = None ->
  handleRefundCreate_any env payload st = (st, Ok tt).
Proof.
  intros H. destruct (refund_loop_completes payload) eqn:E.
  - rewrite handleRefundCreate_any_complete by exact E.
    apply handleRefundCreate_absent. intros oid Ho. congruence.
  - rewrite handleRefundCreate_any_broken by exact E. now rewrite H.
Qed.

Lemma route_missing_id env req st :
  missing_required_id req = true -> route env req st = (st, Ok tt).
Proof.
  unfold missing_required_id, route.
  destruct (topic req) as [t|]; [|discriminate].
  destruct (body req) as [| |p]; try discriminate.
  destruct (String.eqb t "orders/paid") eqn:E1; simpl.
  - destruct (truthy_id (p_id p)) eqn:Hid; [discriminate|]. intros _.
    now apply handleOrderPaid_any_no_id.
  - destruct (String.eqb t "orders/cancelled") eqn:E2.
    + destruct (truthy_id (p_id p)) eqn:Hid; [discriminate|]. intros _.
      apply handleOrderCancelled_absent. intros oid Ho. congruence.
    + destruct (String.eqb t "refunds/create") eqn:E3; [|discriminate].
      destruct (truthy_id (p_order_id p)) eqn:Hid; [discriminate|]. intros _.
      now apply handleRefundCreate_any_no_id.
Qed.

Lemma route_unknown_topic env req st :
  known_topic req = false -> route env req st = (st, Ok tt).
Proof.
  unfold known_topic, route. destruct (topic req) as [t|]; [|reflexivity].
  destruct (String.eqb t "orders/paid"); [discriminate|].
  destruct (String.eqb t "orders/cancelled"); [discriminate|].
  destruct (String.eqb t "refunds/create"); [discriminate|]. reflexivity.
Qed.

Lemma route_null_body env req st :
  known_topic req = true -> body req = BodyNull -> route env req st = (st, Throw).
Proof.
  unfold known_topic, route. intros Hk Hb. rewrite Hb.
  destruct (topic req) as [t|]; [|discriminate].
  destruct (String.eqb t "orders/paid"); [reflexivity|].
  destruct (String.eqb t "orders/cancelled"); [reflexivity|].
  destruct (String.eqb t "refunds/create"); [reflexivity | discriminate].
Qed.

(** C4, as stated, fails: a signed paid event without [id] is answered with
    200, which is not a client error. *)
Lemma paid_without_id_not_rejected :
  missing_required_id paid_without_id = true /\
  webhook sample_env paid_without_id paid_store = (200, paid_store) /\
  ~ client_error (fst (webhook sample_env paid_without_id paid_store)).
Proof.
  split; [reflexivity|].
  assert (E : webhook sample_env paid_without_id paid_store = (200, paid_store))
    by reflexivity.
  split; [exact E|].
  rewrite E. unfold client_error. simpl. lia.
Qed.

(** C4, amended. For a signed POST request: a body that is not valid JSON
    is answered with the client error 400 and the store is left as it was;
    a body that parses to [null] is answered with 500 on the three
    dispatched topics and with 200 on any other topic, never with a client
    error, and the store is left as it was; a body that parses to any
    other value and lacks the id its topic's handler needs ([id] for paid
    and cancelled events, [order_id] for refund events) is answered with
    200 and the store is left as it was. *)
Theorem invalid_request_no_mutation env req st :
  method req = "POST" -> hmac_valid req = true ->
  (body req = BodyMalformed ->
     webhook env req st = (400, st) /\ client_error (fst (webhook env req st))) /\
  (missing_required_id req = true -> webhook env req st = (200, st)) /\
  (body req = BodyNull ->
     webhook env req st = (if known_topic req then 500 else 200, st) /\
     ~ client_error (fst (webhook env req st))) /\
  (forall p, body req = BodyObject p ->
     topic req = Some "orders/paid" \/ topic req = Some "orders/cancelled" ->
     truthy_id (p_id p) = None -> webhook env req st = (200, st)) /\
  (forall p, body req = BodyObject p -> topic req = Some "refunds/create" ->
     truthy_id (p_order_id p) = None -> webhook env req st = (200, st)).
Proof.
  intros Hm Hs.
  assert (Hmissing : missing_required_id req = true -> webhook env req st = (200, st)).
  { intros Hmiss. unfold webhook. rewrite Hm, Hs. simpl.
    rewrite (route_missing_id env req st Hmiss).
    unfold missing_required_id in Hmiss.
    destruct (topic req); [|discriminate].
    destruct (body req); try discriminate. reflexivity. }
  split; [|split; [exact Hmissing|split; [|split]]].
  - intros Hb. rewrite (webhook_malformed env req st Hm Hs Hb).
    split; [reflexivity | unfold client_error; simpl; lia].
  - intros Hb.
    assert (E : webhook env req st = (if known_topic req then 500 else 200, st)).
    { unfold webhook. rewrite Hm, Hs, Hb. simpl.
      destruct (known_topic req) eqn:Hk.
      - now rewrite (route_null_body env req st Hk Hb).
      - now rewrite (route_unknown_topic env req st Hk). }
    split; [exact E|]. rewrite E. unfold client_error.
    destruct (known_topic req); simpl; lia.
  - intros p Hb Ht Hid. apply Hmissing. unfold missing_required_id.
    rewrite Hb. destruct Ht as [-> | ->]; simpl; now rewrite Hid.
  - intros p Hb Ht Hid. apply Hmissing. unfold missing_required_id.
    rewrite Hb, Ht. simpl. now rewrite Hid.
Qed.

(** ** Proration bounds *)

(** The floor of line 247: the remaining amount is never below zero. *)
Lemma refund_remaining_not_negative line qty :
  nlt (remaining (refundLine line qty)) zero = false.
Proof. apply nmax_zero_not_negative. Qed.

Lemma Qdiv_pos_pos (q lq : Q) : (0 < q)%Q -> (0 < lq)%Q -> (0 < q / lq)%Q.
Proof.
  intros Hq Hl. unfold Qdiv.
  assert (Hinv : (0 < / lq)%Q) by now apply Qinv_lt_0_compat.
  assert (H : (0 * / lq < q * / lq)%Q) by (apply Qmult_lt_compat_r; assumption).
  lra.
Qed.

Lemma fraction_positive (q lq : Q) :
  (0 < q)%Q -> (0 < lq)%Q -> (0 < Qmin (q / lq) 1 <= 1)%Q.
Proof.
  intros Hq Hl. pose proof (Qdiv_pos_pos q lq Hq Hl).
  destruct (Q.min_spec (q / lq) 1) as [[L E]|[L E]]; rewrite E; lra.
Qed.

(** As long as the remaining amount of a line is positive, a refund of a
    positive quantity takes between nothing and what remains. *)
Lemma refund_within_remaining line q lq rev rem :
  quantity line = Num lq -> revenue line = Num rev -> remaining line = Num rem ->
  (0 < q)%Q -> (0 < lq)%Q -> (0 < rem)%Q -> (rem <= rev)%Q ->
  exists amt rem' : Q,
    refundAmount line (Num q) = Num amt /\
    remaining (refundLine line (Num q)) = Num rem' /\
    (0 < amt <= rem)%Q /\ (rem' == rem - amt)%Q /\ (0 <= rem' < rem)%Q.
Proof.
  intros Hq Hrev Hrem Hqp Hlq Hremp Hle.
  assert (Hlq0 : ~ (lq == 0)%Q) by lra.
  assert (Hrem0 : ~ (rem == 0)%Q) by lra.
  rewrite (refundAmount_finite line q lq rev rem Hq Hrev Hrem Hlq0 Hrem0).
  rewrite (refundLine_finite line q lq rev rem Hq Hrev Hrem Hlq0 Hrem0).
  pose proof (fraction_positive q lq Hqp Hlq) as [Hf0 Hf1].
  set (f := Qmin (q / lq) 1) in *.
  assert (Hm : (0 < rev * f)%Q).
  { assert (H : (0 * f < rev * f)%Q) by (apply Qmult_lt_compat_r; lra). lra. }
  set (amt := Qmin rem (rev * f)).
  assert (Hamt : (0 < amt <= rem)%Q).
  { unfold amt. destruct (Q.min_spec rem (rev * f)) as [[L E]|[L E]]; rewrite E; lra. }
  exists amt, (Qmax (rem - amt) 0).
  repeat split; try reflexivity; try lra;
    destruct (Q.max_spec (rem - amt) 0) as [[L E]|[L E]]; rewrite E; lra.
Qed.

(** Once the remaining amount of a line is zero, [line.remaining ||
    line.revenue] reads the full revenue again: a further refund of a
    positive quantity takes a positive amount. *)
Lemma refund_of_exhausted_line line q lq rev rem :
  quantity line = Num lq -> revenue line = Num rev -> remaining line = Num rem ->
  (0 < q)%Q -> (0 < lq)%Q -> (rem == 0)%Q -> (0 < rev)%Q ->
  exists amt : Q, refundAmount line (Num q) = Num amt /\ (0 < amt)%Q.
Proof.
  intros Hq Hrev Hrem Hqp Hlq Hz Hrevp.
  unfold refundAmount, fraction. rewrite Hq, Hrev, Hrem, jsor_zero by exact Hz.
  simpl. rewrite Qeq_bool_false by lra.
  eexists. split; [reflexivity|].
  pose proof (fraction_positive q lq Hqp Hlq) as [Hf0 Hf1].
  set (f := Qmin (q / lq) 1) in *.
  assert (H : (0 * f < rev * f)%Q) by (apply Qmult_lt_compat_r; lra).
  destruct (Q.min_spec rev (rev * f)) as [[L E]|[L E]]; rewrite E; lra.
Qed.

(** C1, at the failing input. Order 1001 has one line of revenue 20.  A
    refund of both units leaves [remaining = 0]; the refund amount the code
    computes for that exhausted line is again 20, not 0; after the same
    refund event is processed once more the amount refunded on the line is
    40, twice its revenue; and a refund of one unit instead raises
    [remaining] from 0 back to 10. *)
Theorem refund_of_refunded_line_exceeds_revenue :
  let st1 := paid_store in
  let st2 := deliver sample_env [sample_refund 2] st1 in
  let st3 := deliver sample_env [sample_refund 2] st2 in
  let st3' := deliver sample_env [sample_refund 1] st2 in
  stored_line 1001 1 st1 = Some (mkLine Sweet (Num 2) (Num 20) (Num 20)) /\
  stored_line 1001 1 st2 = Some (mkLine Sweet (Num 2) (Num 20) (Num 0)) /\
  refundAmount (mkLine Sweet (Num 2) (Num 20) (Num 0)) (Num 2) = Num 20 /\
  num_eq (refunded_between Sweet st1 st2) (Num 20) /\
  num_eq (refunded_between Sweet st1 st3) (Num 40) /\
  nlt (Num 20) (refunded_between Sweet st1 st3) = true /\
  (exists line, stored_line 1001 1 st3' = Some line /\
                num_eq (remaining line) (Num 10) /\
                nlt zero (remaining line) = true).
Proof.
  cbv zeta.
  split; [vm_compute; reflexivity|].
  split; [vm_compute; reflexivity|].
  split; [vm_compute; reflexivity|].
  split; [vm_compute; reflexivity|].
  split; [vm_compute; reflexivity|].
  split; [vm_compute; reflexivity|].
  eexists. split; [vm_compute; reflexivity|].
  split; vm_compute; reflexivity.
Qed.

(** ** Conservation *)

(** C3, at the failing input. From the empty store, order 1001 (one sweet
    line of revenue 20) is paid and the refund of both its units is then
    processed twice: the sweet total of the aggregate is -20 while the only
    order record stores a sweet total of 0, so the aggregate differs from
    the sum over the records by 20. *)
Theorem conservation_broken_by_repeated_refund :
  let st := deliver sample_env [sample_paid; sample_refund 2; sample_refund 2] empty_kv in
  num_eq (aggregate Sweet st) (Num (-20)) /\
  num_eq (ledger_sum Sweet st) zero /\
  (exists r, orders st = {[ 1001 := r ]} /\ r_sweet r = Num 0) /\
  ~ num_eq (aggregate Sweet st) (ledger_sum Sweet st).
Proof.
  cbv zeta.
  split; [vm_compute; reflexivity|].
  split; [vm_compute; reflexivity|].
  split.
  - eexists. split; [vm_compute; reflexivity | reflexivity].
  - vm_compute. discriminate.
Qed.

(** ** Where conservation holds *)

Lemma Qplus_swap (a b c : Q) : (a + (b + c))%Q = (b + (a + c))%Q.
Proof.
  destruct a as [an ad], b as [bn bd], c as [cn cd]. unfold Qplus. simpl.
  f_equal.
  - rewrite !Pos2Z.inj_mul. ring.
  - lia.
Qed.

Lemma nadd_swap (a b c : num) : nadd a (nadd b c) = nadd b (nadd a c).
Proof.
  destruct a, b, c; simpl; try reflexivity. now rewrite Qplus_swap.
Qed.

Lemma num_eq_sym (a b : num) : num_eq a b -> num_eq b a.
Proof. destruct a, b; simpl; auto. intros H. now symmetry. Qed.

Lemma num_eq_trans (a b c : num) : num_eq a b -> num_eq b c -> num_eq a c.
Proof.
  destruct a, b, c; simpl; auto; try contradiction.
  intros H1 H2. now rewrite H1.
Qed.

Lemma ledger_sum_insert s st oid r :
  orders st !! oid = None ->
  ledger_sum s (set_orders (insert oid r) st) = nadd (record_total s r) (ledger_sum s st).
Proof.
  intros H. unfold ledger_sum. simpl.
  apply (map_fold_insert_L (fun _ r acc => nadd (record_total s r) acc));
    [|exact H].
  intros. apply nadd_swap.
Qed.

Lemma ledger_sum_delete s st oid r :
  orders st !! oid = Some r ->
  ledger_sum s st = nadd (record_total s r) (ledger_sum s (set_orders (delete oid) st)).
Proof.
  intros H. unfold ledger_sum. simpl.
  apply (map_fold_delete_L (fun _ r acc => nadd (record_total s r) acc));
    [|exact H].
  intros. apply nadd_swap.
Qed.

Lemma ledger_sum_replace s st oid r r' :
  orders st !! oid = Some r ->
  ledger_sum s (set_orders (insert oid r') st) =
    nadd (record_total s r') (ledger_sum s (set_orders (delete oid) st)).
Proof.
  intros H. unfold ledger_sum. simpl.
  rewrite <- (insert_delete_eq (orders st)).
  apply (map_fold_insert_L (fun _ r acc => nadd (record_total s r) acc)).
  - intros. apply nadd_swap.
  - apply lookup_delete_eq.
Qed.

Lemma ledger_sum_orders s st st' :
  orders st' = orders st -> ledger_sum s st' = ledger_sum s st.
Proof. intros H. unfold ledger_sum. now rewrite H. Qed.

Lemma conserved_empty : conserved empty_kv.
Proof. intros s. destruct s; reflexivity. Qed.

Lemma stored_total_updated s o p tot dS dV t :
  stored_total s
    (mkKV o p (mkTotals (hincrbyfloat (t_sweet tot) dS)
                        (hincrbyfloat (t_savoury tot) dV) (Some t))) =
  nadd (default zero (totals_field s tot))
       (match s with Sweet => dS | Savoury => dV end).
Proof. destruct s; reflexivity. Qed.

Lemma paid_arith (a b c : num) : num_eq a b -> num_eq (nadd a c) (nadd c b).
Proof.
  destruct a, b, c; simpl; intros H; try exact I; try contradiction. lra.
Qed.

Lemma jsor_finite (x : Q) : exists j, jsor (Num x) zero = Num j /\ (j == x)%Q.
Proof.
  unfold jsor. destruct (truthy (Num x)) eqn:E.
  - exists x. split; reflexivity.
  - exists 0%Q. split; [reflexivity|].
    apply negb_false_iff, Qeq_bool_eq in E. now symmetry.
Qed.

Lemma cancel_arith (t l : num) (x : Q) :
  num_eq t (nadd (Num x) l) -> num_eq (nadd t (nneg (jsor (Num x) zero))) l.
Proof.
  destruct (jsor_finite x) as (j & -> & Hj).
  destruct t, l; simpl; intros H; try exact I; try contradiction. lra.
Qed.

Lemma refund_arith (t l : num) (x dx : Q) :
  (0 <= x + dx)%Q ->
  num_eq t (nadd (Num x) l) ->
  num_eq (nadd t (Num dx)) (nadd (nmax (nadd (jsor (Num x) zero) (Num dx)) zero) l).
Proof.
  intros H0. destruct (jsor_finite x) as (j & -> & Hj).
  destruct t, l; simpl; intros H; try exact I; try contradiction.
  destruct (Q.max_spec (j + dx) 0) as [[L E]|[L E]]; rewrite E; lra.
Qed.

(** A paid event keeps the stored totals equal to the ledger sums. *)
Lemma handleOrderPaid_conserves env payload shop st :
  conserved st -> conserved (fst (handleOrderPaid env payload shop st)).
Proof.
  intros Hc.
  destruct (truthy_id (p_id payload)) as [oid|] eqn:Hid;
    [|now rewrite (handleOrderPaid_no_id env payload shop st Hid)].
  destruct (orders st !! oid) as [r|] eqn:Hr;
    [now rewrite (handleOrderPaid_gate env payload shop st oid r Hid Hr)|].
  rewrite (handleOrderPaid_fresh env payload shop st oid Hid Hr).
  pose proof (buildOrderContribution_store env shop (line_items payload) st)
    as (Ho & Ht & _).
  destruct (buildOrderContribution env (line_items payload) shop st) as [stb res].
  simpl in Ho, Ht.
  assert (Hstb : conserved stb).
  { intros s. unfold stored_total. rewrite Ht, (ledger_sum_orders s st stb Ho).
    apply Hc. }
  destruct res as [c|]; [|exact Hstb].
  destruct (is_zero (c_sweet c) && is_zero (c_savoury c))%bool; [exact Hstb|].
  destruct (c_sweet c) as [cs|] eqn:Ecs; [|exact Hstb].
  destruct (c_savoury c) as [cv|] eqn:Ecv; [|exact Hstb].
  intros s. cbn [fst]. rewrite stored_total_updated.
  assert (Hfresh : orders stb !! oid = None) by now rewrite Ho.
  pose proof (ledger_sum_insert s stb oid
                (mkOrder oid (Num cs) (Num cv) (c_lineItems c)) Hfresh) as Hl.
  unfold ledger_sum in Hl |- *. cbn [orders set_orders] in Hl |- *. rewrite Hl.
  specialize (Hstb s). unfold stored_total, ledger_sum in Hstb.
  destruct s; cbn [record_total r_sweet r_savoury]; now apply paid_arith.
Qed.

(** A cancellation keeps them equal when the totals stored on the
    cancelled record are numbers. *)
Lemma handleOrderCancelled_conserves env payload st :
  conserved st ->
  (forall oid r, truthy_id (p_id payload) = Some oid -> orders st !! oid = Some r ->
     finite (r_sweet r) /\ finite (r_savoury r)) ->
  conserved (fst (handleOrderCancelled env payload st)).
Proof.
  intros Hc Hfin.
  destruct (truthy_id (p_id payload)) as [oid|] eqn:Hid.
  2:{ rewrite handleOrderCancelled_absent; [exact Hc | congruence]. }
  destruct (orders st !! oid) as [r|] eqn:Hr.
  2:{ rewrite handleOrderCancelled_absent; [exact Hc | congruence]. }
  rewrite (handleOrderCancelled_present env payload st oid r Hid Hr).
  destruct (Hfin oid r eq_refl Hr) as [[x Hx] [y Hy]].
  intros s. specialize (Hc s). rewrite (ledger_sum_delete s st oid r Hr) in Hc.
  cbn [fst]. rewrite stored_total_updated.
  unfold stored_total, ledger_sum in Hc |- *. cbn [orders set_orders] in Hc |- *.
  destruct s; cbn [record_total] in Hc; rewrite ?Hx, ?Hy in *;
    now apply cancel_arith.
Qed.

(** A refund event keeps them equal when neither floor of lines 252-253
    comes into play: the stored totals and the deltas are numbers and each
    stored total plus its delta is not negative. *)
Lemma handleRefundCreate_conserves env payload st :
  conserved st ->
  (forall oid r, truthy_id (p_order_id payload) = Some oid -> orders st !! oid = Some r ->
     let acc := refundLoop r (refund_line_items payload) in
     exists x y dx dy,
       r_sweet r = Num x /\ r_savoury r = Num y /\
       deltaSweet acc = Num dx /\ deltaSavoury acc = Num dy /\
       (0 <= x + dx)%Q /\ (0 <= y + dy)%Q) ->
  conserved (fst (handleRefundCreate env payload st)).
Proof.
  intros Hc Hfloor.
  destruct (truthy_id (p_order_id payload)) as [oid|] eqn:Hid.
  2:{ rewrite handleRefundCreate_absent; [exact Hc | congruence]. }
  destruct (orders st !! oid) as [r|] eqn:Hr.
  2:{ rewrite handleRefundCreate_absent; [exact Hc | congruence]. }
  rewrite (handleRefundCreate_present env payload st oid r Hid Hr).
  destruct (Hfloor oid r eq_refl Hr)
    as (x & y & dx & dy & Hx & Hy & Hdx & Hdy & H0x & H0y).
  cbv zeta in Hdx, Hdy |- *. rewrite Hdx, Hdy.
  destruct (is_zero _ && is_zero _)%bool; [exact Hc|].
  intros s. specialize (Hc s). rewrite (ledger_sum_delete s st oid r Hr) in Hc.
  cbn [fst]. rewrite stored_total_updated.
  match goal with
  | |- context [ledger_sum s (mkKV (<[oid := ?r']> (orders st)) ?p ?t)] =>
      pose proof (ledger_sum_replace s st oid r r' Hr) as Hl
  end.
  unfold stored_total, ledger_sum in Hc, Hl |- *.
  cbn [orders set_orders] in Hc, Hl |- *. rewrite Hl.
  rewrite Hx, Hy.
  destruct s; cbn [record_total r_sweet r_savoury] in Hc |- *; rewrite ?Hx, ?Hy in Hc;
    now apply refund_arith.
Qed.

(** ** The ledger invariant away from exhausted lines *)

Lemma rem_sum_empty s : rem_sum s ∅ = 0%Q.
Proof. apply map_fold_empty. Qed.

Lemma rem_sum_insert s lines k l :
  lines !! k = None ->
  rem_sum s (<[k := l]> lines) = (side_rem s l + rem_sum s lines)%Q.
Proof.
  intros H. unfold rem_sum.
  apply (map_fold_insert_L (fun _ l acc => (side_rem s l + acc)%Q)); [|exact H].
  intros. apply Qplus_swap.
Qed.

Lemma rem_sum_delete s lines k l :
  lines !! k = Some l ->
  rem_sum s lines = (side_rem s l + rem_sum s (delete k lines))%Q.
Proof.
  intros H. unfold rem_sum.
  apply (map_fold_delete_L (fun _ l acc => (side_rem s l + acc)%Q)); [|exact H].
  intros. apply Qplus_swap.
Qed.

Lemma rem_sum_replace s lines k l' :
  rem_sum s (<[k := l']> lines) = (side_rem s l' + rem_sum s (delete k lines))%Q.
Proof.
  rewrite <- (insert_delete_eq lines). apply rem_sum_insert, lookup_delete_eq.
Qed.

Lemma side_rem_nonneg s l : line_ok l -> (0 <= side_rem s l)%Q.
Proof.
  intros (lq & rev & rem & _ & _ & Hrem & _ & Hb).
  unfold side_rem, rem_q. rewrite Hrem.
  destruct (decide (side l = s)); lra.
Qed.

Lemma lines_ok_insert lines k l :
  lines_ok lines -> line_ok l -> lines_ok (<[k := l]> lines).
Proof.
  intros H Hl k' l' Hk'.
  destruct (decide (k = k')) as [->|Hne].
  - rewrite lookup_insert_eq in Hk'. now inversion Hk'; subst.
  - rewrite lookup_insert_ne in Hk' by exact Hne. eauto.
Qed.

Lemma lines_ok_delete lines k : lines_ok lines -> lines_ok (delete k lines).
Proof.
  intros H k' l' Hk'.
  destruct (decide (k = k')) as [->|Hne].
  - now rewrite lookup_delete_eq in Hk'.
  - rewrite lookup_delete_ne in Hk' by exact Hne. eauto.
Qed.

Lemma rem_sum_nonneg s lines : lines_ok lines -> (0 <= rem_sum s lines)%Q.
Proof.
  induction lines as [|k l lines Hfresh IH] using map_ind; intros Hok.
  - rewrite rem_sum_empty. lra.
  - rewrite (rem_sum_insert s lines k l Hfresh).
    assert (Hl : line_ok l) by (apply (Hok k); apply lookup_insert_eq).
    assert (Hrest : lines_ok lines).
    { intros k' l' Hk'. apply (Hok k').
      rewrite lookup_insert_ne; [exact Hk'|]. congruence. }
    pose proof (side_rem_nonneg s l Hl). specialize (IH Hrest). lra.
Qed.

(** Writing an entry adds at most what the entry carries. *)
Lemma rem_sum_insert_le s lines k l :
  lines_ok lines ->
  (rem_sum s (<[k := l]> lines) <= side_rem s l + rem_sum s lines)%Q.
Proof.
  intros Hok. rewrite rem_sum_replace.
  destruct (lines !! k) as [old|] eqn:E.
  - rewrite (rem_sum_delete s lines k old E).
    pose proof (side_rem_nonneg s old (Hok k old E)). lra.
  - rewrite delete_id by exact E. lra.
Qed.

Lemma lineTotal_finite item :
  finite (li_quantity item) -> exists t, lineTotal item = Num t /\ (0 <= t)%Q.
Proof.
  intros [q Hq].
  destruct (lineTotal_cases item) as [En|H]; [|exact H].
  unfold lineTotal in En. rewrite Hq in En. discriminate.
Qed.

Lemma empty_contribution_ok : contribution_ok empty_contribution.
Proof.
  exists 0%Q, 0%Q. simpl. repeat split.
  - intros k l Hk. now rewrite lookup_empty in Hk.
  - rewrite rem_sum_empty. lra.
  - rewrite rem_sum_empty. lra.
Qed.

Lemma record_line_ok s item c :
  contribution_ok c -> finite (li_quantity item) ->
  nle (li_quantity item) zero = false ->
  contribution_ok (record_line s item c).
Proof.
  intros (x & y & Hx & Hy & Hok & Hsx & Hsy) Hfin Hq.
  destruct (lineTotal_finite item Hfin) as (t & Et & Ht).
  destruct Hfin as [q Eq].
  assert (Hqpos : (0 < q)%Q).
  { rewrite Eq in Hq. simpl in Hq.
    destruct (Qlt_le_dec 0 q) as [L|L]; [exact L|].
    apply Qle_bool_iff in L. congruence. }
  assert (Hentry : line_ok (entry_for s item)).
  { exists q, t, t. unfold entry_for. simpl. rewrite Et, Eq.
    repeat split; try reflexivity; lra. }
  assert (Hsr : forall s', side_rem s' (entry_for s item) =
                          if decide (s = s') then t else 0%Q).
  { intros s'. unfold side_rem, rem_q, entry_for. simpl. now rewrite Et. }
  pose proof (rem_sum_insert_le Sweet (c_lineItems c) (li_id item)
                (entry_for s item) Hok) as Ls.
  pose proof (rem_sum_insert_le Savoury (c_lineItems c) (li_id item)
                (entry_for s item) Hok) as Lv.
  rewrite Hsr in Ls, Lv.
  destruct s.
  - exists (x + t)%Q, y.
    rewrite record_line_sweet, record_line_savoury, record_line_lines.
    destruct (decide (Sweet = Sweet)); [|congruence].
    destruct (decide (Sweet = Savoury)); [discriminate|].
    split; [now rewrite Hx, Et|]. split; [exact Hy|].
    split; [now apply lines_ok_insert|].
    split; lra.
  - exists x, (y + t)%Q.
    rewrite record_line_sweet, record_line_savoury, record_line_lines.
    destruct (decide (Savoury = Savoury)); [|congruence].
    destruct (decide (Savoury = Sweet)); [discriminate|].
    split; [exact Hx|]. split; [now rewrite Hy, Et|].
    split; [now apply lines_ok_insert|].
    split; lra.
Qed.

Lemma collect_ok v items :
  (forall item, item ∈ items -> finite (li_quantity item)) ->
  (forall item s, v item = Ok (Some s) -> nle (li_quantity item) zero = false) ->
  forall c0 c, contribution_ok c0 -> collect v items c0 = Ok c -> contribution_ok c.
Proof.
  intros Hfin Hv. induction items as [|item rest IH]; intros c0 c H0 Hc; simpl in Hc.
  - now inversion Hc; subst.
  - assert (Hrest : forall i, i ∈ rest -> finite (li_quantity i))
      by (intros i Hi; apply Hfin; now apply list_elem_of_further).
    destruct (v item) as [[s|]|] eqn:V; [| now apply (IH Hrest c0) | discriminate].
    apply (IH Hrest (record_line s item c0)); [|exact Hc].
    apply record_line_ok; [exact H0 | apply Hfin, list_elem_of_here | now apply (Hv item s)].
Qed.

Lemma refundLine_side line qty : side (refundLine line qty) = side line.
Proof. reflexivity. Qed.

Lemma refundStep_ok x y acc ri :
  acc_ok x y acc -> clean_item (a_lines acc) ri = true ->
  acc_ok x y (refundStep acc ri).
Proof.
  intros (ds & dv & Hds & Hdv & Hok & Hs & Hv) Hclean.
  unfold clean_item in Hclean. unfold refundStep.
  destruct (a_lines acc !! line_item_id ri) as [l|] eqn:El;
    [|now exists ds, dv].
  destruct (Hok _ _ El) as (lq & rev & rem & Hq & Hrev & Hrem & Hlq & Hb).
  destruct (rf_quantity ri) as [q|]; [|now exists ds, dv].
  simpl. destruct (Qeq_bool q 0) eqn:Eq0; simpl; [now exists ds, dv|].
  simpl in Hclean. apply andb_true_iff in Hclean as [Hqpos Hrem0].
  apply negb_true_iff in Hqpos.
  assert (Hqp : (0 < q)%Q).
  { destruct (Qlt_le_dec 0 q) as [L|L]; [exact L|].
    apply Qle_bool_iff in L. congruence. }
  rewrite Hrem in Hrem0. apply truthy_Num in Hrem0.
  assert (Hremp : (0 < rem)%Q).
  { destruct Hb as [Hb0 _]. apply Qle_lt_or_eq in Hb0 as [L|E]; [exact L|].
    exfalso. apply Hrem0. now symmetry. }
  rewrite Hq. simpl. rewrite (Qeq_bool_false lq 0) by lra. simpl.
  destruct (refund_within_remaining l q lq rev rem Hq Hrev Hrem Hqp Hlq Hremp
              (proj2 Hb)) as (amt & rem' & Ha & Hl' & Hamt & Hrem' & Hb').
  assert (Hline' : line_ok (refundLine l (Num q))).
  { exists lq, rev, rem'. simpl. repeat split; try assumption; lra. }
  assert (Hsr : forall s, side_rem s (refundLine l (Num q)) =
                          if decide (side l = s) then rem' else 0%Q).
  { intros s. unfold side_rem, rem_q. rewrite Hl'. reflexivity. }
  assert (Hsr0 : forall s, side_rem s l = if decide (side l = s) then rem else 0%Q).
  { intros s. unfold side_rem, rem_q. now rewrite Hrem. }
  pose proof (rem_sum_replace Sweet (a_lines acc) (line_item_id ri)
                (refundLine l (Num q))) as Rs.
  pose proof (rem_sum_replace Savoury (a_lines acc) (line_item_id ri)
                (refundLine l (Num q))) as Rv.
  pose proof (rem_sum_delete Sweet (a_lines acc) (line_item_id ri) l El) as Ds.
  pose proof (rem_sum_delete Savoury (a_lines acc) (line_item_id ri) l El) as Dv.
  rewrite Hsr in Rs, Rv. rewrite Hsr0 in Ds, Dv.
  rewrite Ds in Hs. rewrite Dv in Hv.
  rewrite Ha.
  destruct (side l) eqn:Es.
  - exists (ds - amt)%Q, dv. cbn [deltaSweet deltaSavoury a_lines].
    rewrite Hds. split; [reflexivity|]. split; [exact Hdv|].
    split; [now apply lines_ok_insert|].
    rewrite Rs, Rv.
    destruct (decide (Sweet = Sweet)); [|congruence].
    destruct (decide (Sweet = Savoury)); [discriminate|].
    split; lra.
  - exists ds, (dv - amt)%Q. cbn [deltaSweet deltaSavoury a_lines].
    rewrite Hdv. split; [exact Hds|]. split; [reflexivity|].
    split; [now apply lines_ok_insert|].
    rewrite Rs, Rv.
    destruct (decide (Savoury = Savoury)); [|congruence].
    destruct (decide (Savoury = Sweet)); [discriminate|].
    split; lra.
Qed.

Lemma refund_fold_ok x y items : forall acc,
  acc_ok x y acc -> clean_refund acc items = true ->
  acc_ok x y (fold_left refundStep items acc).
Proof.
  induction items as [|ri rest IH]; intros acc Hacc Hclean; simpl in *.
  - exact Hacc.
  - apply andb_true_iff in Hclean as [H1 H2].
    apply IH; [now apply refundStep_ok | exact H2].
Qed.

Lemma ledger_ok_empty : ledger_ok empty_kv.
Proof.
  split; [apply conserved_empty|].
  intros oid r H. simpl in H. now rewrite lookup_empty in H.
Qed.

Lemma handleOrderPaid_ledger_ok env payload shop st :
  ledger_ok st ->
  (forall item, item ∈ line_items payload -> finite (li_quantity item)) ->
  ledger_ok (fst (handleOrderPaid env payload shop st)).
Proof.
  intros [Hc Hrec] Hfin.
  split; [now apply handleOrderPaid_conserves|].
  destruct (truthy_id (p_id payload)) as [oid|] eqn:Hid;
    [|now rewrite (handleOrderPaid_no_id env payload shop st Hid)].
  destruct (orders st !! oid) as [r|] eqn:Hr;
    [now rewrite (handleOrderPaid_gate env payload shop st oid r Hid Hr)|].
  rewrite (handleOrderPaid_fresh env payload shop st oid Hid Hr).
  pose proof (buildOrderContribution_store env shop (line_items payload) st)
    as (Ho & _ & _).
  pose proof (buildOrderContribution_eq env shop (line_items payload) st) as Hres.
  destruct (buildOrderContribution env (line_items payload) shop st) as [stb res].
  simpl in Ho, Hres.
  assert (Hstb : forall o r, orders stb !! o = Some r -> record_ok r)
    by (intros o r; rewrite Ho; apply Hrec).
  destruct res as [c|]; [|exact Hstb].
  destruct (is_zero (c_sweet c) && is_zero (c_savoury c))%bool; [exact Hstb|].
  assert (Hcok : contribution_ok c).
  { apply (collect_ok (kept env shop st) (line_items payload) Hfin) with
      (c0 := empty_contribution); [|apply empty_contribution_ok|now symmetry].
    intros item s Hv. now apply kept_counted in Hv. }
  destruct (collect_number _ _ _ Hfin (eq_sym Hres)) as [[cs Hcs] [cv Hcv]].
  rewrite Hcs, Hcv. rewrite <- Hcs, <- Hcv.
  intros o r'. simpl.
  destruct (decide (oid = o)) as [<-|Hne].
  - rewrite lookup_insert_eq. intros H. inversion H; subst. exact Hcok.
  - rewrite lookup_insert_ne by exact Hne. apply Hstb.
Qed.

Lemma handleOrderCancelled_ledger_ok env payload st :
  ledger_ok st -> ledger_ok (fst (handleOrderCancelled env payload st)).
Proof.
  intros [Hc Hrec]. split.
  - apply handleOrderCancelled_conserves; [exact Hc|].
    intros oid r _ Hr. destruct (Hrec oid r Hr) as (x & y & Hx & Hy & _).
    split; [now exists x | now exists y].
  - destruct (truthy_id (p_id payload)) as [oid|] eqn:Hid.
    2:{ rewrite handleOrderCancelled_absent; [exact Hrec | congruence]. }
    destruct (orders st !! oid) as [r|] eqn:Hr.
    2:{ rewrite handleOrderCancelled_absent; [exact Hrec | congruence]. }
    rewrite (handleOrderCancelled_present env payload st oid r Hid Hr). simpl.
    intros o r' H. destruct (decide (oid = o)) as [<-|Hne].
    + now rewrite lookup_delete_eq in H.
    + rewrite lookup_delete_ne in H by exact Hne. eauto.
Qed.

Lemma refundLoop_ok r items x y :
  r_sweet r = Num x -> r_savoury r = Num y ->
  lines_ok (r_lineItems r) ->
  (rem_sum Sweet (r_lineItems r) <= x)%Q ->
  (rem_sum Savoury (r_lineItems r) <= y)%Q ->
  clean_refund (mkAcc (r_lineItems r) zero zero) items = true ->
  exists ds dv,
    deltaSweet (refundLoop r items) = Num ds /\
    deltaSavoury (refundLoop r items) = Num dv /\
    lines_ok (a_lines (refundLoop r items)) /\
    (0 <= rem_sum Sweet (a_lines (refundLoop r items)) <= x + ds)%Q /\
    (0 <= rem_sum Savoury (a_lines (refundLoop r items)) <= y + dv)%Q.
Proof.
  intros Hx Hy Hok Hs Hv Hclean.
  assert (H0 : acc_ok x y (mkAcc (r_lineItems r) zero zero)).
  { exists 0%Q, 0%Q. simpl. repeat split; try assumption; lra. }
  destruct (refund_fold_ok x y items _ H0 Hclean) as (ds & dv & Hds & Hdv & Hl & Ls & Lv).
  exists ds, dv. fold (refundLoop r items) in *.
  pose proof (rem_sum_nonneg Sweet _ Hl). pose proof (rem_sum_nonneg Savoury _ Hl).
  repeat split; assumption.
Qed.

Lemma floored_total (x d : Q) :
  (0 <= x + d)%Q ->
  exists x', nmax (nadd (jsor (Num x) zero) (Num d)) zero = Num x' /\ (x' == x + d)%Q.
Proof.
  intros H. destruct (jsor_finite x) as (j & -> & Hj). simpl.
  eexists. split; [reflexivity|].
  destruct (Q.max_spec (j + d) 0) as [[L E]|[L E]]; rewrite E; lra.
Qed.

Lemma handleRefundCreate_ledger_ok env payload st :
  ledger_ok st ->
  (forall oid r, truthy_id (p_order_id payload) = Some oid -> orders st !! oid = Some r ->
     clean_refund (mkAcc (r_lineItems r) zero zero) (refund_line_items payload) = true) ->
  ledger_ok (fst (handleRefundCreate env payload st)).
Proof.
  intros [Hc Hrec] Hclean.
  assert (Hloop : forall oid r,
            truthy_id (p_order_id payload) = Some oid -> orders st !! oid = Some r ->
            exists x y ds dv,
              r_sweet r = Num x /\ r_savoury r = Num y /\
              deltaSweet (refundLoop r (refund_line_items payload)) = Num ds /\
              deltaSavoury (refundLoop r (refund_line_items payload)) = Num dv /\
              lines_ok (a_lines (refundLoop r (refund_line_items payload))) /\
              (0 <= rem_sum Sweet (a_lines (refundLoop r (refund_line_items payload)))
               <= x + ds)%Q /\
              (0 <= rem_sum Savoury (a_lines (refundLoop r (refund_line_items payload)))
               <= y + dv)%Q).
  { intros oid r Hid Hr.
    destruct (Hrec oid r Hr) as (x & y & Hx & Hy & Hok & Hs & Hv).
    destruct (refundLoop_ok r (refund_line_items payload) x y Hx Hy Hok Hs Hv
                (Hclean oid r Hid Hr)) as (ds & dv & H).
    exists x, y, ds, dv. tauto. }
  split.
  - apply handleRefundCreate_conserves; [exact Hc|].
    intros oid r Hid Hr acc.
    destruct (Hloop oid r Hid Hr) as (x & y & ds & dv & Hx & Hy & Hds & Hdv & _ & Hs & Hv).
    exists x, y, ds, dv. repeat split; try assumption; lra.
  - destruct (truthy_id (p_order_id payload)) as [oid|] eqn:Hid.
    2:{ rewrite handleRefundCreate_absent; [exact Hrec | congruence]. }
    destruct (orders st !! oid) as [r|] eqn:Hr.
    2:{ rewrite handleRefundCreate_absent; [exact Hrec | congruence]. }
    rewrite (handleRefundCreate_present env payload st oid r Hid Hr). cbv zeta.
    destruct (is_zero _ && is_zero _)%bool; [exact Hrec|].
    destruct (Hloop oid r eq_refl Hr)
      as (x & y & ds & dv & Hx & Hy & Hds & Hdv & Hl & Hs & Hv).
    rewrite Hds, Hdv.
    intros o r' H. simpl in H.
    destruct (decide (oid = o)) as [<-|Hne].
    + rewrite lookup_insert_eq in H. inversion H; subst r'. clear H.
      destruct (floored_total x ds) as (x' & Ex & Hx'); [lra|].
      destruct (floored_total y dv) as (y' & Ey & Hy'); [lra|].
      exists x', y'. cbn [r_sweet r_savoury r_lineItems].
      rewrite Hx, Hy.
      split; [exact Ex|]. split; [exact Ey|]. split; [exact Hl|]. split; lra.
    + rewrite lookup_insert_ne in H by exact Hne. eauto.
Qed.

Lemma route_ledger_ok env req st :
  ledger_ok st -> well_behaved req st -> ledger_ok (fst (route env req st)).
Proof.
  intros Hok Hwb. unfold route, well_behaved in *.
  destruct (topic req) as [t|]; [|exact Hok].
  destruct (String.eqb t "orders/paid").
  { destruct (body req) as [| |p]; try exact Hok.
    destruct (handleOrderPaid_any_store env p (shop_domain req) st) as [E|E];
      rewrite E; [|exact Hok].
    now apply handleOrderPaid_ledger_ok. }
  destruct (String.eqb t "orders/cancelled").
  { destruct (body req) as [| |p]; try exact Hok.
    now apply handleOrderCancelled_ledger_ok. }
  destruct (String.eqb t "refunds/create"); [|exact Hok].
  destruct (body req) as [| |p]; try exact Hok.
  destruct (handleRefundCreate_any_store env p st) as [E|E]; rewrite E; [|exact Hok].
  now apply handleRefundCreate_ledger_ok.
Qed.

Lemma webhook_ledger_ok env req st :
  ledger_ok st -> well_behaved req st -> ledger_ok (snd (webhook env req st)).
Proof.
  intros Hok Hwb. unfold webhook.
  destruct (negb (String.eqb (method req) "POST")); [exact Hok|].
  destruct (negb (hmac_valid req)); [exact Hok|].
  pose proof (route_ledger_ok env req st Hok Hwb) as H.
  destruct (body req); [exact Hok | |];
    destruct (route env req st) as [st' [u|]]; exact H.
Qed.

(** Away from the fallback [line.remaining || line.revenue] on an exhausted
    line, the proration bounds and the conservation of the totals hold:
    after any sequence of events, delivered to the empty store, in which
    every quantity is a number and no refund line carries a negative
    quantity or reaches a line whose remaining amount is zero, the stored
    total of each side equals the sum over the order records, and every
    line of every record has [0 <= remaining <= revenue]. *)
Lemma ledger_invariant env reqs :
  well_behaved_run env reqs empty_kv ->
  let st := deliver env reqs empty_kv in
  (forall s, num_eq (stored_total s st) (ledger_sum s st)) /\
  (forall oid k line, stored_line oid k st = Some line ->
     exists rev rem,
       revenue line = Num rev /\ remaining line = Num rem /\ (0 <= rem <= rev)%Q).
Proof.
  intros Hrun.
  assert (Hgen : forall st0, ledger_ok st0 -> well_behaved_run env reqs st0 ->
                             ledger_ok (deliver env reqs st0)).
  { clear Hrun. induction reqs as [|r rest IH]; intros st0 Hok Hwb; simpl in *.
    - exact Hok.
    - destruct Hwb as [H1 H2]. apply IH; [now apply webhook_ledger_ok | exact H2]. }
  destruct (Hgen empty_kv ledger_ok_empty Hrun) as [Hc Hrec].
  split; [exact Hc|].
  intros oid k line Hline. unfold stored_line in Hline.
  destruct (orders (deliver env reqs empty_kv) !! oid) as [r|] eqn:Hr; [|discriminate].
  destruct (Hrec oid r Hr) as (_ & _ & _ & _ & Hok & _).
  destruct (Hok k line Hline) as (lq & rev & rem & _ & Hrev & Hrem & _ & Hb).
  now exists rev, rem.
Qed.

(** The sample order with its refund of one unit delivered twice is such a
    sequence; with the refund of both units delivered twice the second
    delivery reaches an exhausted line and the sequence is not. *)
Example well_behaved_samples :
  well_behaved_run sample_env [sample_paid; sample_refund 1; sample_refund 1] empty_kv /\
  clean_refund
    (mkAcc {[ 1 := mkLine Sweet (Num 2) (Num 20) (Num 0) ]} zero zero)
    [mkRefundItem 1 (Num 2)] = false.
Proof.
  split; [|reflexivity].
  simpl. repeat split.
  - intros item Hin. apply list_elem_of_singleton in Hin. subst. now exists 2%Q.
  - intros item Hin. now apply elem_of_nil in Hin.
  - intros oid r H Hr. inversion H; subst oid.
    vm_compute in Hr. inversion Hr; subst r. reflexivity.
  - intros item Hin. now apply elem_of_nil in Hin.
  - intros oid r H Hr. inversion H; subst oid.
    vm_compute in Hr. inversion Hr; subst r. vm_compute. reflexivity.
Qed.

(** ** Instances on the sample shop *)

(** The classifier's normalisation on a few metafield values. *)
Example normalizeSide_examples :
  normalizeSide (Some " Sweet ") = Some Sweet /\
  normalizeSide (Some "SAVOURY") = Some Savoury /\
  normalizeSide (Some "savory") = None /\
  normalizeSide (Some "") = None /\
  normalizeSide None = None.
Proof. repeat split. Qed.

(** Order 1001 with two sweet units at 10.00 brings the totals from nothing
    to sweet 20; a refund of one unit leaves remaining 10 and sweet 10; the
    cancellation brings sweet back to 0 and removes the ledger entry. *)
Example paid_refund_cancel :
  num_eq (aggregate Sweet (deliver sample_env [sample_paid] empty_kv)) (Num 20) /\
  num_eq (aggregate Savoury (deliver sample_env [sample_paid] empty_kv)) (Num 0) /\
  (exists line,
     stored_line 1001 1 (deliver sample_env [sample_paid; sample_refund 1] empty_kv)
       = Some line /\ num_eq (remaining line) (Num 10)) /\
  num_eq (aggregate Sweet (deliver sample_env [sample_paid; sample_refund 1] empty_kv))
         (Num 10) /\
  num_eq (aggregate Sweet
            (deliver sample_env [sample_paid; sample_refund 1; sample_cancel] empty_kv))
         (Num 0) /\
  orders (deliver sample_env [sample_paid; sample_refund 1; sample_cancel] empty_kv)
    !! 1001 = None.
Proof.
  split; [vm_compute; reflexivity|].
  split; [vm_compute; reflexivity|].
  split; [eexists; split; vm_compute; reflexivity|].
  split; [vm_compute; reflexivity|].
  split; vm_compute; reflexivity.
Qed.

Lemma buildOrderContribution_correct_witness :
  classifiable sample_env sample_shop empty_kv contribution_items = true /\
  exists c,
    snd (buildOrderContribution sample_env contribution_items sample_shop empty_kv)
      = Ok c /\
    lineTotal sample_item = Num 20 /\
    lineTotal sample_item2 = Num 5 /\
    lineTotal priced_item = Num 10 /\
    num_eq (lineTotal discounted_item) (Num 0) /\
    kept sample_env sample_shop empty_kv unsold_item = Ok None /\
    kept sample_env sample_shop empty_kv unclassified_item = Ok None /\
    c_sweet c = Num 30 /\
    c_savoury c = Num 5 /\
    c_lineItems c !! 1 = Some (mkLine Sweet (Num 2) (Num 20) (Num 20)) /\
    c_lineItems c !! 2 = Some (mkLine Savoury (Num 1) (Num 5) (Num 5)) /\
    c_lineItems c !! 5 = None /\
    c_lineItems c !! 6 = None.
Proof.
  split; [reflexivity|].
  destruct (buildOrderContribution_correct sample_env sample_shop
              contribution_items empty_kv eq_refl)
    as (c & Hc & _ & _ & _ & _ & Hline & _ & _ & Hs & Hv & Hsound & Hcomplete).
  exists c. split; [exact Hc|].
  split; [exact (proj1 (Hline sample_item 2%Q eq_refl))|].
  split; [exact (proj1 (Hline sample_item2 1%Q eq_refl))|].
  split; [exact (proj1 (Hline priced_item 3%Q eq_refl))|].
  split.
  { apply (proj1 (proj2 (Hline discounted_item 1%Q eq_refl))). vm_compute. discriminate. }
  split; [reflexivity|]. split; [reflexivity|].
  split; [rewrite Hs; reflexivity|].
  split; [rewrite Hv; reflexivity|].
  assert (Hnd : NoDup (map li_id contribution_items)).
  { repeat (apply NoDup_cons; split;
            [intros Hin; repeat (apply elem_of_cons in Hin as [Hin|Hin];
                                 [discriminate|]);
             now apply not_elem_of_nil in Hin|]).
    apply NoDup_nil_2. }
  split.
  { apply (Hcomplete Hnd sample_item Sweet); [apply list_elem_of_here | reflexivity]. }
  split.
  { apply (Hcomplete Hnd sample_item2 Savoury);
      [apply list_elem_of_further, list_elem_of_here | reflexivity]. }
  split.
  - destruct (c_lineItems c !! 5) as [e|] eqn:E; [|reflexivity].
    destruct (Hsound 5%Z e E) as (item & s & Hin & Hid & Hk & _).
    repeat (apply elem_of_cons in Hin as [->|Hin]; [discriminate|]).
    now apply not_elem_of_nil in Hin.
  - destruct (c_lineItems c !! 6) as [e|] eqn:E; [|reflexivity].
    destruct (Hsound 6%Z e E) as (item & s & Hin & Hid & Hk & _).
    repeat (apply elem_of_cons in Hin as [->|Hin]; [discriminate|]).
    now apply not_elem_of_nil in Hin.
Defined.

Lemma getProductSide_cache_miss_witness :
  cache_get (now sample_env) (products empty_kv) (cacheKey sample_shop 55) = None /\
  remote sample_env sample_shop 55 = RemoteData (Some (mkProduct (Some " Sweet ") [])) /\
  getProductSide sample_env 55 sample_shop empty_kv =
    (set_products (insert ("shop.myshopify.com", 55%Z) (mkEntry Sweet 87400)) empty_kv,
     Ok (Some Sweet)) /\
  remote sample_env sample_shop 77 = RemoteData (Some (mkProduct None ["Savoury"])) /\
  getProductSide sample_env 77 sample_shop empty_kv =
    (set_products (insert ("shop.myshopify.com", 77%Z) (mkEntry Savoury 87400)) empty_kv,
     Ok (Some Savoury)) /\
  normalizeSide (Some nbsp_sweet) = Some Sweet /\
  normalizeSide (Some (bytes [239; 187; 191]%nat ++ "SAVOURY" ++ bytes [226; 128; 168]%nat))
    = Some Savoury /\
  normalizeSide (Some "sweet and savoury") = None /\
  getProductSide spaced_env 88 sample_shop empty_kv =
    (set_products (insert ("shop.myshopify.com", 88%Z) (mkEntry Sweet 87400)) empty_kv,
     Ok (Some Sweet)) /\
  getProductSide spaced_env 89 sample_shop empty_kv =
    (set_products (insert ("shop.myshopify.com", 89%Z) (mkEntry Sweet 87400)) empty_kv,
     Ok (Some Sweet)) /\
  getProductSide spaced_env 90 sample_shop empty_kv = (empty_kv, Ok None) /\
  getProductSide spaced_env 91 None empty_kv = (empty_kv, Ok None) /\
  getProductSide failing_env 55 sample_shop empty_kv = (empty_kv, Throw).
Proof.
  split; [reflexivity|]. split; [reflexivity|].
  split.
  { destruct (getProductSide_cache_miss sample_env 55 sample_shop empty_kv eq_refl)
      as (H & _).
    destruct (H (mkProduct (Some " Sweet ") []) eq_refl) as (Hmeta & _).
    exact (Hmeta Sweet eq_refl). }
  split; [reflexivity|].
  split.
  { destruct (getProductSide_cache_miss sample_env 77 sample_shop empty_kv eq_refl)
      as (H & _).
    destruct (H (mkProduct None ["Savoury"]) eq_refl) as (_ & _ & Htag & _).
    apply (Htag eq_refl).
    - intros (tag & Hin & Ht). simpl in Hin. apply list_elem_of_singleton in Hin.
      subst tag. discriminate.
    - exists "Savoury". split; [apply list_elem_of_here | reflexivity]. }
  destruct (getProductSide_cache_miss spaced_env 88 sample_shop empty_kv eq_refl)
    as (H88 & _ & _ & _ & Hside & Hspace & _).
  split.
  { destruct (Hspace (bytes [194; 160]%nat) "sweet") as [Hl _].
    - unfold white_space. simpl. do 6 apply list_elem_of_further.
      apply list_elem_of_here.
    - unfold nbsp_sweet. rewrite Hl. now apply (Hside "sweet"). }
  split; [now apply (Hside _)|].
  split; [now apply (Hside "sweet and savoury")|].
  split.
  { destruct (H88 (mkProduct (Some nbsp_sweet) ["savoury"]) eq_refl) as (Hmeta & _).
    exact (Hmeta Sweet eq_refl). }
  split.
  { destruct (getProductSide_cache_miss spaced_env 89 sample_shop empty_kv eq_refl)
      as (H & _).
    destruct (H (mkProduct (Some "chocolate") ["Other"; "SWEET"]) eq_refl)
      as (_ & Htag & _).
    apply (Htag eq_refl).
    exists "SWEET". split; [apply list_elem_of_further, list_elem_of_here | reflexivity]. }
  split.
  { destruct (getProductSide_cache_miss spaced_env 90 sample_shop empty_kv eq_refl)
      as (H & _).
    destruct (H (mkProduct None ["other"]) eq_refl) as (_ & _ & _ & Hnone).
    apply (Hnone eq_refl); intros (tag & Hin & Ht); simpl in Hin;
      apply list_elem_of_singleton in Hin; subst tag; discriminate. }
  split.
  { destruct (getProductSide_cache_miss spaced_env 91 None empty_kv eq_refl)
      as (_ & H & _).
    exact (H eq_refl). }
  destruct (getProductSide_cache_miss failing_env 55 sample_shop empty_kv eq_refl)
    as (_ & _ & H & _).
  exact (H eq_refl).
Defined.

Lemma battleState_get_succeeds_witness :
  exists js,
    battleState 1000 "GET" empty_kv = (200, Some js) /\
    js = mkTotalsJson zero zero 1000.
Proof.
  destruct (battleState_get_succeeds 1000 empty_kv) as (js & H & _ & _ & _ & Hjs).
  exists js. split; [exact H | exact (Hjs eq_refl)].
Defined.

Lemma cancellation_terminal_witness :
  truthy_id (p_id cancel_payload) = Some 1001 /\
  orders paid_store !! 1001 = Some sample_record /\
  stored_total Sweet paid_store = Num 20 /\
  record_total Sweet sample_record = Num 20 /\
  stored_total Savoury paid_store = Num 0 /\
  record_total Savoury sample_record = Num 0 /\
  num_eq (stored_total Sweet (fst (handleOrderCancelled sample_env cancel_payload
                                     paid_store))) (Num (20 - 20)) /\
  num_eq (stored_total Savoury (fst (handleOrderCancelled sample_env cancel_payload
                                       paid_store))) (Num (0 - 0)) /\
  stored_total Sweet (fst (handleOrderCancelled sample_env cancel_payload paid_store))
    = Num 0 /\
  t_lastUpdated (totals (fst (handleOrderCancelled sample_env cancel_payload paid_store)))
    = Some (now sample_env) /\
  fst (handleOrderCancelled sample_env cancel_payload paid_store) = cancelled_store /\
  orders cancelled_store !! 1001 = None /\
  handleOrderCancelled sample_env cancel_payload cancelled_store =
    (cancelled_store, Ok tt).
Proof.
  split; [reflexivity|]. split; [reflexivity|]. split; [reflexivity|].
  split; [reflexivity|]. split; [reflexivity|]. split; [reflexivity|].
  destruct (cancellation_terminal sample_env cancel_payload 1001 paid_store eq_refl)
    as [_ H].
  destruct (H sample_record eq_refl)
    as (_ & Htot & _ & Hstamp & _ & Hgone & _ & _ & Hagain & _).
  split; [exact (Htot Sweet 20%Q 20%Q eq_refl eq_refl)|].
  split; [exact (Htot Savoury 0%Q 0%Q eq_refl eq_refl)|].
  split; [reflexivity|]. split; [exact Hstamp|].
  assert (E : fst (handleOrderCancelled sample_env cancel_payload paid_store)
              = cancelled_store) by reflexivity.
  split; [exact E|]. rewrite E in Hgone, Hagain.
  split; [exact Hgone | exact (Hagain sample_env)].
Defined.



Lemma refund_frame_witness :
  truthy_id (p_order_id refund_payload2) = Some 1002 /\
  orders two_line_store !! 1002 = Some sample_record2 /\
  (2 ∉ map line_item_id (refund_line_items refund_payload2)) /\
  exists r',
    orders (fst (handleRefundCreate sample_env refund_payload2 two_line_store)) !! 1002
      = Some r' /\
    r_orderId r' = 1002 /\
    r_lineItems r' !! 2 = Some (mkLine Savoury (Num 1) (Num 5) (Num 5)).
Proof.
  assert (Hk : 2 ∉ map line_item_id (refund_line_items refund_payload2)).
  { simpl. intros H. apply list_elem_of_singleton in H. discriminate. }
  split; [reflexivity|]. split; [reflexivity|]. split; [exact Hk|].
  destruct (refund_frame sample_env refund_payload2 1002 sample_record2 two_line_store 2
              eq_refl eq_refl Hk)
    as ((r' & Hr' & Hid & Hline) & _).
  exists r'. split; [exact Hr' | split; [exact Hid | exact Hline]].
Defined.



Lemma invalid_request_no_mutation_witness :
  method refund_without_order_id = "POST" /\
  hmac_valid refund_without_order_id = true /\
  missing_required_id refund_without_order_id = true /\
  webhook sample_env refund_without_order_id paid_store = (200, paid_store) /\
  body malformed_request = BodyMalformed /\
  webhook sample_env malformed_request paid_store = (400, paid_store) /\
  body null_request = BodyNull /\
  webhook sample_env null_request paid_store = (500, paid_store).
Proof.
  split; [reflexivity|]. split; [reflexivity|]. split; [reflexivity|].
  destruct (invalid_request_no_mutation sample_env refund_without_order_id paid_store
              eq_refl eq_refl) as (_ & H200 & _).
  destruct (invalid_request_no_mutation sample_env malformed_request paid_store
              eq_refl eq_refl) as (H400 & _).
  destruct (invalid_request_no_mutation sample_env null_request paid_store
              eq_refl eq_refl) as (_ & _ & H500 & _).
  split; [exact (H200 eq_refl)|]. split; [reflexivity|].
  split; [exact (proj1 (H400 eq_refl))|]. split; [reflexivity|].
  exact (proj1 (H500 eq_refl)).
Defined.

(** * Further properties of the webhook endpoint *)

(** ** What a request may change *)






(** X1. The webhook endpoint checks the method, then the signature, then
    the body: a request that is not a POST is answered with 405 whatever
    else it carries, a POST whose signature does not verify with 401, and a
    signed POST whose body is not JSON with 400, each time with the store
    left as it was.  Conversely, whenever the store is changed the request
    was a signed POST with an object body and one of the three dispatched
    topics. *)
Theorem webhook_gatekeeping env req st :
  (method req <> "POST" -> webhook env req st = (405, st)) /\
  (method req = "POST" -> hmac_valid req = false -> webhook env req st = (401, st)) /\
  (method req = "POST" -> hmac_valid req = true -> body req = BodyMalformed ->
     webhook env req st = (400, st)) /\
  (snd (webhook env req st) <> st ->
     method req = "POST" /\ hmac_valid req = true /\
     known_topic req = true /\ exists p, body req = BodyObject p).
Proof.
  split; [|split; [|split]].
  - intros Hm. unfold webhook.
    destruct (String.eqb_spec (method req) "POST"); [contradiction | reflexivity].
  - intros Hm Hs. unfold webhook. now rewrite Hm, Hs.
  - intros Hm Hs Hb. now apply webhook_malformed.
  - unfold webhook.
    destruct (String.eqb_spec (method req) "POST") as [Hm|Hm]; simpl;
      [|intros H; now contradiction H].
    destruct (hmac_valid req); simpl; [|intros H; now contradiction H].
    destruct (known_topic req) eqn:Hk.
    2:{ rewrite (route_unknown_topic env req st Hk).
        destruct (body req); intros H; now contradiction H. }
    destruct (body req) as [| |p] eqn:Hb.
    + intros H; now contradiction H.
    + rewrite (route_null_body env req st Hk Hb). intros H; now contradiction H.
    + intros _. repeat split; try assumption. now exists p.
Qed.

(** X2. A signed POST whose body parses and whose topic is not one of
    [orders/paid], [orders/cancelled] and [refunds/create] (or is absent)
    is acknowledged with 200 and changes nothing, also when the body is
    [null]; with one of the three topics a [null] body is answered with 500
    and changes nothing. *)
Theorem webhook_other_topics env req st :
  method req = "POST" -> hmac_valid req = true -> body req <> BodyMalformed ->
  (known_topic req = false -> webhook env req st = (200, st)) /\
  (known_topic req = true -> body req = BodyNull -> webhook env req st = (500, st)).
Proof.
  intros Hm Hs Hb. unfold webhook. rewrite Hm, Hs. simpl. split.
  - intros Hk. rewrite (route_unknown_topic env req st Hk).
    destruct (body req); [contradiction | reflexivity | reflexivity].
  - intros Hk Hnull. rewrite (route_null_body env req st Hk Hnull).
    now rewrite Hnull.
Qed.

(** ** Classification failures *)

Lemma classifiable_false env shop st items :
  classifiable env shop st items = false <->
  exists item, item ∈ items /\ kept env shop st item = Throw.
Proof.
  unfold classifiable. induction items as [|item rest IH]; simpl.
  - split; [discriminate | intros (i & Hi & _); now apply elem_of_nil in Hi].
  - destruct (classification env shop st item) as [[s|]|] eqn:C; simpl.
    + rewrite IH. split; intros (i & Hi & Hv).
      * exists i. split; [now apply list_elem_of_further | exact Hv].
      * apply elem_of_cons in Hi as [->|Hi]; [|eauto].
        rewrite kept_classification, C in Hv.
        destruct (nle (li_quantity item) zero); discriminate.
    + rewrite IH. split; intros (i & Hi & Hv).
      * exists i. split; [now apply list_elem_of_further | exact Hv].
      * apply elem_of_cons in Hi as [->|Hi]; [|eauto].
        rewrite kept_classification, C in Hv. discriminate.
    + split; [|reflexivity]. intros _. exists item.
      split; [apply list_elem_of_here|]. now rewrite kept_classification, C.
Qed.

Lemma buildOrderContribution_throws env shop items st :
  snd (buildOrderContribution env items shop st) = Throw <->
  classifiable env shop st items = false.
Proof.
  rewrite buildOrderContribution_eq, collect_throws. symmetry.
  apply classifiable_false.
Qed.



(** ** A paid event for a new order *)

Lemma handleOrderPaid_written env payload shop st oid c :
  truthy_id (p_id payload) = Some oid ->
  orders st !! oid = None ->
  snd (buildOrderContribution env (line_items payload) shop st) = Ok c ->
  let st' := fst (handleOrderPaid env payload shop st) in
  ((is_zero (c_sweet c) && is_zero (c_savoury c))%bool = true ->
     orders st' = orders st /\ totals st' = totals st) /\
  ((is_zero (c_sweet c) && is_zero (c_savoury c))%bool = false ->
   finite (c_sweet c) -> finite (c_savoury c) ->
     orders st' =
       <[oid := mkOrder oid (c_sweet c) (c_savoury c) (c_lineItems c)]> (orders st) /\
     (forall s, stored_total s st' = nadd (stored_total s st) (contribution_total s c))).
Proof.
  intros Hid Hr Hc st'. unfold st'.
  rewrite (handleOrderPaid_fresh env payload shop st oid Hid Hr).
  pose proof (buildOrderContribution_store env shop (line_items payload) st)
    as (Ho & Ht & _).
  destruct (buildOrderContribution env (line_items payload) shop st) as [stb res].
  simpl in Hc, Ho, Ht. subst res.
  destruct (is_zero (c_sweet c) && is_zero (c_savoury c))%bool; simpl.
  - split; [now intros _ | discriminate].
  - split; [discriminate|]. intros _ [x Hx] [y Hy]. rewrite Hx, Hy. cbn [fst].
    split; [cbn [orders]; now rewrite Ho|].
    intros s. rewrite stored_total_updated. unfold stored_total. rewrite Ht.
    destruct s; cbn [contribution_total]; now rewrite ?Hx, ?Hy.
Qed.


(** ** The classification cache over time *)

(** X6. Once a lookup missed the cache and resolved a side, every lookup of
    the same product for the same shop made before 86400 seconds have
    passed returns that side from the cache, without asking the API
    (whatever it would answer, an error included) and without touching the
    store; from 86400 seconds on the entry is not read any more and the
    answer of the API decides again. *)
Theorem cached_side_served env pid shop st s :
  cache_get (now env) (products st) (cacheKey shop pid) = None ->
  snd (getProductSide env pid shop st) = Ok (Some s) ->
  let st1 := fst (getProductSide env pid shop st) in
  (forall env2, (now env2 < now env + 86400)%Z ->
     getProductSide env2 pid shop st1 = (st1, Ok (Some s))) /\
  (forall env2, (now env + 86400 <= now env2)%Z ->
     snd (getProductSide env2 pid shop st1) =
       match remote env2 shop pid with
       | RemoteError => Throw
       | RemoteData None => Ok None
       | RemoteData (Some product) => Ok (resolveSide product)
       end).
Proof.
  intros Hmiss Hres st1. unfold st1.
  rewrite (getProductSide_miss_eq env pid shop st Hmiss) in *.
  destruct (remote env shop pid) as [|[product|]]; try discriminate.
  destruct (resolveSide product) as [s'|]; [|discriminate].
  simpl in Hres. inversion Hres; subst s'. simpl.
  split; intros env2 Hclock.
  - apply getProductSide_hit. simpl. rewrite cache_get_written.
    destruct (Z.ltb_spec (now env2) (now env + 86400)); [reflexivity | lia].
  - fold (sideOf env2 shop
            (set_products (insert (cacheKey shop pid) (mkEntry s (now env + 86400))) st)
            pid).
    rewrite sideOf_eq. simpl. rewrite cache_get_written.
    destruct (Z.ltb_spec (now env2) (now env + 86400)); [lia | reflexivity].
Qed.

(** ** Frame properties of the webhook endpoint *)

Lemma getProductSide_products_other env pid shop st k :
  k <> cacheKey shop pid ->
  products (fst (getProductSide env pid shop st)) !! k = products st !! k.
Proof.
  intros Hk.
  destruct (cache_get (now env) (products st) (cacheKey shop pid)) as [s|] eqn:E.
  { now rewrite (getProductSide_hit _ _ _ _ _ E). }
  rewrite (getProductSide_miss_eq _ _ _ _ E).
  destruct (remote env shop pid) as [|[product|]]; try reflexivity.
  destruct (resolveSide product); [|reflexivity].
  simpl. now rewrite lookup_insert_ne.
Qed.

Lemma contributionStep_products_other env shop c item st k :
  (forall pid, truthy_id (product_id item) = Some pid -> k <> cacheKey shop pid) ->
  products (fst (contributionStep env shop c item st)) !! k = products st !! k.
Proof.
  intros Hk. unfold contributionStep.
  destruct (truthy_id (product_id item)) as [pid|]; [|reflexivity].
  pose proof (getProductSide_products_other env pid shop st k (Hk pid eq_refl)) as H.
  unfold bind.
  destruct (getProductSide env pid shop st) as [st1 [[s|]|]]; simpl in *;
    try exact H.
  destruct (nle (li_quantity item) zero); exact H.
Qed.

Lemma foldM_products_other env shop items : forall c st k,
  (forall item pid, item ∈ items -> truthy_id (product_id item) = Some pid ->
     k <> cacheKey shop pid) ->
  products (fst (foldM (contributionStep env shop) items c st)) !! k = products st !! k.
Proof.
  induction items as [|item rest IH]; intros c st k Hk; simpl.
  - reflexivity.
  - assert (Hhead : forall pid, truthy_id (product_id item) = Some pid ->
                      k <> cacheKey shop pid)
      by (intros pid; apply Hk, list_elem_of_here).
    assert (Hrest : forall i pid, i ∈ rest -> truthy_id (product_id i) = Some pid ->
                      k <> cacheKey shop pid)
      by (intros i pid Hi; apply Hk; now apply list_elem_of_further).
    pose proof (contributionStep_products_other env shop c item st k Hhead) as H.
    unfold bind.
    destruct (contributionStep env shop c item st) as [st1 [c1|]]; simpl in *.
    + rewrite (IH c1 st1 k Hrest). exact H.
    + exact H.
Qed.

Lemma handleOrderPaid_products env payload shop st k :
  (forall item pid, item ∈ line_items payload ->
     truthy_id (product_id item) = Some pid -> k <> cacheKey shop pid) ->
  products (fst (handleOrderPaid env payload shop st)) !! k = products st !! k.
Proof.
  intros Hk.
  destruct (truthy_id (p_id payload)) as [oid|] eqn:Hid;
    [|now rewrite (handleOrderPaid_no_id env payload shop st Hid)].
  destruct (orders st !! oid) as [r|] eqn:Hr;
    [now rewrite (handleOrderPaid_gate env payload shop st oid r Hid Hr)|].
  rewrite (handleOrderPaid_fresh env payload shop st oid Hid Hr).
  pose proof (foldM_products_other env shop (line_items payload)
                empty_contribution st k Hk) as H.
  fold (buildOrderContribution env (line_items payload) shop st) in H.
  destruct (buildOrderContribution env (line_items payload) shop st) as [stb [c|]];
    simpl in *; [|exact H].
  destruct (is_zero (c_sweet c) && is_zero (c_savoury c))%bool; [exact H|].
  destruct (c_sweet c); [destruct (c_savoury c)|]; exact H.
Qed.




(** The store a request leaves behind, as the store the dispatched handler
    leaves behind. *)
Lemma webhook_store env req st :
  snd (webhook env req st) = st \/
  exists p, body req = BodyObject p /\
    ((topic req = Some "orders/paid" /\
      snd (webhook env req st) = fst (handleOrderPaid env p (shop_domain req) st)) \/
     (topic req = Some "orders/cancelled" /\
      snd (webhook env req st) = fst (handleOrderCancelled env p st)) \/
     (topic req = Some "refunds/create" /\
      snd (webhook env req st) = fst (handleRefundCreate env p st))).
Proof.
  destruct (known_topic req) eqn:Hk.
  2:{ left. unfold webhook.
      destruct (negb (String.eqb (method req) "POST")); [reflexivity|].
      destruct (negb (hmac_valid req)); [reflexivity|].
      rewrite (route_unknown_topic env req st Hk). now destruct (body req). }
  unfold webhook.
  destruct (negb (String.eqb (method req) "POST")); [now left|].
  destruct (negb (hmac_valid req)); [now left|].
  destruct (body req) as [| |p] eqn:Hb; [now left | |].
  { rewrite (route_null_body env req st Hk Hb). now left. }
  unfold known_topic in Hk. unfold route. rewrite Hb.
  destruct (topic req) as [t|]; [|discriminate].
  destruct (String.eqb t "orders/paid") eqn:E1.
  { apply String.eqb_eq in E1. subst t.
    destruct (handleOrderPaid_any_store env p (shop_domain req) st) as [E|E].
    - right. exists p. split; [reflexivity|]. left. split; [reflexivity|].
      rewrite E. now destruct (handleOrderPaid env p (shop_domain req) st) as [st' [u|]].
    - left. rewrite <- E at 2.
      now destruct (handleOrderPaid_any env p (shop_domain req) st) as [st' [u|]]. }
  destruct (String.eqb t "orders/cancelled") eqn:E2.
  { apply String.eqb_eq in E2. subst t. right. exists p. split; [reflexivity|].
    right; left. split; [reflexivity|].
    now destruct (handleOrderCancelled env p st) as [st' [u|]]. }
  destruct (String.eqb t "refunds/create") eqn:E3; [|discriminate].
  apply String.eqb_eq in E3. subst t.
  destruct (handleRefundCreate_any_store env p st) as [E|E].
  - right. exists p. split; [reflexivity|]. right; right. split; [reflexivity|].
    rewrite E. now destruct (handleRefundCreate env p st) as [st' [u|]].
  - left. rewrite <- E at 2.
    now destruct (handleRefundCreate_any env p st) as [st' [u|]].
Qed.


Lemma handleOrderCancelled_products env payload st :
  products (fst (handleOrderCancelled env payload st)) = products st.
Proof.
  destruct (truthy_id (p_id payload)) as [oid|] eqn:Hid.
  2:{ rewrite handleOrderCancelled_absent; [reflexivity | congruence]. }
  destruct (orders st !! oid) as [r|] eqn:Hr.
  2:{ rewrite handleOrderCancelled_absent; [reflexivity | congruence]. }
  now rewrite (handleOrderCancelled_present env payload st oid r Hid Hr).
Qed.

Lemma handleRefundCreate_any_products env payload st :
  products (fst (handleRefundCreate_any env payload st)) = products st.
Proof.
  destruct (handleRefundCreate_any_store env payload st) as [E|E]; rewrite E;
    [|reflexivity].
  destruct (truthy_id (p_order_id payload)) as [oid|] eqn:Hid.
  2:{ rewrite handleRefundCreate_absent; [reflexivity | congruence]. }
  destruct (orders st !! oid) as [r|] eqn:Hr.
  2:{ rewrite handleRefundCreate_absent; [reflexivity | congruence]. }
  rewrite (handleRefundCreate_present env payload st oid r Hid Hr). cbv zeta.
  destruct (is_zero _ && is_zero _)%bool; [reflexivity|].
  destruct (deltaSweet _); [destruct (deltaSavoury _)|]; reflexivity.
Qed.

(** A cache key is the key of one of the products of the line items, or
    of none of them. *)
Lemma product_key_named shop (items : list LineItem) (k : string * Z) :
  (exists item pid, item ∈ items /\ truthy_id (product_id item) = Some pid /\
                    k = cacheKey shop pid) \/
  (forall item pid, item ∈ items -> truthy_id (product_id item) = Some pid ->
                    k <> cacheKey shop pid).
Proof.
  induction items as [|item rest IH].
  - right. intros i pid Hi. now apply elem_of_nil in Hi.
  - destruct IH as [(i & pid & Hi & Hp & Hk)|IH].
    { left. exists i, pid. split; [now apply list_elem_of_further | now split]. }
    destruct (truthy_id (product_id item)) as [pid|] eqn:Hp.
    + destruct (decide (k = cacheKey shop pid)) as [Hk|Hk].
      * left. exists item, pid. split; [apply list_elem_of_here | now split].
      * right. intros i pid' Hi Hp'. apply elem_of_cons in Hi as [->|Hi]; [|eauto].
        congruence.
    + right. intros i pid' Hi Hp'. apply elem_of_cons in Hi as [->|Hi]; [|eauto].
      congruence.
Qed.

(** What a request leaves in the cache: the cache as it was, unless the
    request is a signed paid event for an order without a record whose
    line items can be iterated. *)
Lemma webhook_products env req st :
  products (snd (webhook env req st)) = products st \/
  (method req = "POST" /\ hmac_valid req = true /\ topic req = Some "orders/paid" /\
   exists p oid,
     body req = BodyObject p /\ line_items_iterable p = true /\
     truthy_id (p_id p) = Some oid /\ orders st !! oid = None /\
     snd (webhook env req st) = fst (handleOrderPaid env p (shop_domain req) st)).
Proof.
  unfold webhook.
  destruct (String.eqb_spec (method req) "POST") as [Hm|Hm]; simpl; [|now left].
  destruct (hmac_valid req) eqn:Hs; simpl; [|now left].
  destruct (known_topic req) eqn:Hk.
  2:{ rewrite (route_unknown_topic env req st Hk). left. now destruct (body req). }
  destruct (body req) as [| |p] eqn:Hb; [now left | |].
  { rewrite (route_null_body env req st Hk Hb). now left. }
  unfold known_topic in Hk. unfold route. rewrite Hb.
  destruct (topic req) as [t|] eqn:Ht; [|discriminate].
  destruct (String.eqb t "orders/paid") eqn:E1.
  { apply String.eqb_eq in E1. subst t.
    destruct (line_items_iterable p) eqn:Hit.
    2:{ left. rewrite (handleOrderPaid_any_broken env p (shop_domain req) st Hit).
        now destruct (truthy_id (p_id p)) as [oid|]; [destruct (orders st !! oid)|]. }
    rewrite (handleOrderPaid_any_iterable env p (shop_domain req) st Hit).
    destruct (truthy_id (p_id p)) as [oid|] eqn:Hid.
    2:{ left. now rewrite (handleOrderPaid_no_id env p (shop_domain req) st Hid). }
    destruct (orders st !! oid) as [r|] eqn:Hr.
    { left. now rewrite (handleOrderPaid_gate env p (shop_domain req) st oid r Hid Hr). }
    right. split; [exact Hm|]. split; [reflexivity|]. split; [reflexivity|].
    exists p, oid. repeat split; try assumption.
    now destruct (handleOrderPaid env p (shop_domain req) st) as [st' [u|]]. }
  left.
  destruct (String.eqb t "orders/cancelled") eqn:E2.
  { pose proof (handleOrderCancelled_products env p st) as H.
    now destruct (handleOrderCancelled env p st) as [st' [u|]]. }
  destruct (String.eqb t "refunds/create") eqn:E3; [|discriminate].
  pose proof (handleRefundCreate_any_products env p st) as H.
  now destruct (handleRefundCreate_any env p st) as [st' [u|]].
Qed.

(** X8. Only a paid event that gets as far as its line items touches the
    classification cache: whenever the cache after a request differs from
    the cache before, the request is a signed POST of topic [orders/paid]
    whose body is an object with [line_items] that can be iterated and
    that names an order without a record; every other request, refused or
    not, leaves the cache as it was.  An entry that differs is the entry
    of a product of one of the line items under the shop of the request:
    its key is the shop domain header, or [default] when the header is
    absent or empty, together with the product id. *)
Theorem webhook_cache_frame env req st :
  (products (snd (webhook env req st)) <> products st ->
     method req = "POST" /\ hmac_valid req = true /\ topic req = Some "orders/paid" /\
     exists p oid,
       body req = BodyObject p /\ line_items_iterable p = true /\
       truthy_id (p_id p) = Some oid /\ orders st !! oid = None) /\
  (forall k, products (snd (webhook env req st)) !! k <> products st !! k ->
     exists p item pid,
       body req = BodyObject p /\ item ∈ line_items p /\
       truthy_id (product_id item) = Some pid /\
       k = (match shop_domain req with
            | Some s => if String.eqb s "" then "default" else s
            | None => "default"
            end, pid)).
Proof.
  split.
  - intros Hchg.
    destruct (webhook_products env req st)
      as [E|(Hm & Hs & Ht & p & oid & Hb & Hit & Hid & Hr & _)];
      [contradiction|].
    repeat split; try assumption. now exists p, oid.
  - intros k Hchg.
    destruct (webhook_products env req st)
      as [E|(Hm & Hs & Ht & p & oid & Hb & Hit & Hid & Hr & E)].
    { rewrite E in Hchg. now contradiction Hchg. }
    destruct (product_key_named (shop_domain req) (line_items p) k)
      as [(item & pid & Hi & Hp & Hk)|Hnone].
    + exists p, item, pid. repeat split; try assumption.
    + exfalso. apply Hchg. rewrite E.
      now apply handleOrderPaid_products.
Qed.

(** ** The timestamp of the totals *)

(** X9. Every request that changes the totals stamps them with its own
    time: whenever the totals after a request differ from the totals
    before, [lastUpdated] is the clock of that request, and this is the
    value a later GET on the read endpoint reports, not the time of the
    GET. *)
Theorem totals_stamped env req st :
  totals (snd (webhook env req st)) <> totals st ->
  t_lastUpdated (totals (snd (webhook env req st))) = Some (now env) /\
  forall t, exists js,
    battleState t "GET" (snd (webhook env req st)) = (200, Some js) /\
    lastUpdated js = now env.
Proof.
  intros Hchg.
  assert (Hstamp : t_lastUpdated (totals (snd (webhook env req st))) = Some (now env)).
  { destruct (webhook_store env req st) as [E|(p & Hb & H)];
      [rewrite E in Hchg; now contradiction Hchg|].
    destruct H as [[_ E]|[[_ E]|[_ E]]]; rewrite E in *; clear E.
    - destruct (truthy_id (p_id p)) as [oid|] eqn:Hid.
      2:{ rewrite (handleOrderPaid_no_id env p _ st Hid) in Hchg.
          now contradiction Hchg. }
      destruct (orders st !! oid) as [r|] eqn:Hr.
      { rewrite (handleOrderPaid_gate env p _ st oid r Hid Hr) in Hchg.
        now contradiction Hchg. }
      rewrite (handleOrderPaid_fresh env p _ st oid Hid Hr) in *.
      pose proof (buildOrderContribution_store env (shop_domain req) (line_items p) st)
        as (_ & Ht & _).
      destruct (buildOrderContribution env (line_items p) (shop_domain req) st)
        as [stb [c|]]; simpl in *; [|now contradiction Hchg].
      destruct (is_zero (c_sweet c) && is_zero (c_savoury c))%bool; simpl in *;
        [now contradiction Hchg|].
      destruct (c_sweet c); [destruct (c_savoury c)|]; simpl in *;
        solve [reflexivity | now contradiction Hchg].
    - destruct (truthy_id (p_id p)) as [oid|] eqn:Hid.
      2:{ rewrite handleOrderCancelled_absent in Hchg;
            [now contradiction Hchg | congruence]. }
      destruct (orders st !! oid) as [r|] eqn:Hr.
      2:{ rewrite handleOrderCancelled_absent in Hchg;
            [now contradiction Hchg | congruence]. }
      now rewrite (handleOrderCancelled_present env p st oid r Hid Hr).
    - destruct (truthy_id (p_order_id p)) as [oid|] eqn:Hid.
      2:{ rewrite handleRefundCreate_absent in Hchg;
            [now contradiction Hchg | congruence]. }
      destruct (orders st !! oid) as [r|] eqn:Hr.
      2:{ rewrite handleRefundCreate_absent in Hchg;
            [now contradiction Hchg | congruence]. }
      rewrite (handleRefundCreate_present env p st oid r Hid Hr) in *.
      cbv zeta in *.
      destruct (is_zero _ && is_zero _)%bool; simpl in *;
        [now contradiction Hchg|].
      destruct (deltaSweet _); [destruct (deltaSavoury _)|]; simpl in *;
        solve [reflexivity | now contradiction Hchg]. }
  split; [exact Hstamp|].
  intros t. eexists. split; [reflexivity|]. simpl. now rewrite Hstamp.
Qed.

(** ** Refund events without effect *)

Lemma refundStep_skips acc ri :
  a_lines acc !! line_item_id ri = None \/ truthy (rf_quantity ri) = false ->
  refundStep acc ri = acc.
Proof.
  intros H. unfold refundStep.
  destruct (a_lines acc !! line_item_id ri) as [l|]; [|reflexivity].
  destruct H as [H|H]; [discriminate|]. now rewrite H.
Qed.

(** X10. A refund event all of whose refund lines name a line item the
    order record does not have, or carry a quantity that is zero or not a
    number, leaves the store exactly as it was; so does a refund event
    without refund lines. *)
Theorem refund_without_effect env payload st :
  (forall oid r ri,
     truthy_id (p_order_id payload) = Some oid -> orders st !! oid = Some r ->
     ri ∈ refund_line_items payload ->
     r_lineItems r !! line_item_id ri = None \/ truthy (rf_quantity ri) = false) ->
  handleRefundCreate env payload st = (st, Ok tt).
Proof.
  intros H.
  destruct (truthy_id (p_order_id payload)) as [oid|] eqn:Hid.
  2:{ apply handleRefundCreate_absent. congruence. }
  destruct (orders st !! oid) as [r|] eqn:Hr.
  2:{ apply handleRefundCreate_absent. congruence. }
  rewrite (handleRefundCreate_present env payload st oid r Hid Hr).
  assert (Hloop : refundLoop r (refund_line_items payload) =
                  mkAcc (r_lineItems r) zero zero).
  { unfold refundLoop.
    assert (Hall : forall ri, ri ∈ refund_line_items payload ->
              r_lineItems r !! line_item_id ri = None \/ truthy (rf_quantity ri) = false)
      by (intros ri; now apply (H oid r ri)).
    clear H. induction (refund_line_items payload) as [|ri rest IH]; simpl;
      [reflexivity|].
    rewrite refundStep_skips.
    - apply IH. intros ri' Hin. apply Hall. now apply list_elem_of_further.
    - apply Hall, list_elem_of_here. }
  cbv zeta. rewrite Hloop. reflexivity.
Qed.

(** ** A paid order cancelled at once *)

Lemma cancel_after_add (t c : num) :
  finite c -> num_eq (nadd (nadd t c) (nneg (jsor c zero))) t.
Proof.
  intros [x ->]. destruct (jsor_finite x) as (j & -> & Hj).
  destruct t; simpl; [lra | exact I].
Qed.

(** X11. Cancelling an order right after it was paid undoes the payment:
    for a paid event that names an order without a record and whose
    contribution is a number on both sides, the cancellation of that order
    brings the order records back to what they were before the payment and
    each side's stored total back to its value before the payment. *)
Theorem paid_then_cancelled env env2 payload shop st oid c :
  truthy_id (p_id payload) = Some oid ->
  orders st !! oid = None ->
  snd (buildOrderContribution env (line_items payload) shop st) = Ok c ->
  finite (c_sweet c) -> finite (c_savoury c) ->
  let st1 := fst (handleOrderPaid env payload shop st) in
  let st2 := fst (handleOrderCancelled env2 payload st1) in
  orders st2 = orders st /\
  forall s, num_eq (stored_total s st2) (stored_total s st).
Proof.
  intros Hid Hr Hc Fs Fv st1 st2.
  destruct (handleOrderPaid_written env payload shop st oid c Hid Hr Hc) as (Hzero & Hnz).
  fold st1 in Hzero, Hnz.
  destruct (is_zero (c_sweet c) && is_zero (c_savoury c))%bool eqn:Hz.
  - destruct (Hzero eq_refl) as [Ho Ht].
    assert (Habs : orders st1 !! oid = None) by now rewrite Ho.
    unfold st2. rewrite handleOrderCancelled_absent by congruence. simpl.
    split; [exact Ho|]. intros s. unfold stored_total. rewrite Ht.
    apply num_eq_refl.
  - destruct (Hnz eq_refl Fs Fv) as (Ho & Hs).
    assert (Hrec : orders st1 !! oid =
                   Some (mkOrder oid (c_sweet c) (c_savoury c) (c_lineItems c)))
      by (rewrite Ho; apply lookup_insert_eq).
    unfold st2. rewrite (handleOrderCancelled_present env2 payload st1 oid _ Hid Hrec).
    cbn [fst]. split.
    + cbn [orders]. rewrite Ho, delete_insert_eq. now apply delete_id.
    + intros s. rewrite stored_total_updated.
      fold (stored_total s st1). rewrite Hs.
      destruct s; cbn [contribution_total r_sweet r_savoury];
        now apply cancel_after_add.
Qed.

(** ** Proration arithmetic *)

Lemma scaled_fraction (rev x : Q) :
  (0 < rev)%Q -> (rev * Qmin x 1 == Qmin (rev * x) rev)%Q.
Proof.
  intros Hrev.
  destruct (Q.min_spec x 1) as [[L E]|[L E]]; rewrite E.
  - assert (H : (x * rev < 1 * rev)%Q) by (apply Qmult_lt_compat_r; assumption).
    destruct (Q.min_spec (rev * x) rev) as [[L' E']|[L' E']]; rewrite E'; lra.
  - assert (H : (1 * rev <= x * rev)%Q) by (apply Qmult_le_compat_r; lra).
    destruct (Q.min_spec (rev * x) rev) as [[L' E']|[L' E']]; rewrite E'; lra.
Qed.

Lemma scaled_quotient_pos (rev q lq : Q) :
  (0 < rev)%Q -> (0 < q)%Q -> (0 < lq)%Q -> (0 < rev * (q / lq))%Q.
Proof.
  intros Hrev Hq Hlq. pose proof (Qdiv_pos_pos q lq Hq Hlq) as H.
  assert (H' : (0 * (q / lq) < rev * (q / lq))%Q)
    by (apply Qmult_lt_compat_r; assumption).
  lra.
Qed.

Lemma scaled_quotient_le (rev q lq : Q) :
  (0 < rev)%Q -> (0 < lq)%Q ->
  ((q <= lq)%Q -> (rev * (q / lq) <= rev)%Q) /\
  ((lq <= q)%Q -> (rev <= rev * (q / lq))%Q).
Proof.
  intros Hrev Hlq.
  assert (Hinv : (0 < / lq)%Q) by now apply Qinv_lt_0_compat.
  assert (Hone : (lq * / lq == 1)%Q) by (apply Qmult_inv_r; lra).
  unfold Qdiv. split; intros H.
  - assert (H1 : (q * / lq <= lq * / lq)%Q) by (apply Qmult_le_compat_r; lra).
    assert (H2 : ((q * / lq) * rev <= 1 * rev)%Q) by (apply Qmult_le_compat_r; lra).
    lra.
  - assert (H1 : (lq * / lq <= q * / lq)%Q) by (apply Qmult_le_compat_r; lra).
    assert (H2 : (1 * rev <= (q * / lq) * rev)%Q) by (apply Qmult_le_compat_r; lra).
    lra.
Qed.

(** X12. On a line that was never refunded ([remaining = revenue > 0]), a
    refund of [q] units out of [lq] takes the share [revenue * q / lq] of
    the revenue when [q <= lq], and the whole revenue, leaving nothing,
    when [q >= lq]: a refunded quantity above the original one refunds no
    more than the line's revenue. *)
Theorem refund_proportional line q lq rev :
  quantity line = Num lq -> revenue line = Num rev -> remaining line = Num rev ->
  (0 < q)%Q -> (0 < lq)%Q -> (0 < rev)%Q ->
  exists amt rem' : Q,
    refundAmount line (Num q) = Num amt /\
    remaining (refundLine line (Num q)) = Num rem' /\
    ((q <= lq)%Q -> (amt == rev * (q / lq))%Q /\ (rem' == rev - rev * (q / lq))%Q) /\
    ((lq <= q)%Q -> (amt == rev)%Q /\ (rem' == 0)%Q).
Proof.
  intros Hq Hrev Hrem Hqp Hlq Hrevp.
  assert (Hlq0 : ~ (lq == 0)%Q) by lra.
  assert (Hrem0 : ~ (rev == 0)%Q) by lra.
  rewrite (refundAmount_finite line q lq rev rev Hq Hrev Hrem Hlq0 Hrem0).
  rewrite (refundLine_finite line q lq rev rev Hq Hrev Hrem Hlq0 Hrem0).
  pose proof (scaled_fraction rev (q / lq) Hrevp) as Hf.
  destruct (scaled_quotient_le rev q lq Hrevp Hlq) as [Hle Hge].
  pose proof (scaled_quotient_pos rev q lq Hrevp Hqp Hlq) as Hpos.
  set (a := (rev * (q / lq))%Q) in *.
  set (m := (rev * Qmin (q / lq) 1)%Q) in *.
  eexists. eexists. split; [reflexivity|]. split; [reflexivity|].
  split; intros H; [specialize (Hle H) | specialize (Hge H)];
    destruct (Q.min_spec a rev) as [[L1 E1]|[L1 E1]];
    destruct (Q.min_spec rev m) as [[L2 E2]|[L2 E2]];
    destruct (Q.max_spec (rev - Qmin rev m) 0) as [[L3 E3]|[L3 E3]];
    split; lra.
Qed.

(** ** Line items that share an id *)

Lemma collect_app v l1 l2 c0 :
  collect v (l1 ++ l2) c0 =
    match collect v l1 c0 with
    | Ok c1 => collect v l2 c1
    | Throw => Throw
    end.
Proof.
  revert c0. induction l1 as [|item rest IH]; intros c0; simpl; [reflexivity|].
  destruct (v item) as [[s|]|]; auto.
Qed.

Lemma collect_lines_keep v items : forall c0 c k,
  collect v items c0 = Ok c ->
  (forall i, i ∈ items -> li_id i = k -> v i = Ok None) ->
  c_lineItems c !! k = c_lineItems c0 !! k.
Proof.
  induction items as [|item rest IH]; intros c0 c k H Hk; simpl in *.
  - now inversion H.
  - assert (Hrest : forall i, i ∈ rest -> li_id i = k -> v i = Ok None)
      by (intros i Hi; apply Hk; now apply list_elem_of_further).
    destruct (v item) as [[s|]|] eqn:V; [| now apply IH | discriminate].
    rewrite (IH _ _ _ H Hrest), record_line_lines.
    apply lookup_insert_ne. intros E.
    specialize (Hk item (list_elem_of_here _ _) E). congruence.
Qed.

(** X14. When several line items of an order carry the same id, the ledger
    fragment keeps the entry of the last one that is counted, whatever the
    earlier ones were, while each of the counted ones has added its line
    total to its side: the side total then exceeds what the fragment's
    entry records by the line totals of the earlier items. *)
Theorem last_item_with_id_wins env shop st pre item post s c :
  snd (buildOrderContribution env (pre ++ item :: post) shop st) = Ok c ->
  kept env shop st item = Ok (Some s) ->
  (forall i, i ∈ post -> li_id i = li_id item -> kept env shop st i = Ok None) ->
  c_lineItems c !! li_id item =
    Some (mkLine s (li_quantity item) (lineTotal item) (lineTotal item)) /\
  contribution_total s c =
    side_sum (kept env shop st) s post
      (nadd (side_sum (kept env shop st) s pre zero) (lineTotal item)).
Proof.
  intros Hc Hv Hpost. rewrite buildOrderContribution_eq, collect_app in Hc.
  destruct (collect (kept env shop st) pre empty_contribution) as [c1|] eqn:Hpre;
    [|discriminate].
  simpl in Hc. rewrite Hv in Hc.
  split.
  - rewrite (collect_lines_keep _ _ _ _ _ Hc Hpost), record_line_lines.
    apply lookup_insert_eq.
  - destruct (collect_totals _ _ _ _ Hpre) as [Hs1 Hv1].
    destruct (collect_totals _ _ _ _ Hc) as [Hs2 Hv2].
    rewrite record_line_sweet in Hs2. rewrite record_line_savoury in Hv2.
    destruct s; simpl in *.
    + now rewrite Hs2, Hs1.
    + now rewrite Hv2, Hv1.
Qed.

(** ** The two copies of the read endpoint *)

Lemma field_or_zero_finite f : finite (field_or_zero f).
Proof.
  destruct f as [[x|]|]; simpl.
  - destruct (jsor_finite x) as (j & -> & _). now exists j.
  - now exists 0%Q.
  - now exists 0%Q.
Qed.

(** X15. The two copies of the read endpoint give the same status and the
    same body for every method except OPTIONS, which the copy with
    cross-origin support answers with 204 and the other with 405; and the
    totals either reports on GET are always numbers: a stored total that is
    not a number is reported as 0. *)
Theorem read_endpoints_agree t meth st :
  (meth <> "OPTIONS" -> totalsEndpoint t meth st = battleState t meth st) /\
  battleState t "OPTIONS" st = (204, None) /\
  totalsEndpoint t "OPTIONS" st = (405, None) /\
  (forall js, battleState t meth st = (200, Some js) ->
     finite (sweetRevenue js) /\ finite (savouryRevenue js)).
Proof.
  split; [|split; [reflexivity|split; [reflexivity|]]].
  - intros H. unfold totalsEndpoint, battleState.
    destruct (String.eqb_spec meth "OPTIONS"); [contradiction | reflexivity].
  - intros js. unfold battleState.
    destruct (String.eqb meth "OPTIONS"); [discriminate|].
    destruct (negb (String.eqb meth "GET")); [discriminate|].
    intros H. inversion H; subst js. simpl.
    split; apply field_or_zero_finite.
Qed.

(** * The OAuth install flow and the credentials of the webhook *)

(** ** Shop domains *)

Lemma append_cons (x : ascii) (a b : string) : String x a +:+ b = String x (a +:+ b).
Proof. reflexivity. Qed.

Lemma append_nil_l (b : string) : "" +:+ b = b.
Proof. reflexivity. Qed.

Lemma append_assoc (a b c : string) : (a +:+ b) +:+ c = a +:+ (b +:+ c).
Proof.
  induction a as [|x a IH]; [reflexivity|].
  rewrite !append_cons. now rewrite IH.
Qed.

Lemma string_forall_app P a b :
  string_forall P (a +:+ b) = (string_forall P a && string_forall P b)%bool.
Proof.
  induction a as [|x a IH]; [reflexivity|].
  rewrite append_cons. simpl. rewrite IH. now rewrite andb_assoc.
Qed.

Lemma string_forall_impl (P Q : ascii -> bool) s :
  (forall c, P c = true -> Q c = true) ->
  string_forall P s = true -> string_forall Q s = true.
Proof.
  intros H. induction s as [|c r IH]; simpl; [reflexivity|].
  intros E. apply andb_true_iff in E as [E1 E2].
  apply andb_true_iff. split; auto.
Qed.

Lemma shop_tail_shape r :
  shop_tail r = true <->
  exists label, r = label +:+ ".myshopify.com" /\ string_forall is_label_char label = true.
Proof.
  split.
  - induction r as [|c r IH]; cbn [shop_tail]; [discriminate|].
    destruct (is_label_char c) eqn:C.
    + intros H. destruct (IH H) as (label & -> & Hl).
      exists (String c label). split; [reflexivity|]. simpl. now rewrite C, Hl.
    + intros H. apply String.eqb_eq in H. exists "". split; [exact H | reflexivity].
  - intros (label & -> & Hl). induction label as [|c l IH]; [reflexivity|].
    simpl in Hl. apply andb_true_iff in Hl as [C Hl].
    rewrite append_cons. cbn [shop_tail]. rewrite C. now apply IH.
Qed.

(** X16. [isValidShop] accepts exactly the shops made of a letter or
    digit, then letters, digits and hyphens, then [.myshopify.com]; an
    absent or empty shop is refused.  Hence an accepted shop consists of
    letters, digits, hyphens and dots only (no slash, colon, at sign,
    question mark or white space can reach the URLs built from it) and
    ends in [.myshopify.com]. *)
Theorem isValidShop_shape shop :
  (isValidShop shop = true <->
   exists c label,
     shop = Some (String c (label +:+ ".myshopify.com")) /\
     is_alnum c = true /\ string_forall is_label_char label = true) /\
  (isValidShop shop = true ->
   exists s, shop = Some s /\ s <> "" /\ string_forall is_host_char s = true) /\
  isValidShop None = false /\ isValidShop (Some "") = false.
Proof.
  assert (Hiff : isValidShop shop = true <->
            exists c label,
              shop = Some (String c (label +:+ ".myshopify.com")) /\
              is_alnum c = true /\ string_forall is_label_char label = true).
  { destruct shop as [[|c r]|]; simpl.
    - split; [discriminate | intros (c & l & H & _); discriminate].
    - rewrite andb_true_iff, shop_tail_shape. split.
      + intros [C (label & -> & Hl)]. now exists c, label.
      + intros (c' & label & H & C & Hl). inversion H; subst. split; [exact C|].
        now exists label.
    - split; [discriminate | intros (c & l & H & _); discriminate]. }
  split; [exact Hiff|]. split; [|split; reflexivity].
  intros H. apply Hiff in H as (c & label & -> & C & Hl).
  eexists. split; [reflexivity|]. split; [discriminate|].
  simpl. rewrite string_forall_app.
  assert (Hc : is_host_char c = true).
  { unfold is_host_char, is_label_char. now rewrite C. }
  rewrite Hc. simpl.
  rewrite (string_forall_impl is_label_char is_host_char label); [reflexivity | | exact Hl].
  intros x Hx. unfold is_host_char. now rewrite Hx.
Qed.

(** ** The signed message of the OAuth callback *)

Lemma string_leb_trans : forall a b c,
  String.leb a b = true -> String.leb b c = true -> String.leb a c = true.
Proof.
  unfold String.leb.
  induction a as [|x a IH]; intros [|y b] [|z c]; simpl; try congruence.
  unfold Ascii.compare.
  destruct (N.compare_spec (N_of_ascii x) (N_of_ascii y)) as [E1|L1|L1];
    destruct (N.compare_spec (N_of_ascii y) (N_of_ascii z)) as [E2|L2|L2];
    destruct (N.compare_spec (N_of_ascii x) (N_of_ascii z)) as [E3|L3|L3];
    try congruence; try lia.
  apply IH.
Qed.

#[global] Instance key_le_trans : Transitive key_le.
Proof. intros a b c. apply string_leb_trans. Qed.

#[global] Instance key_le_antisym : AntiSymm eq key_le.
Proof. intros a b. apply String.leb_antisym. Qed.

#[global] Instance key_le_total : Total key_le.
Proof. intros a b. apply String.leb_total. Qed.

Lemma sorted_keys_unique (l l' : list string) :
  l ≡ₚ l' ->
  @merge_sort string key_le key_le_dec l = @merge_sort string key_le key_le_dec l'.
Proof.
  intros H. apply (Sorted_unique key_le).
  - apply Sorted_merge_sort, _.
  - apply Sorted_merge_sort, _.
  - now rewrite !merge_sort_Permutation.
Qed.

Lemma param_elem (params : Params) key v :
  NoDup (map fst params) ->
  (param key params = Some v <-> (key, v) ∈ params).
Proof.
  induction params as [|[k x] rest IH]; simpl; intros Hnd.
  - split; [discriminate | intros H; now apply elem_of_nil in H].
  - apply NoDup_cons in Hnd as [Hfresh Hnd].
    destruct (String.eqb_spec k key) as [->|Hne].
    + split.
      * intros H. inversion H; subst. apply list_elem_of_here.
      * intros H. apply elem_of_cons in H as [H|H]; [now inversion H|].
        exfalso. apply Hfresh. apply list_elem_of_fmap. now exists (key, v).
    + rewrite (IH Hnd). split.
      * intros H. now apply list_elem_of_further.
      * intros H. apply elem_of_cons in H as [H|H]; [|exact H].
        inversion H; subst. contradiction.
Qed.

Lemma param_permutation (params params' : Params) key :
  NoDup (map fst params) -> params ≡ₚ params' ->
  param key params = param key params'.
Proof.
  intros Hnd Hp.
  assert (Hnd' : NoDup (map fst params')) by now rewrite <- Hp.
  destruct (param key params) as [v|] eqn:E.
  - apply (param_elem params key v Hnd) in E. rewrite Hp in E.
    symmetry. now apply (param_elem params' key v Hnd').
  - destruct (param key params') as [v'|] eqn:E'; [|reflexivity].
    apply (param_elem params' key v' Hnd') in E'. rewrite <- Hp in E'.
    apply (param_elem params key v' Hnd) in E'. congruence.
Qed.

Lemma query_string_permutation (params params' : Params) :
  NoDup (map fst params) -> params ≡ₚ params' ->
  buildQueryString params = buildQueryString params'.
Proof.
  intros Hnd Hp. unfold buildQueryString.
  rewrite (sorted_keys_unique (map fst params) (map fst params'))
    by now apply Permutation_map.
  f_equal. apply map_ext. intros key.
  now rewrite (param_permutation params params' key Hnd Hp).
Qed.

(** X17. The message [buildQueryString] builds does not depend on the
    order in which the parameters were given: two parameter objects with
    the same entries in any order give the same string, in which the keys
    appear in ascending order. *)
Theorem buildQueryString_order (params params' : Params) :
  NoDup (map fst params) -> params ≡ₚ params' ->
  buildQueryString params = buildQueryString params' /\
  exists keys, keys ≡ₚ map fst params /\ Sorted key_le keys /\
    buildQueryString params =
      String.concat "&"
        (map (fun key => key +:+ "=" +:+ default "undefined" (param key params)) keys).
Proof.
  intros Hnd Hp. split; [now apply query_string_permutation|].
  exists (@merge_sort string key_le key_le_dec (map fst params)).
  split; [apply merge_sort_Permutation|]. split; [|reflexivity].
  apply Sorted_merge_sort, _.
Qed.

Lemma sorted_pair (k k2 : string) :
  key_le k k2 -> @merge_sort string key_le key_le_dec [k; k2] = [k; k2].
Proof.
  intros H. apply (Sorted_unique key_le).
  - apply Sorted_merge_sort, _.
  - repeat constructor. exact H.
  - apply merge_sort_Permutation.
Qed.

(** X18. [buildQueryString] escapes nothing: a value that contains
    [&key2=value2] gives the same message as two separate parameters, so
    different parameter objects can share one message (and with it one
    HMAC). *)
Theorem buildQueryString_ambiguous (k v k2 v2 : string) :
  key_le k k2 -> k <> k2 ->
  buildQueryString [(k, v +:+ "&" +:+ k2 +:+ "=" +:+ v2)] =
  buildQueryString [(k, v); (k2, v2)].
Proof.
  intros Hle Hne. unfold buildQueryString.
  change (map fst [(k, v); (k2, v2)]) with [k; k2].
  rewrite (sorted_pair k k2 Hle).
  change (@merge_sort string key_le key_le_dec (map fst [(k, v +:+ "&" +:+ k2 +:+ "=" +:+ v2)]))
    with [k].
  cbn [map param String.concat].
  rewrite !String.eqb_refl.
  destruct (String.eqb_spec k k2) as [E|_]; [contradiction|].
  cbn [default from_option]. unfold id.
  now rewrite !append_assoc.
Qed.

Lemma rest_params_keys (params : Params) :
  NoDup (map fst params) -> NoDup (map fst (rest_params params)).
Proof.
  unfold rest_params, Params. induction params as [|[k v] rest IH]; intros Hnd.
  - constructor.
  - cbn [map fst] in Hnd. apply NoDup_cons in Hnd as [Hfresh Hnd].
    rewrite filter_cons. destruct (decide _) as [_|_]; [|now apply IH].
    simpl. apply NoDup_cons. split; [|now apply IH].
    intros Hin. apply Hfresh.
    apply list_elem_of_fmap in Hin as ([k' v'] & -> & Hin).
    apply list_elem_of_filter in Hin as [_ Hin].
    apply list_elem_of_fmap. now exists (k', v').
Qed.

Lemma string_length_eqb (a b : string) :
  (if negb (String.length a =? String.length b)%nat then false else String.eqb a b)
  = String.eqb a b.
Proof.
  destruct (String.eqb_spec a b) as [->|Hne].
  - now rewrite Nat.eqb_refl.
  - now destruct (String.length a =? String.length b)%nat.
Qed.

Lemma truthy_string_some (v : option string) (s : string) :
  truthy_string v = Some s <-> v = Some s /\ s <> "".
Proof.
  destruct v as [x|]; simpl.
  - destruct (String.eqb_spec x "") as [->|Hne].
    + split; [discriminate | intros [H Hs]; congruence].
    + split; [intros H; inversion H; subst; auto | intros [H _]; exact H].
  - split; [discriminate | intros [H _]; discriminate].
Qed.

Lemma rest_params_elem (params : Params) k v :
  (k, v) ∈ rest_params params <->
  (k, v) ∈ params /\ k <> "hmac" /\ k <> "signature".
Proof.
  unfold rest_params, Params. rewrite list_elem_of_filter. simpl. tauto.
Qed.

Lemma rest_params_clean (ps : Params) :
  (forall k v, (k, v) ∈ ps -> k <> "hmac" /\ k <> "signature") ->
  rest_params ps = ps.
Proof.
  induction ps as [|[k v] ps IH]; intros H; [reflexivity|].
  unfold rest_params, Params in *. rewrite filter_cons.
  destruct (decide _) as [_|Hn].
  - f_equal. apply IH. intros k' v' Hin. apply (H k' v').
    now apply list_elem_of_further.
  - exfalso. apply Hn. apply (H k v). apply list_elem_of_here.
Qed.

(** X19. What [verifyHmac] checks.  It answers true exactly when the
    secret and the [hmac] parameter are present and not empty and the
    keyed hash of the message built from the other parameters is the
    [hmac] parameter (the comparison of the lengths adds nothing).  The
    other parameters are those whose key is neither [hmac] nor
    [signature]: for a query that consists of an [hmac], a [signature] and
    parameters [ps] with other keys, the answer is whether the keyed hash
    of the message built from [ps] is the [hmac] value.  The answer
    depends only on the [hmac] value and on the remaining parameters as a
    collection, not on their order. *)
Theorem verifyHmac_coverage (h : string -> string -> string) (params params' : Params)
    (secret : option string) :
  (verifyHmac h params secret = true <->
   exists sec hm, secret = Some sec /\ sec <> "" /\
                  param "hmac" params = Some hm /\ hm <> "" /\
                  h sec (buildQueryString (rest_params params)) = hm) /\
  (forall k v, (k, v) ∈ rest_params params <->
     (k, v) ∈ params /\ k <> "hmac" /\ k <> "signature") /\
  (forall sec hm s (ps : Params),
     sec <> "" -> hm <> "" ->
     (forall k v, (k, v) ∈ ps -> k <> "hmac" /\ k <> "signature") ->
     verifyHmac h (("hmac", hm) :: ("signature", s) :: ps) (Some sec) =
       String.eqb (h sec (buildQueryString ps)) hm /\
     verifyHmac h (("hmac", hm) :: ps) (Some sec) =
       String.eqb (h sec (buildQueryString ps)) hm) /\
  (forall s, verifyHmac h (("signature", s) :: params) secret =
             verifyHmac h params secret) /\
  (NoDup (map fst params) ->
   param "hmac" params = param "hmac" params' ->
   rest_params params ≡ₚ rest_params params' ->
   verifyHmac h params secret = verifyHmac h params' secret).
Proof.
  split; [|split; [|split; [|split]]].
  - unfold verifyHmac.
    destruct (truthy_string secret) as [sec|] eqn:Es.
    2:{ split; [discriminate|]. intros (sec & hm & H1 & H2 & _).
        assert (truthy_string secret = Some sec) by now apply truthy_string_some.
        congruence. }
    destruct (truthy_string (param "hmac" params)) as [hm|] eqn:Eh.
    2:{ split; [discriminate|]. intros (sec' & hm & _ & _ & H1 & H2 & _).
        assert (truthy_string (param "hmac" params) = Some hm)
          by now apply truthy_string_some.
        congruence. }
    apply truthy_string_some in Es as [-> Hs]. apply truthy_string_some in Eh as [Eh Hh].
    cbv zeta. rewrite string_length_eqb, String.eqb_eq. split.
    + intros H. now exists sec, hm.
    + intros (sec' & hm' & H1 & _ & H2 & _ & H3). congruence.
  - intros k v. apply rest_params_elem.
  - intros sec hm s ps Hsec Hhm Hclean.
    assert (Es : truthy_string (Some sec) = Some sec)
      by now apply truthy_string_some.
    assert (Eh : truthy_string (Some hm) = Some hm)
      by now apply truthy_string_some.
    assert (Er : rest_params (("hmac", hm) :: ps) = ps).
    { unfold rest_params, Params. rewrite filter_cons.
      destruct (decide _) as [[H _]|_]; [now contradiction H|].
      now apply rest_params_clean. }
    assert (Er2 : rest_params (("hmac", hm) :: ("signature", s) :: ps) = ps).
    { unfold rest_params, Params. rewrite filter_cons.
      destruct (decide _) as [[H _]|_]; [now contradiction H|].
      rewrite filter_cons.
      destruct (decide _) as [[_ H]|_]; [now contradiction H|].
      now apply rest_params_clean. }
    unfold verifyHmac. rewrite Es. cbn [param].
    change (String.eqb "hmac" "hmac") with true. cbv iota.
    rewrite Eh. cbv zeta. rewrite Er, Er2, !string_length_eqb. now split.
  - intros s. unfold verifyHmac. cbn [param].
    change (String.eqb "signature" "hmac") with false. cbv iota.
    replace (rest_params (("signature", s) :: params)) with (rest_params params);
      [reflexivity|].
    unfold rest_params, Params. rewrite filter_cons.
    destruct (decide _) as [[_ H]|_]; [now contradiction H | reflexivity].
  - intros Hnd Hh Hp. unfold verifyHmac. rewrite <- Hh.
    now rewrite (query_string_permutation _ _ (rest_params_keys params Hnd) Hp).
Qed.

(** ** The install endpoint and the OAuth callback *)

Lemma isValidShop_some shop :
  isValidShop shop = true ->
  exists c label,
    shop = Some (String c (label +:+ ".myshopify.com")) /\
    truthy_string shop = Some (String c (label +:+ ".myshopify.com")) /\
    string_forall is_host_char (String c (label +:+ ".myshopify.com")) = true.
Proof.
  destruct shop as [[|c r]|]; simpl; try discriminate.
  intros H. apply andb_true_iff in H as [C H].
  apply shop_tail_shape in H as (label & -> & Hl).
  exists c, label. split; [reflexivity|]. split; [reflexivity|].
  rewrite string_forall_app.
  assert (Hc : is_host_char c = true).
  { unfold is_host_char, is_label_char. now rewrite C. }
  rewrite Hc. simpl.
  rewrite (string_forall_impl is_label_char is_host_char label); [reflexivity | | exact Hl].
  intros x Hx. unfold is_host_char. now rewrite Hx.
Qed.

Lemma saved_shop_insert t st state shop expires tokens scopes :
  saved_shop t (mkAuthKV (<[state := (shop, expires)]> (oauth_states st)) tokens scopes) state
  = if (t <? expires)%Z then Some shop else None.
Proof. unfold saved_shop. simpl. now rewrite lookup_insert_eq. Qed.

(** X20. The install endpoint.  It answers 500 without an API key or an
    application URL, and 400 for a shop that [isValidShop] refuses; in
    both cases nothing is stored.  Otherwise it redirects to the
    authorisation page of the shop itself: the location starts with
    [https://<shop>/admin/oauth/authorize?], where the shop consists of
    letters, digits, hyphens and dots and ends in [.myshopify.com], and
    ends with the state; the state is saved for that shop and is readable
    for the next 600 seconds only.  Tokens, scopes and the other pending
    states are never touched. *)
Theorem install_outcomes cfg shop state t st :
  let reply := fst (install cfg shop state t st) in
  let st' := snd (install cfg shop state t st) in
  shop_tokens st' = shop_tokens st /\ shop_scopes st' = shop_scopes st /\
  (forall other, other <> state -> oauth_states st' !! other = oauth_states st !! other) /\
  ((truthy_string (SHOPIFY_API_KEY cfg) = None \/ truthy_string (SHOPIFY_APP_URL cfg) = None) ->
   reply = Send 500 "Missing SHOPIFY_API_KEY or SHOPIFY_APP_URL" /\ st' = st) /\
  (forall key url,
     truthy_string (SHOPIFY_API_KEY cfg) = Some key ->
     truthy_string (SHOPIFY_APP_URL cfg) = Some url ->
     (isValidShop shop = false -> reply = Send 400 "Invalid shop parameter" /\ st' = st) /\
     (isValidShop shop = true ->
      exists c label rest,
        let s := String c (label +:+ ".myshopify.com") in
        shop = Some s /\ string_forall is_host_char s = true /\
        reply = Redirect ("https://" +:+ s +:+ "/admin/oauth/authorize?" +:+ rest
                          +:+ "&state=" +:+ state) /\
        forall t', saved_shop t' st' state = if (t' <? t + 600)%Z then Some s else None)).
Proof.
  intros reply st'. subst reply st'. unfold install.
  destruct (truthy_string (SHOPIFY_API_KEY cfg)) as [key|] eqn:Ek;
    [destruct (truthy_string (SHOPIFY_APP_URL cfg)) as [url|] eqn:Eu|].
  2,3: repeat split; intros; try reflexivity; try discriminate;
       match goal with H : _ \/ _ |- _ => idtac | _ => congruence end.
  destruct (isValidShop shop) eqn:Ev; simpl.
  - split; [reflexivity|]. split; [reflexivity|]. split.
    { intros other Ho. now rewrite lookup_insert_ne. }
    split; [intros [H|H]; discriminate|].
    intros key' url' Hk Hu. inversion Hk; inversion Hu; subst key' url'.
    split; [discriminate|]. intros _.
    destruct (isValidShop_some shop Ev) as (c & label & -> & _ & Hhost).
    exists c, label.
    exists ("client_id=" +:+ key +:+ "&scope=" +:+ encodeURIComponent (SHOPIFY_SCOPES cfg)
            +:+ "&redirect_uri=" +:+ encodeURIComponent (url +:+ "/api/auth/callback")).
    cbv zeta. split; [reflexivity|]. split; [exact Hhost|]. split.
    + unfold installUrl. cbn [default from_option]. unfold id. f_equal.
      rewrite !append_assoc. reflexivity.
    + intros t'. cbn [default from_option]. unfold id. apply saved_shop_insert.
  - split; [reflexivity|]. split; [reflexivity|]. split; [reflexivity|].
    split; [intros [H|H]; discriminate|].
    intros key' url' _ _. split; [auto | discriminate].
Qed.

Lemma registerAll_spec (reg : string -> bool) (topics : list string) :
  let made := fst (registerAll reg topics) in
  let ok := snd (registerAll reg topics) in
  (ok = true -> made = topics /\ forall topic, topic ∈ topics -> reg topic = true) /\
  (ok = false ->
   exists done failing rest,
     topics = (done ++ failing :: rest)%list /\ made = (done ++ [failing])%list /\
     reg failing = false /\ forall topic, topic ∈ done -> reg topic = true).
Proof.
  induction topics as [|topic rest IH]; simpl.
  - split; [|discriminate]. intros _. split; [reflexivity|].
    intros x Hx. now apply elem_of_nil in Hx.
  - destruct (reg topic) eqn:R.
    + destruct (registerAll reg rest) as [made ok]. simpl in *.
      destruct IH as [IHt IHf]. split.
      * intros Hok. destruct (IHt Hok) as [-> Hall]. split; [reflexivity|].
        intros x Hx. apply elem_of_cons in Hx as [->|Hx]; auto.
      * intros Hok. destruct (IHf Hok) as (done & failing & rest' & -> & -> & Hf & Hall).
        exists (topic :: done), failing, rest'. repeat split; try assumption.
        intros x Hx. apply elem_of_cons in Hx as [->|Hx]; auto.
    + simpl. split; [discriminate|]. intros _.
      exists [], topic, rest. repeat split; try assumption.
      intros x Hx. now apply elem_of_nil in Hx.
Qed.

(** The two ways a callback ends: a refusal, which leaves the store alone
    and registers nothing, or the passage of every check, after which the
    token and the scopes are stored and the registrations are attempted. *)
Lemma callback_cases cfg env params st :
  (exists status text,
     callback cfg env params st = (Send status text, st, []) /\
     Send status text <> Send 200 "App installed. You can close this window." /\
     Send status text <> Send 500 "Webhook registration failed") \/
  (callback cfg env params st = (Unhandled, st, [])) \/
  (exists key secret url shop code state token,
     truthy_string (SHOPIFY_API_KEY cfg) = Some key /\
     truthy_string (SHOPIFY_API_SECRET cfg) = Some secret /\
     truthy_string (SHOPIFY_APP_URL cfg) = Some url /\
     param "shop" params = Some shop /\ isValidShop (Some shop) = true /\
     truthy_string (param "code" params) = Some code /\
     truthy_string (param "state" params) = Some state /\
     saved_shop (a_now env) st state = Some shop /\
     verifyHmac (hmac_hex env) params (Some secret) = true /\
     exchange env shop code = ExchangeJson (Some token) /\ token <> "" /\
     let reg := fun topic => register_ok env shop token topic (url +:+ "/api/battle-webhook") in
     callback cfg env params st =
       (if snd (registerAll reg webhook_topics)
        then Send 200 "App installed. You can close this window."
        else Send 500 "Webhook registration failed",
        mkAuthKV (oauth_states st) (<[shop := token]> (shop_tokens st))
                 (<[shop := SHOPIFY_SCOPES cfg]> (shop_scopes st)),
        fst (registerAll reg webhook_topics))).
Proof.
  unfold callback.
  destruct (truthy_string (SHOPIFY_API_KEY cfg)) as [key|] eqn:Ek.
  2:{ left. do 2 eexists. split; [reflexivity|]. split; discriminate. }
  destruct (truthy_string (SHOPIFY_API_SECRET cfg)) as [secret|] eqn:Es.
  2:{ left. do 2 eexists. split; [reflexivity|]. split; discriminate. }
  destruct (truthy_string (SHOPIFY_APP_URL cfg)) as [url|] eqn:Eu.
  2:{ left. do 2 eexists. split; [reflexivity|]. split; discriminate. }
  destruct (isValidShop (param "shop" params)) eqn:Ev.
  2:{ left. do 2 eexists. split; [reflexivity|]. split; discriminate. }
  destruct (isValidShop_some _ Ev) as (c & label & Hshop & Htr & _).
  rewrite Htr.
  destruct (truthy_string (param "code" params)) as [code|] eqn:Ec.
  2:{ left. do 2 eexists. split; [reflexivity|]. split; discriminate. }
  destruct (truthy_string (param "state" params)) as [state|] eqn:Est.
  2:{ left. do 2 eexists. split; [reflexivity|]. split; discriminate. }
  destruct (saved_shop (a_now env) st state) as [saved|] eqn:Esv.
  2:{ left. do 2 eexists. split; [reflexivity|]. split; discriminate. }
  destruct (String.eqb_spec saved (String c (label +:+ ".myshopify.com"))) as [->|Hne];
    cbn [negb].
  2:{ left. do 2 eexists. split; [reflexivity|]. split; discriminate. }
  destruct (verifyHmac (hmac_hex env) params (Some secret)) eqn:Eh; cbn [negb].
  2:{ left. do 2 eexists. split; [reflexivity|]. split; discriminate. }
  destruct (exchange env _ code) as [|text|access] eqn:Ex.
  { right. left. reflexivity. }
  { left. do 2 eexists. split; [reflexivity|].
    split; intros H; inversion H as [H']; rewrite append_cons in H'; discriminate. }
  destruct (truthy_string access) as [token|] eqn:Et.
  2:{ left. do 2 eexists. split; [reflexivity|]. split; discriminate. }
  right. right.
  apply truthy_string_some in Et as [-> Ht].
  exists key, secret, url, (String c (label +:+ ".myshopify.com")), code, state, token.
  rewrite Hshop in Ev.
  split; [reflexivity|]. split; [reflexivity|]. split; [reflexivity|].
  split; [exact Hshop|]. split; [exact Ev|]. split; [reflexivity|].
  split; [reflexivity|]. split; [exact Esv|]. split; [exact Eh|].
  split; [exact Ex|]. split; [exact Ht|].
  cbv zeta.
  destruct (registerAll _ webhook_topics) as [made ok]. now destruct ok.
Qed.

(** X21. The callback writes only after every check has passed.  The
    pending states are never modified (a state is not consumed by its
    use).  Whenever the store is changed or the creation of a webhook is
    requested, the shop is a valid shop domain, the code and the state are
    present, the state was saved for that very shop and has not expired,
    the HMAC of the parameters verifies under the API secret, and the
    token endpoint returned a non-empty access token; what is written is
    that token and the configured scopes under the shop, and the tokens
    and scopes of other shops are kept. *)
Theorem callback_guard cfg env params st :
  let st' := snd (fst (callback cfg env params st)) in
  let made := snd (callback cfg env params st) in
  oauth_states st' = oauth_states st /\
  ((st' <> st \/ made <> []) ->
   exists secret shop code state token,
     truthy_string (SHOPIFY_API_SECRET cfg) = Some secret /\
     param "shop" params = Some shop /\ isValidShop (Some shop) = true /\
     truthy_string (param "code" params) = Some code /\
     truthy_string (param "state" params) = Some state /\
     saved_shop (a_now env) st state = Some shop /\
     verifyHmac (hmac_hex env) params (Some secret) = true /\
     exchange env shop code = ExchangeJson (Some token) /\ token <> "" /\
     shop_tokens st' !! shop = Some token /\
     shop_scopes st' !! shop = Some (SHOPIFY_SCOPES cfg) /\
     forall other, other <> shop ->
       shop_tokens st' !! other = shop_tokens st !! other /\
       shop_scopes st' !! other = shop_scopes st !! other).
Proof.
  intros st' made. subst st' made.
  destruct (callback_cases cfg env params st)
    as [(status & text & -> & _) | [-> | H]]; simpl.
  - split; [reflexivity|]. intros [H|H]; now contradiction H.
  - split; [reflexivity|]. intros [H|H]; now contradiction H.
  - destruct H as (key & secret & url & shop & code & state & token & Hk & Hs & Hu &
                   Hshop & Hv & Hc & Hst & Hsv & Hh & Hx & Ht & ->). simpl.
    split; [reflexivity|]. intros _.
    exists secret, shop, code, state, token.
    repeat (split; [assumption|]).
    rewrite !lookup_insert_eq. split; [reflexivity|]. split; [reflexivity|].
    intros other Ho. now rewrite !lookup_insert_ne.
Qed.

(** X22. A callback can be replayed: since the state stays in the store,
    the same request against the same outside world passes the same checks
    again, gives the same reply and the same registration requests, and
    leaves the store as the first run left it. *)
Theorem callback_replay cfg env params st :
  callback cfg env params (snd (fst (callback cfg env params st)))
  = callback cfg env params st.
Proof.
  destruct (callback_cases cfg env params st)
    as [(status & text & E & _) | [E | H]].
  - rewrite E at 1. simpl. reflexivity.
  - rewrite E at 1. simpl. reflexivity.
  - destruct H as (key & secret & url & shop & code & state & token & Hk & Hs & Hu &
                   Hshop & Hv & Hc & Hst & Hsv & Hh & Hx & Ht & E).
    cbv zeta in E. rewrite E. cbn [fst snd].
    set (st1 := mkAuthKV _ _ _).
    assert (Hsv1 : saved_shop (a_now env) st1 state = Some shop) by exact Hsv.
    unfold callback. rewrite Hk, Hs, Hu, Hshop, Hv, Hc, Hst, Hsv1.
    assert (Htr : truthy_string (Some shop) = Some shop).
    { destruct shop; [discriminate Hv | reflexivity]. }
    rewrite Htr, String.eqb_refl, Hh, Hx. cbn [negb].
    assert (Htok : truthy_string (Some token) = Some token)
      by now apply truthy_string_some.
    rewrite Htok. subst st1. cbn [oauth_states shop_tokens shop_scopes].
    rewrite !insert_insert_eq.
    destruct (registerAll _ webhook_topics) as [made ok]. now destruct ok.
Qed.

(** X23. The three webhooks are registered in the order [orders/paid],
    [orders/cancelled], [refunds/create], and the first failure ends the
    sequence.  The reply is 200 only if all three creations were requested
    and succeeded.  When a creation fails the reply is 500, the creations
    requested are those up to and including the failing one, the earlier
    ones succeeded, and the access token is in the store all the same. *)
Theorem webhook_registration cfg env params st :
  let reply := fst (fst (callback cfg env params st)) in
  let st' := snd (fst (callback cfg env params st)) in
  let made := snd (callback cfg env params st) in
  made `prefix_of` ["orders/paid"; "orders/cancelled"; "refunds/create"] /\
  (reply = Send 200 "App installed. You can close this window." ->
   made = ["orders/paid"; "orders/cancelled"; "refunds/create"] /\
   exists shop token url,
     param "shop" params = Some shop /\ shop_tokens st' !! shop = Some token /\
     truthy_string (SHOPIFY_APP_URL cfg) = Some url /\
     register_ok env shop token "orders/paid" (url +:+ "/api/battle-webhook") = true /\
     register_ok env shop token "orders/cancelled" (url +:+ "/api/battle-webhook")
       = true /\
     register_ok env shop token "refunds/create" (url +:+ "/api/battle-webhook")
       = true) /\
  (reply = Send 500 "Webhook registration failed" ->
   exists shop token url done failing,
     param "shop" params = Some shop /\ shop_tokens st' !! shop = Some token /\
     truthy_string (SHOPIFY_APP_URL cfg) = Some url /\
     made = (done ++ [failing])%list /\
     register_ok env shop token failing (url +:+ "/api/battle-webhook") = false /\
     forall topic, topic ∈ done ->
       register_ok env shop token topic (url +:+ "/api/battle-webhook") = true).
Proof.
  intros reply st' made. subst reply st' made.
  change ["orders/paid"; "orders/cancelled"; "refunds/create"] with webhook_topics.
  destruct (callback_cases cfg env params st)
    as [(status & text & -> & Hn1 & Hn2) | [-> | H]]; cbn [fst snd].
  - split; [apply prefix_nil|]. split; intros H; contradiction.
  - split; [apply prefix_nil|]. split; discriminate.
  - destruct H as (key & secret & url & shop & code & state & token & Hk & Hs & Hu &
                   Hshop & Hv & Hc & Hst & Hsv & Hh & Hx & Ht & ->). cbn [fst snd shop_tokens].
    set (reg := fun topic => register_ok env shop token topic (url +:+ "/api/battle-webhook")).
    destruct (registerAll_spec reg webhook_topics) as [Hok Hfail].
    cbv zeta in Hok, Hfail.
    destruct (snd (registerAll reg webhook_topics)) eqn:Eok.
    + destruct (Hok eq_refl) as [Hmade Hall]. rewrite Hmade.
      split; [reflexivity|]. split; [|discriminate].
      intros _. split; [reflexivity|].
      exists shop, token, url. rewrite lookup_insert_eq.
      split; [exact Hshop|]. split; [reflexivity|]. split; [exact Hu|].
      split; [apply (Hall "orders/paid"), list_elem_of_here|].
      split; [apply (Hall "orders/cancelled"), list_elem_of_further, list_elem_of_here|].
      apply (Hall "refunds/create").
      apply list_elem_of_further, list_elem_of_further, list_elem_of_here.
    + destruct (Hfail eq_refl) as (done & failing & rest & Htop & Hmade & Hf & Hall).
      rewrite Hmade. split.
      { rewrite Htop. apply prefix_app, prefix_cons, prefix_nil. }
      split; [discriminate|]. intros _.
      exists shop, token, url, done, failing. rewrite lookup_insert_eq.
      repeat split; auto.
Qed.

(** X24. The state issued by the install endpoint ties the callback to
    the shop and to the next 600 seconds.  After an install for a shop, a
    callback that carries the issued state is refused with 400 "Invalid
    OAuth state" when it names another shop or arrives 600 seconds or more
    after the install, and nothing is written.  A callback for the same
    shop within 600 seconds passes the state check: it is answered with
    401 when the HMAC does not verify, and when the HMAC verifies and the
    token endpoint returns a non-empty access token, that token is stored
    for the shop. *)
Theorem oauth_state_round_trip cfg env shop state t st params key secret url code :
  truthy_string (SHOPIFY_API_KEY cfg) = Some key ->
  truthy_string (SHOPIFY_API_SECRET cfg) = Some secret ->
  truthy_string (SHOPIFY_APP_URL cfg) = Some url ->
  isValidShop (Some shop) = true -> state <> "" ->
  param "state" params = Some state ->
  truthy_string (param "code" params) = Some code ->
  isValidShop (param "shop" params) = true ->
  let st1 := snd (install cfg (Some shop) state t st) in
  let r := callback cfg env params st1 in
  (((t + 600 <= a_now env)%Z \/ param "shop" params <> Some shop) ->
   r = (Send 400 "Invalid OAuth state", st1, [])) /\
  (((a_now env < t + 600)%Z /\ param "shop" params = Some shop) ->
   (verifyHmac (hmac_hex env) params (Some secret) = false ->
    r = (Send 401 "Invalid OAuth HMAC", st1, [])) /\
   (verifyHmac (hmac_hex env) params (Some secret) = true ->
    forall token, exchange env shop code = ExchangeJson (Some token) -> token <> "" ->
    shop_tokens (snd (fst r)) !! shop = Some token /\
    oauth_states (snd (fst r)) = oauth_states st1)).
Proof.
  intros Hk Hs Hu Hv Hstate Hps Hc Hvp st1 r.
  assert (Est1 : st1 = mkAuthKV (<[state := (shop, (t + 600)%Z)]> (oauth_states st))
                                (shop_tokens st) (shop_scopes st)).
  { subst st1. unfold install. now rewrite Hk, Hu, Hv. }
  assert (Hsaved : saved_shop (a_now env) st1 state =
                   if (a_now env <? t + 600)%Z then Some shop else None).
  { rewrite Est1. apply saved_shop_insert. }
  destruct (isValidShop_some _ Hvp) as (c & label & Hshop & Htr & _).
  assert (Hts : truthy_string (param "state" params) = Some state).
  { rewrite Hps. now apply truthy_string_some. }
  assert (Hr : r = match saved_shop (a_now env) st1 state with
                   | None => (Send 400 "Invalid OAuth state", st1, [])
                   | Some savedShop =>
                       if negb (String.eqb savedShop (String c (label +:+ ".myshopify.com")))
                       then (Send 400 "Invalid OAuth state", st1, [])
                       else if negb (verifyHmac (hmac_hex env) params (Some secret))
                       then (Send 401 "Invalid OAuth HMAC", st1, [])
                       else
                         match exchange env (String c (label +:+ ".myshopify.com")) code with
                         | ExchangeJson (Some tok) =>
                             if String.eqb tok "" then (Send 500 "Missing access token", st1, [])
                             else
                               (fst (fst r),
                                mkAuthKV (oauth_states st1)
                                  (<[String c (label +:+ ".myshopify.com") := tok]> (shop_tokens st1))
                                  (<[String c (label +:+ ".myshopify.com") := SHOPIFY_SCOPES cfg]>
                                     (shop_scopes st1)),
                                snd r)
                         | _ => r
                         end
                   end).
  { subst r. unfold callback. rewrite Hk, Hs, Hu, Hvp, Htr, Hc, Hts.
    destruct (saved_shop (a_now env) st1 state) as [saved|]; [|reflexivity].
    destruct (negb (String.eqb saved _)); [reflexivity|].
    destruct (negb (verifyHmac _ _ _)); [reflexivity|].
    destruct (exchange env _ code) as [|text|[tok|]]; try reflexivity.
    cbn [truthy_string]. destruct (String.eqb tok ""); [reflexivity|].
    destruct (registerAll _ webhook_topics) as [made ok]. now destruct ok. }
  rewrite Hsaved in Hr. split.
  - intros [Hlate|Hother].
    + apply Z.ltb_ge in Hlate. now rewrite Hlate in Hr.
    + destruct (a_now env <? t + 600)%Z; [|exact Hr].
      destruct (String.eqb_spec shop (String c (label +:+ ".myshopify.com"))) as [E|_];
        [|exact Hr].
      exfalso. apply Hother. now rewrite Hshop, E.
  - intros [Hearly Hsame]. apply Z.ltb_lt in Hearly. rewrite Hearly in Hr.
    assert (E : shop = String c (label +:+ ".myshopify.com")) by congruence.
    rewrite <- E in Hr. rewrite String.eqb_refl in Hr. cbn [negb] in Hr. split.
    + intros Hh. now rewrite Hh in Hr.
    + intros Hh token Hx Ht. rewrite Hh, Hx in Hr. cbn [negb] in Hr.
      destruct (String.eqb token "") eqn:Et;
        [apply String.eqb_eq in Et; contradiction|].
      rewrite Hr. cbn [fst snd shop_tokens oauth_states].
      now rewrite lookup_insert_eq.
Qed.

(** ** Credentials of the remote lookup *)

(** X25. The credentials [getProductSide] sends to the Admin API, from
    [getShopToken] and [shopifyGraphQL] together.  For a request that
    names its shop, the API of that shop is asked with the token stored
    for it, whatever the configuration says, and with the configured admin
    token only when no token is stored; without either the lookup throws.
    For a request that names no shop, the configured store domain is asked
    with the configured admin token, tokens in the store are not
    consulted, and the lookup throws when either is missing. *)
Theorem remote_lookup_credentials cfg auth api shopDomain pid :
  let answer := fun shop token =>
    match api shop token pid with
    | Some product => RemoteData product
    | None => RemoteError
    end in
  (forall shop token,
     truthy_string shopDomain = Some shop ->
     truthy_string (shop_tokens auth !! shop) = Some token ->
     remote_lookup cfg auth api shopDomain pid = answer shop token) /\
  (forall shop,
     truthy_string shopDomain = Some shop ->
     truthy_string (shop_tokens auth !! shop) = None ->
     remote_lookup cfg auth api shopDomain pid =
       match truthy_string (SHOPIFY_ADMIN_TOKEN cfg) with
       | Some token => answer shop token
       | None => RemoteError
       end) /\
  (truthy_string shopDomain = None ->
   remote_lookup cfg auth api shopDomain pid =
     match truthy_string (SHOPIFY_STORE_DOMAIN cfg), truthy_string (SHOPIFY_ADMIN_TOKEN cfg) with
     | Some shop, Some token => answer shop token
     | _, _ => RemoteError
     end).
Proof.
  assert (Hidem : forall v s, truthy_string v = Some s -> truthy_string (Some s) = Some s).
  { intros v s H. apply truthy_string_some in H as [_ H]. now apply truthy_string_some. }
  cbv zeta. unfold remote_lookup, shopifyGraphQL, getShopToken.
  split; [|split].
  - intros shop token Hs Ht. rewrite Hs, Ht. now rewrite (Hidem _ _ Ht).
  - intros shop Hs Ht. rewrite Hs, Ht.
    destruct (truthy_string (SHOPIFY_ADMIN_TOKEN cfg)) as [token|] eqn:Ea; [|reflexivity].
    now rewrite (Hidem _ _ Ea).
  - intros Hs. rewrite Hs.
    destruct (truthy_string (SHOPIFY_STORE_DOMAIN cfg)) as [shop|]; [|reflexivity].
    destruct (truthy_string (SHOPIFY_ADMIN_TOKEN cfg)) as [token|] eqn:Ea; [|reflexivity].
    now rewrite (Hidem _ _ Ea).
Qed.

(** X26. After a callback that answered 200, the lookups for that shop
    are made with the access token the token endpoint returned: a
    configured admin token or store domain plays no part for that shop,
    and the credentials used for other shops are as before. *)
Theorem installed_token_used cfg env params st api pid :
  fst (fst (callback cfg env params st)) =
    Send 200 "App installed. You can close this window." ->
  let st' := snd (fst (callback cfg env params st)) in
  exists shop code token,
    param "shop" params = Some shop /\
    truthy_string (param "code" params) = Some code /\
    exchange env shop code = ExchangeJson (Some token) /\
    getShopToken cfg st' (Some shop) = Some token /\
    remote_lookup cfg st' api (Some shop) pid =
      match api shop token pid with
      | Some product => RemoteData product
      | None => RemoteError
      end /\
    forall other, other <> shop ->
      remote_lookup cfg st' api (Some other) pid = remote_lookup cfg st api (Some other) pid.
Proof.
  intros Hreply st'. subst st'.
  destruct (callback_cases cfg env params st)
    as [(status & text & E & Hn & _) | [E | H]].
  - rewrite E in Hreply. simpl in Hreply. contradiction.
  - rewrite E in Hreply. discriminate.
  - destruct H as (key & secret & url & shop & code & state & token & Hk & Hs & Hu &
                   Hshop & Hv & Hc & Hst & Hsv & Hh & Hx & Ht & E).
    cbv zeta in E. rewrite E. cbn [fst snd]. clear E Hreply.
    exists shop, code, token.
    assert (Htr : truthy_string (Some shop) = Some shop).
    { destruct shop; [discriminate Hv | reflexivity]. }
    assert (Htok : truthy_string (Some token) = Some token)
      by now apply truthy_string_some.
    split; [exact Hshop|]. split; [exact Hc|]. split; [exact Hx|].
    assert (Hget : getShopToken cfg
              (mkAuthKV (oauth_states st) (<[shop := token]> (shop_tokens st))
                        (<[shop := SHOPIFY_SCOPES cfg]> (shop_scopes st)))
              (Some shop) = Some token).
    { unfold getShopToken. rewrite Htr. cbn [shop_tokens].
      now rewrite lookup_insert_eq, Htok. }
    split; [exact Hget|]. split.
    + unfold remote_lookup. rewrite Hget. unfold shopifyGraphQL. now rewrite Htr, Htok.
    + intros other Ho. unfold remote_lookup, getShopToken.
      destruct (truthy_string (Some other)) as [o|] eqn:Eo; [|reflexivity].
      apply truthy_string_some in Eo as [Eo _]. inversion Eo; subst o.
      cbn [shop_tokens]. now rewrite lookup_insert_ne by congruence.
Qed.

Lemma paid_dropped env req p st oid :
  method req = "POST" -> hmac_valid req = true ->
  topic req = Some "orders/paid" -> body req = BodyObject p ->
  truthy_id (p_id p) = Some oid -> orders st !! oid = None ->
  classifiable env (shop_domain req) st (line_items p) = false ->
  fst (webhook env req st) = 500 /\
  orders (snd (webhook env req st)) = orders st /\
  totals (snd (webhook env req st)) = totals st.
Proof.
  intros Hm Hs Ht Hb Hid Hr Hc.
  assert (Hw : webhook env req st =
               match handleOrderPaid_any env p (shop_domain req) st with
               | (st', Throw) => (500, st')
               | (st', Ok _) => (200, st')
               end).
  { unfold webhook, route. now rewrite Hm, Hs, Hb, Ht. }
  rewrite Hw. clear Hw.
  destruct (line_items_iterable p) eqn:Hit.
  2:{ rewrite (handleOrderPaid_any_broken env p (shop_domain req) st Hit), Hid, Hr.
      now repeat split. }
  rewrite (handleOrderPaid_any_iterable env p (shop_domain req) st Hit).
  rewrite (handleOrderPaid_fresh env p (shop_domain req) st oid Hid Hr).
  apply buildOrderContribution_throws in Hc.
  pose proof (buildOrderContribution_store env (shop_domain req) (line_items p) st)
    as (Ho & Htot & _).
  destruct (buildOrderContribution env (line_items p) (shop_domain req) st)
    as [stb [c|]]; simpl in *; [discriminate|]. auto.
Qed.

(** X27. Without credentials nothing is counted.  When no token can be
    found for the request's shop (none stored and no admin token
    configured), or the request names no shop and no store domain is
    configured, a signed paid event for a new order that has a line item
    whose product is not in the classification cache is answered with 500
    and leaves the ledger and the totals as they were, whatever the Admin
    API would have said. *)
Theorem paid_without_credentials cfg auth api t req p st oid item pid :
  method req = "POST" -> hmac_valid req = true ->
  topic req = Some "orders/paid" -> body req = BodyObject p ->
  truthy_id (p_id p) = Some oid -> orders st !! oid = None ->
  item ∈ line_items p -> truthy_id (product_id item) = Some pid ->
  cache_get t (products st) (cacheKey (shop_domain req) pid) = None ->
  (getShopToken cfg auth (shop_domain req) = None \/
   (truthy_string (shop_domain req) = None /\
    truthy_string (SHOPIFY_STORE_DOMAIN cfg) = None)) ->
  fst (webhook (webhook_env cfg auth api t) req st) = 500 /\
  orders (snd (webhook (webhook_env cfg auth api t) req st)) = orders st /\
  totals (snd (webhook (webhook_env cfg auth api t) req st)) = totals st.
Proof.
  intros Hm Hs Ht Hb Hid Hr Hin Hpid Hmiss Hcred.
  apply (paid_dropped _ req p st oid Hm Hs Ht Hb Hid Hr).
  apply classifiable_false. exists item. split; [exact Hin|].
  unfold kept. rewrite Hpid, sideOf_eq. cbn [now remote webhook_env].
  rewrite Hmiss.
  assert (Hremote : remote_lookup cfg auth api (shop_domain req) pid = RemoteError).
  { unfold remote_lookup, shopifyGraphQL. destruct Hcred as [Hnone|[Hshop Hdom]].
    - rewrite Hnone. cbn [truthy_string].
      now destruct (truthy_string (shop_domain req)),
                   (truthy_string (SHOPIFY_STORE_DOMAIN cfg)).
    - now rewrite Hshop, Hdom. }
  now rewrite Hremote.
Qed.

(** ** The signature of a webhook request *)

Lemma verifyWebhook_true cfg h rawBody hmacHeader :
  verifyWebhook cfg h rawBody hmacHeader = true <->
  exists secret header,
    SHOPIFY_WEBHOOK_SECRET cfg = Some secret /\ secret <> "" /\
    hmacHeader = Some header /\ header <> "" /\ h secret rawBody = header.
Proof.
  unfold verifyWebhook.
  destruct (truthy_string (SHOPIFY_WEBHOOK_SECRET cfg)) as [sec|] eqn:Es.
  2:{ split; [discriminate|]. intros (sec & hd & H1 & H2 & _).
      assert (truthy_string (SHOPIFY_WEBHOOK_SECRET cfg) = Some sec)
        by now apply truthy_string_some.
      congruence. }
  destruct (truthy_string hmacHeader) as [hd|] eqn:Eh.
  2:{ split; [discriminate|]. intros (sec' & hd & _ & _ & H1 & H2 & _).
      assert (truthy_string hmacHeader = Some hd) by now apply truthy_string_some.
      congruence. }
  apply truthy_string_some in Es as [Es Hs]. apply truthy_string_some in Eh as [Eh Hh].
  cbv zeta. rewrite string_length_eqb, String.eqb_eq. split.
  - intros H. now exists sec, hd.
  - intros (sec' & hd' & H1 & _ & H2 & _ & H3). congruence.
Qed.

Lemma webhook_status env req st :
  method req = "POST" ->
  (fst (webhook env req st) = 401 <-> hmac_valid req = false).
Proof.
  intros Hm. unfold webhook. rewrite Hm. simpl.
  destruct (hmac_valid req); simpl; [|tauto].
  split; [|discriminate].
  destruct (body req); [discriminate| |];
    destruct (route env req st) as [st' [u|]]; discriminate.
Qed.

(** X28. The webhook endpoint fails closed on the signature.  A POST is
    answered with 401 exactly when it is not signed, where signed means
    that the webhook secret is configured and not empty, the signature
    header is present and not empty, and the header is the keyed hash of
    the raw body under the secret; so with no secret configured every POST
    is refused.  A request answered with 401 leaves the store alone, and
    whenever the store is changed the request was a signed POST whose raw
    body parses to an object.  The signature covers the raw body only: the
    topic and shop headers do not enter the check. *)
Theorem webhook_raw_signature cfg h parse env raw st :
  let r := webhook_raw cfg h parse env raw st in
  let signed := fun body header =>
    exists secret hd,
      SHOPIFY_WEBHOOK_SECRET cfg = Some secret /\ secret <> "" /\
      header = Some hd /\ hd <> "" /\ h secret body = hd in
  (raw_method raw = "POST" -> (fst r = 401 <-> ~ signed (raw_body raw) (raw_hmac raw))) /\
  (fst r = 401 -> snd r = st) /\
  (snd r <> st ->
   raw_method raw = "POST" /\ signed (raw_body raw) (raw_hmac raw) /\
   exists p, parse (raw_body raw) = BodyObject p) /\
  (forall topic' shop',
     raw_method raw = "POST" ->
     (fst r = 401 <->
      fst (webhook_raw cfg h parse env
             (mkRawRequest (raw_method raw) (raw_hmac raw) topic' shop' (raw_body raw)) st)
      = 401)).
Proof.
  intros r signed. subst r signed. cbv beta.
  assert (Hst : forall raw',
            raw_method raw' = "POST" ->
            (fst (webhook_raw cfg h parse env raw' st) = 401 <->
             verifyWebhook cfg h (raw_body raw') (raw_hmac raw') = false)).
  { intros raw' Hm. unfold webhook_raw. now rewrite webhook_status. }
  split; [|split; [|split]].
  - intros Hm. rewrite (Hst raw Hm), <- verifyWebhook_true.
    destruct (verifyWebhook cfg h (raw_body raw) (raw_hmac raw)); split;
      congruence.
  - unfold webhook_raw, webhook. simpl.
    destruct (negb (String.eqb (raw_method raw) "POST")); [reflexivity|].
    destruct (verifyWebhook cfg h (raw_body raw) (raw_hmac raw)); simpl; [|reflexivity].
    destruct (parse (raw_body raw)); [discriminate| |];
      destruct (route env _ st) as [st' [u|]]; discriminate.
  - intros Hch. unfold webhook_raw, webhook in Hch. simpl in Hch.
    destruct (String.eqb_spec (raw_method raw) "POST") as [Hm|Hm]; simpl in Hch;
      [|now contradiction Hch].
    destruct (verifyWebhook cfg h (raw_body raw) (raw_hmac raw)) eqn:Ev; simpl in Hch;
      [|now contradiction Hch].
    split; [exact Hm|]. split; [now apply verifyWebhook_true|].
    destruct (parse (raw_body raw)) as [| |p] eqn:Ep.
    + now contradiction Hch.
    + exfalso. apply Hch.
      destruct (known_topic (mkRequest (raw_method raw) true (raw_topic raw) (raw_shop raw)
                                       BodyNull)) eqn:Hk.
      * rewrite (route_null_body env _ st Hk eq_refl). reflexivity.
      * rewrite (route_unknown_topic env _ st Hk). reflexivity.
    + now exists p.
  - intros topic' shop' Hm. rewrite (Hst raw Hm).
    now rewrite (Hst (mkRawRequest _ _ topic' shop' _) Hm).
Qed.

(** ** Amounts *)

Lemma remove_commas_app (a b : string) :
  remove_commas (a +:+ b) = remove_commas a +:+ remove_commas b.
Proof.
  induction a as [|c a IH]; [reflexivity|].
  rewrite append_cons. cbn [remove_commas].
  destruct (nat_of_ascii c =? 44)%nat; [exact IH|].
  rewrite append_cons. now rewrite IH.
Qed.

(** X29. [parseMoney] always gives a number, never [NaN]: what
    [parseFloat] cannot read counts as zero, and an absent or empty value
    is read as the string [0].  Commas are dropped before parsing, so a
    value with a comma inside is read as the value without it. *)
Theorem parseMoney_number (parseFloat : string -> num) (value : option string)
    (a b : string) :
  (exists q, parseMoney parseFloat value = Num q) /\
  (parseFloat (remove_commas (default "0" (truthy_string value))) = NaN ->
   parseMoney parseFloat value = zero) /\
  parseMoney parseFloat None = parseMoney parseFloat (Some "0") /\
  parseMoney parseFloat (Some "") = parseMoney parseFloat (Some "0") /\
  (a +:+ b <> "" ->
   parseMoney parseFloat (Some (a +:+ "," +:+ b)) = parseMoney parseFloat (Some (a +:+ b))).
Proof.
  split; [|split; [|split; [|split]]].
  - unfold parseMoney. cbv zeta.
    destruct (parseFloat _) as [q|]; [now exists q | now eexists].
  - unfold parseMoney. cbv zeta. now intros ->.
  - reflexivity.
  - reflexivity.
  - intros Hne. unfold parseMoney.
    assert (H1 : truthy_string (Some (a +:+ "," +:+ b)) = Some (a +:+ "," +:+ b)).
    { apply truthy_string_some. split; [reflexivity|].
      destruct a; [rewrite append_nil_l, append_cons | rewrite append_cons]; discriminate. }
    assert (H2 : truthy_string (Some (a +:+ b)) = Some (a +:+ b))
      by now apply truthy_string_some.
    rewrite H1, H2. cbn [default from_option]. unfold id.
    rewrite !remove_commas_app. reflexivity.
Qed.

(** ** Percent encoding *)

Lemma encoded_byte_safe (c : ascii) :
  is_unreserved c = false ->
  (is_url_safe (hex_digit (nat_of_ascii c / 16)) &&
   is_url_safe (hex_digit (nat_of_ascii c mod 16)))%bool = true.
Proof.
  intros _. destruct c as [[] [] [] [] [] [] [] []]; vm_compute; reflexivity.
Qed.

Lemma encodeURIComponent_chars (s : string) :
  string_forall is_url_safe (encodeURIComponent s) = true.
Proof.
  induction s as [|c r IH]; [reflexivity|]. cbn [encodeURIComponent].
  destruct (is_unreserved c) eqn:U.
  - cbn [string_forall]. unfold is_url_safe at 1. now rewrite U, IH.
  - cbv zeta. cbn [string_forall].
    pose proof (encoded_byte_safe c U) as H. apply andb_true_iff in H as [H1 H2].
    rewrite H1, H2, IH. reflexivity.
Qed.

Lemma encodeURIComponent_app (a b : string) :
  encodeURIComponent (a +:+ b) = encodeURIComponent a +:+ encodeURIComponent b.
Proof.
  induction a as [|c r IH]; [reflexivity|].
  rewrite append_cons. cbn [encodeURIComponent].
  destruct (is_unreserved c); cbv zeta; rewrite IH; now rewrite ?append_cons.
Qed.

Lemma url_safe_no_delimiter (s : string) :
  string_forall is_url_safe s = true -> string_forall no_delimiter s = true.
Proof.
  apply string_forall_impl.
  intros c. destruct c as [[] [] [] [] [] [] [] []]; vm_compute; congruence.
Qed.

(** X30. The location the install endpoint redirects to carries the
    scopes and the redirect URI percent-encoded: both values consist of
    unreserved characters and percent signs, so that neither can add an
    [&], [=], [#], [/] or [?] to the query; the redirect URI is the encoded
    application URL followed by the encoded path [/api/auth/callback], and
    without configured scopes the default scopes are sent with their comma
    encoded.  The API key and the state are put in as they are. *)
Theorem installUrl_encoded cfg key url shop state :
  exists scope redirect,
    installUrl cfg key url shop state =
      "https://" +:+ shop +:+ "/admin/oauth/authorize?client_id=" +:+ key
      +:+ "&scope=" +:+ scope +:+ "&redirect_uri=" +:+ redirect +:+ "&state=" +:+ state /\
    string_forall is_url_safe scope = true /\ string_forall no_delimiter scope = true /\
    string_forall is_url_safe redirect = true /\ string_forall no_delimiter redirect = true /\
    redirect = encodeURIComponent url +:+ "%2Fapi%2Fauth%2Fcallback" /\
    (string_forall is_unreserved (SHOPIFY_SCOPES cfg) = true -> scope = SHOPIFY_SCOPES cfg) /\
    (truthy_string (SHOPIFY_SCOPES_VAR cfg) = None -> scope = "read_orders%2Cread_products").
Proof.
  exists (encodeURIComponent (SHOPIFY_SCOPES cfg)),
         (encodeURIComponent (url +:+ "/api/auth/callback")).
  split; [reflexivity|].
  split; [apply encodeURIComponent_chars|].
  split; [apply url_safe_no_delimiter, encodeURIComponent_chars|].
  split; [apply encodeURIComponent_chars|].
  split; [apply url_safe_no_delimiter, encodeURIComponent_chars|].
  split; [now rewrite encodeURIComponent_app|]. split.
  - generalize (SHOPIFY_SCOPES cfg). intros s.
    induction s as [|c r IH]; [reflexivity|]. cbn [string_forall encodeURIComponent].
    intros H. apply andb_true_iff in H as [U H]. rewrite U. now rewrite IH.
  - intros H. unfold SHOPIFY_SCOPES. rewrite H. reflexivity.
Qed.

(** ** Instances of the further properties on the sample shop *)

Lemma webhook_other_topics_witness :
  method unknown_topic_request = "POST" /\ hmac_valid unknown_topic_request = true /\
  body unknown_topic_request <> BodyMalformed /\
  known_topic unknown_topic_request = false /\
  webhook sample_env unknown_topic_request empty_kv = (200, empty_kv).
Proof.
  assert (Hb : body unknown_topic_request <> BodyMalformed) by (simpl; discriminate).
  split; [reflexivity|]. split; [reflexivity|]. split; [exact Hb|].
  split; [reflexivity|].
  exact (proj1 (webhook_other_topics sample_env unknown_topic_request empty_kv
                  eq_refl eq_refl Hb) eq_refl).
Defined.




Lemma cached_side_served_witness :
  cache_get (now sample_env) (products empty_kv) (cacheKey sample_shop 55) = None /\
  snd (getProductSide sample_env 55 sample_shop empty_kv) = Ok (Some Sweet) /\
  (now failing_env < now sample_env + 86400)%Z /\
  getProductSide failing_env 55 sample_shop (fst (getProductSide sample_env 55 sample_shop empty_kv))
    = (fst (getProductSide sample_env 55 sample_shop empty_kv), Ok (Some Sweet)).
Proof.
  assert (Hlt : (now failing_env < now sample_env + 86400)%Z) by (simpl; lia).
  split; [reflexivity|]. split; [reflexivity|]. split; [exact Hlt|].
  exact (proj1 (cached_side_served sample_env 55 sample_shop empty_kv Sweet eq_refl eq_refl)
           failing_env Hlt).
Defined.


Lemma totals_stamped_witness :
  totals (snd (webhook sample_env sample_paid empty_kv)) <> totals empty_kv /\
  t_lastUpdated (totals (snd (webhook sample_env sample_paid empty_kv))) = Some 1000.
Proof.
  assert (Hn : totals (snd (webhook sample_env sample_paid empty_kv)) <> totals empty_kv)
    by (vm_compute; discriminate).
  split; [exact Hn|].
  exact (proj1 (totals_stamped sample_env sample_paid empty_kv Hn)).
Defined.

Lemma refund_without_effect_witness :
  (forall oid r ri,
     truthy_id (p_order_id refund_unknown_line) = Some oid ->
     orders paid_store !! oid = Some r ->
     ri ∈ refund_line_items refund_unknown_line ->
     r_lineItems r !! line_item_id ri = None \/ truthy (rf_quantity ri) = false) /\
  handleRefundCreate sample_env refund_unknown_line paid_store = (paid_store, Ok tt).
Proof.
  assert (H : forall oid r ri,
     truthy_id (p_order_id refund_unknown_line) = Some oid ->
     orders paid_store !! oid = Some r ->
     ri ∈ refund_line_items refund_unknown_line ->
     r_lineItems r !! line_item_id ri = None \/ truthy (rf_quantity ri) = false).
  { intros oid r ri Hid Ho Hin. simpl in Hid. inversion Hid; subst oid.
    assert (Hr : orders paid_store !! 1001 = Some sample_record) by reflexivity.
    rewrite Hr in Ho. inversion Ho; subst r.
    simpl in Hin. apply list_elem_of_singleton in Hin. subst ri.
    left. reflexivity. }
  split; [exact H|].
  exact (refund_without_effect sample_env refund_unknown_line paid_store H).
Defined.

Lemma paid_then_cancelled_witness :
  truthy_id (p_id paid_payload) = Some 1001 /\
  orders empty_kv !! 1001 = None /\
  snd (buildOrderContribution sample_env (line_items paid_payload) sample_shop empty_kv)
    = Ok sample_contribution /\
  finite (c_sweet sample_contribution) /\ finite (c_savoury sample_contribution) /\
  orders (fst (handleOrderCancelled sample_env paid_payload
                 (fst (handleOrderPaid sample_env paid_payload sample_shop empty_kv))))
    = orders empty_kv.
Proof.
  assert (Hs : finite (c_sweet sample_contribution)) by (eexists; reflexivity).
  assert (Hv : finite (c_savoury sample_contribution)) by (eexists; reflexivity).
  split; [reflexivity|]. split; [reflexivity|]. split; [reflexivity|].
  split; [exact Hs|]. split; [exact Hv|].
  exact (proj1 (paid_then_cancelled sample_env sample_env paid_payload sample_shop empty_kv
                  1001 sample_contribution eq_refl eq_refl eq_refl Hs Hv)).
Defined.

Lemma refund_proportional_witness :
  quantity sample_line = Num 2 /\ revenue sample_line = Num 20 /\
  remaining sample_line = Num 20 /\ (0 < 1)%Q /\ (0 < 2)%Q /\ (0 < 20)%Q /\
  exists amt rem' : Q,
    refundAmount sample_line (Num 1) = Num amt /\
    remaining (refundLine sample_line (Num 1)) = Num rem' /\
    ((1 <= 2)%Q -> (amt == 20 * (1 / 2))%Q /\ (rem' == 20 - 20 * (1 / 2))%Q) /\
    ((2 <= 1)%Q -> (amt == 20)%Q /\ (rem' == 0)%Q).
Proof.
  split; [reflexivity|]. split; [reflexivity|]. split; [reflexivity|].
  split; [reflexivity|]. split; [reflexivity|]. split; [reflexivity|].
  exact (refund_proportional sample_line 1 2 20 eq_refl eq_refl eq_refl
           eq_refl eq_refl eq_refl).
Defined.

Lemma last_item_with_id_wins_witness :
  snd (buildOrderContribution sample_env
         ([sample_item_same_id] ++ sample_item :: [sample_item2]) sample_shop empty_kv)
    = Ok same_id_contribution /\
  kept sample_env sample_shop empty_kv sample_item = Ok (Some Sweet) /\
  (forall i, i ∈ [sample_item2] -> li_id i = li_id sample_item ->
             kept sample_env sample_shop empty_kv i = Ok None) /\
  c_lineItems same_id_contribution !! li_id sample_item =
    Some (mkLine Sweet (li_quantity sample_item) (lineTotal sample_item)
            (lineTotal sample_item)).
Proof.
  assert (H : forall i, i ∈ [sample_item2] -> li_id i = li_id sample_item ->
                        kept sample_env sample_shop empty_kv i = Ok None).
  { intros i Hi Hid. apply list_elem_of_singleton in Hi. subst i. discriminate Hid. }
  split; [reflexivity|]. split; [reflexivity|]. split; [exact H|].
  exact (proj1 (last_item_with_id_wins sample_env sample_shop empty_kv
                  [sample_item_same_id] sample_item [sample_item2] Sweet
                  same_id_contribution eq_refl eq_refl H)).
Defined.

Lemma buildQueryString_order_witness :
  NoDup (map fst [("shop", "shop.myshopify.com"); ("code", "abc")]) /\
  [("shop", "shop.myshopify.com"); ("code", "abc")]
    ≡ₚ [("code", "abc"); ("shop", "shop.myshopify.com")] /\
  buildQueryString [("shop", "shop.myshopify.com"); ("code", "abc")] =
  buildQueryString [("code", "abc"); ("shop", "shop.myshopify.com")].
Proof.
  assert (Hnd : NoDup (map fst [("shop", "shop.myshopify.com"); ("code", "abc")])).
  { simpl. apply NoDup_cons. split; [|apply NoDup_singleton].
    intros H. apply list_elem_of_singleton in H. discriminate. }
  assert (Hp : [("shop", "shop.myshopify.com"); ("code", "abc")]
                 ≡ₚ [("code", "abc"); ("shop", "shop.myshopify.com")])
    by apply Permutation_swap.
  split; [exact Hnd|]. split; [exact Hp|].
  exact (proj1 (buildQueryString_order _ _ Hnd Hp)).
Defined.

Lemma buildQueryString_ambiguous_witness :
  key_le "code" "shop" /\ "code" <> "shop" /\
  buildQueryString [("code", "abc&shop=x")] =
  buildQueryString [("code", "abc"); ("shop", "x")].
Proof.
  assert (Hne : "code" <> "shop") by discriminate.
  split; [reflexivity|]. split; [exact Hne|].
  exact (buildQueryString_ambiguous "code" "abc" "shop" "x" eq_refl Hne).
Defined.

Lemma oauth_state_round_trip_witness :
  truthy_string (SHOPIFY_API_KEY sample_config) = Some "key" /\
  truthy_string (SHOPIFY_API_SECRET sample_config) = Some "secret" /\
  truthy_string (SHOPIFY_APP_URL sample_config) = Some "https://app.example" /\
  isValidShop (Some "shop.myshopify.com") = true /\ "5f3c" <> "" /\
  param "state" sample_params = Some "5f3c" /\
  truthy_string (param "code" sample_params) = Some "abc" /\
  isValidShop (param "shop" sample_params) = true /\
  ((a_now sample_auth_env < 1000 + 600)%Z /\
   param "shop" sample_params = Some "shop.myshopify.com") /\
  verifyHmac (hmac_hex sample_auth_env) sample_params (Some "secret") = true /\
  shop_tokens installed_store !! "shop.myshopify.com" = Some "token-1".
Proof.
  assert (Hst : "5f3c" <> "") by discriminate.
  assert (Ht : "token-1" <> "") by discriminate.
  assert (Hin : (a_now sample_auth_env < 1000 + 600)%Z /\
                param "shop" sample_params = Some "shop.myshopify.com")
    by (split; [simpl; lia | reflexivity]).
  split; [reflexivity|]. split; [reflexivity|]. split; [reflexivity|].
  split; [reflexivity|]. split; [exact Hst|]. split; [reflexivity|].
  split; [reflexivity|]. split; [reflexivity|]. split; [exact Hin|].
  split; [reflexivity|].
  destruct (oauth_state_round_trip sample_config sample_auth_env "shop.myshopify.com"
              "5f3c" 1000 empty_auth sample_params "key" "secret" "https://app.example"
              "abc" eq_refl eq_refl eq_refl eq_refl Hst eq_refl eq_refl eq_refl)
    as [_ H].
  destruct (H Hin) as [_ H2].
  exact (proj1 (H2 eq_refl "token-1" eq_refl Ht)).
Defined.

Lemma installed_token_used_witness :
  fst (fst (callback sample_config sample_auth_env sample_params installing_store)) =
    Send 200 "App installed. You can close this window." /\
  exists shop code token,
    param "shop" sample_params = Some shop /\
    truthy_string (param "code" sample_params) = Some code /\
    exchange sample_auth_env shop code = ExchangeJson (Some token) /\
    getShopToken sample_config installed_store (Some shop) = Some token /\
    remote_lookup sample_config installed_store sample_api (Some shop) 55 =
      match sample_api shop token 55 with
      | Some product => RemoteData product
      | None => RemoteError
      end /\
    forall other, other <> shop ->
      remote_lookup sample_config installed_store sample_api (Some other) 55 =
      remote_lookup sample_config installing_store sample_api (Some other) 55.
Proof.
  split; [reflexivity|].
  exact (installed_token_used sample_config sample_auth_env sample_params installing_store
           sample_api 55 eq_refl).
Defined.

Lemma paid_without_credentials_witness :
  method sample_paid = "POST" /\ hmac_valid sample_paid = true /\
  topic sample_paid = Some "orders/paid" /\ body sample_paid = BodyObject paid_payload /\
  truthy_id (p_id paid_payload) = Some 1001 /\ orders empty_kv !! 1001 = None /\
  sample_item ∈ line_items paid_payload /\
  truthy_id (product_id sample_item) = Some 55 /\
  cache_get 1000 (products empty_kv) (cacheKey (shop_domain sample_paid) 55) = None /\
  getShopToken sample_config empty_auth (shop_domain sample_paid) = None /\
  fst (webhook (webhook_env sample_config empty_auth sample_api 1000) sample_paid empty_kv)
    = 500.
Proof.
  assert (Hin : sample_item ∈ line_items paid_payload) by apply list_elem_of_here.
  split; [reflexivity|]. split; [reflexivity|]. split; [reflexivity|].
  split; [reflexivity|]. split; [reflexivity|]. split; [reflexivity|].
  split; [exact Hin|]. split; [reflexivity|]. split; [reflexivity|].
  split; [reflexivity|].
  exact (proj1 (paid_without_credentials sample_config empty_auth sample_api 1000
                  sample_paid paid_payload empty_kv 1001 sample_item 55
                  eq_refl eq_refl eq_refl eq_refl eq_refl eq_refl Hin eq_refl eq_refl
                  (or_introl eq_refl))).
Defined.

Lemma verifyHmac_coverage_witness :
  buildQueryString [("shop", "shop.myshopify.com"); ("code", "abc")]
    = "code=abc&shop=shop.myshopify.com" /\
  verifyHmac (fun _ message => message) signed_params (Some "secret") = true /\
  verifyHmac (fun _ message => message)
    [("hmac", "code=abc&shop=shop.myshopify.com"); ("shop", "shop.myshopify.com");
     ("code", "abc")] (Some "secret") = true /\
  verifyHmac (fun _ message => message)
    [("hmac", "code=abc&hmac=code=abc&shop=shop.myshopify.com&shop=shop.myshopify.com");
     ("shop", "shop.myshopify.com"); ("code", "abc")] (Some "secret") = false /\
  (("hmac", "code=abc&shop=shop.myshopify.com") ∉ rest_params signed_params) /\
  (("signature", "zzz") ∉ rest_params signed_params) /\
  ("code", "abc") ∈ rest_params signed_params.
Proof.
  assert (Hclean : forall k v,
            (k, v) ∈ [("shop", "shop.myshopify.com"); ("code", "abc")] ->
            k <> "hmac" /\ k <> "signature").
  { intros k v Hin.
    apply elem_of_cons in Hin as [Hin|Hin]; [inversion Hin; split; discriminate|].
    apply list_elem_of_singleton in Hin. inversion Hin; split; discriminate. }
  assert (Hmsg : buildQueryString [("shop", "shop.myshopify.com"); ("code", "abc")]
                 = "code=abc&shop=shop.myshopify.com") by (vm_compute; reflexivity).
  destruct (verifyHmac_coverage (fun _ message => message) signed_params signed_params
              (Some "secret")) as (_ & Helem & Hsigned & _).
  destruct (Hsigned "secret" "code=abc&shop=shop.myshopify.com" "zzz"
              [("shop", "shop.myshopify.com"); ("code", "abc")]
              ltac:(discriminate) ltac:(discriminate) Hclean) as [H1 H2].
  split; [exact Hmsg|].
  split; [unfold signed_params; rewrite H1, Hmsg; reflexivity|].
  split; [rewrite H2, Hmsg; reflexivity|].
  split.
  { destruct (Hsigned "secret"
                "code=abc&hmac=code=abc&shop=shop.myshopify.com&shop=shop.myshopify.com"
                "zzz" [("shop", "shop.myshopify.com"); ("code", "abc")]
                ltac:(discriminate) ltac:(discriminate) Hclean) as [_ H3].
    rewrite H3, Hmsg. reflexivity. }
  split; [intros Hin; apply Helem in Hin as (_ & Hn & _); now apply Hn|].
  split; [intros Hin; apply Helem in Hin as (_ & _ & Hn); now apply Hn|].
  apply Helem. split; [|split; discriminate].
  unfold signed_params. do 3 apply list_elem_of_further. apply list_elem_of_here.
Defined.

Lemma webhook_registration_witness :
  callback sample_config sample_auth_env sample_params installing_store =
    (Send 200 "App installed. You can close this window.", installed_store,
     ["orders/paid"; "orders/cancelled"; "refunds/create"]) /\
  fst (fst (callback sample_config refusing_auth_env sample_params installing_store)) =
    Send 500 "Webhook registration failed" /\
  snd (callback sample_config refusing_auth_env sample_params installing_store) =
    ["orders/paid"; "orders/cancelled"] /\
  snd (callback sample_config refusing_auth_env sample_params installing_store)
    `prefix_of` ["orders/paid"; "orders/cancelled"; "refunds/create"] /\
  register_ok refusing_auth_env "shop.myshopify.com" "token-1" "orders/paid"
    "https://app.example/api/battle-webhook" = true /\
  register_ok refusing_auth_env "shop.myshopify.com" "token-1" "orders/cancelled"
    "https://app.example/api/battle-webhook" = false /\
  shop_tokens (snd (fst (callback sample_config refusing_auth_env sample_params
                           installing_store))) !! "shop.myshopify.com" = Some "token-1".
Proof.
  split; [reflexivity|]. split; [reflexivity|]. split; [reflexivity|].
  split.
  { exact (proj1 (webhook_registration sample_config refusing_auth_env sample_params
                    installing_store)). }
  split; [reflexivity|]. split; reflexivity.
Defined.

Lemma webhook_cache_frame_witness :
  products (snd (webhook sample_env sample_paid empty_kv))
    !! ("shop.myshopify.com", 55%Z) = Some (mkEntry Sweet 87400) /\
  (exists p item pid,
     body sample_paid = BodyObject p /\ item ∈ line_items p /\
     truthy_id (product_id item) = Some pid /\
     ("shop.myshopify.com", 55%Z) =
       (match shop_domain sample_paid with
        | Some s => if String.eqb s "" then "default" else s
        | None => "default"
        end, pid)) /\
  webhook sample_env unsigned_paid empty_kv = (401, empty_kv) /\
  products (snd (webhook sample_env sample_cancel paid_store)) = products paid_store.
Proof.
  split; [reflexivity|].
  split.
  { apply (proj2 (webhook_cache_frame sample_env sample_paid empty_kv)
             ("shop.myshopify.com", 55%Z)).
    discriminate. }
  split; reflexivity.
Defined.
